(** * MindMate: classification, polarity scoring and mood aggregation

    A shallow embedding of the text-processing core of the MindMate
    application (journal.py, chatbot.py, mood_plot.py and the parts of
    app.py that write mood records), together with the properties that
    its specification states about it.

    Modelling conventions.
    - A Python [str] is modelled twice.  In [Uni] and the modules named
      after it a text is its sequence of code points and the Unicode
      tables behind [str.lower], [str.strip] and the classes [\w] and [\b]
      of [re] are a parameter: this is the program on every text, and
      the properties that depend on what a word character, a white-space
      character or a lowercased text is are stated there.  In [PyStr] and
      the modules built on it a text is a [string] read with the tables
      of ASCII (a non-ASCII character appears as its UTF-8 bytes, each
      caseless, no space and no word character): this is exact on ASCII
      text, and the properties stated there relate results of the
      program to each other or do not read the characters at all.
    - A Python [int] is a [Z].  A Python [float] that the code obtains by
      dividing two token counts is the exact quotient, kept as a reduced
      fraction in [Q]; the literals 0.1 and 0.3 are 1/10 and 3/10.  For
      counts below 2^50 the comparisons of the code give the same answer
      on doubles and on the exact values.
    - The regular expressions of the code are run by a small backtracking
      matcher ([Re], [UniRe]) that follows the priority order of Python's
      [re].
    - TextBlob's sentiment estimate and the remote text service are
      external: the first is a function parameter, the second an explicit
      outcome value. *)

From Stdlib Require Import String Ascii List ZArith QArith Bool Lia Lqa.
Import ListNotations.

Open Scope string_scope.

(* ================================================================== *)
(** ** Python string primitives *)

Module PyStr.

Definition code (c : ascii) : N := N_of_ascii c.

Definition in_range (lo hi : N) (c : ascii) : bool :=
  (lo <=? code c)%N && (code c <=? hi)%N.

Definition is_upper (c : ascii) : bool := in_range 65 90 c.
Definition is_lower (c : ascii) : bool := in_range 97 122 c.
Definition is_digit (c : ascii) : bool := in_range 48 57 c.

(** [str.isspace] on one ASCII character: TAB..CR, FS..US and the blank. *)
Definition is_space (c : ascii) : bool :=
  in_range 9 13 c || in_range 28 32 c.

(** The class [\w] of [re]: letters, digits and the underscore. *)
Definition is_word (c : ascii) : bool :=
  is_digit c || is_upper c || is_lower c || (code c =? 95)%N.

Definition lower_char (c : ascii) : ascii :=
  if is_upper c then ascii_of_N (code c + 32) else c.

(** [s.lower()] *)
Fixpoint lower (s : string) : string :=
  match s with
  | EmptyString => EmptyString
  | String c s' => String (lower_char c) (lower s')
  end.

Fixpoint lstrip (s : string) : string :=
  match s with
  | EmptyString => EmptyString
  | String c s' => if is_space c then lstrip s' else s
  end.

Fixpoint rstrip (s : string) : string :=
  match s with
  | EmptyString => EmptyString
  | String c s' =>
      match rstrip s' with
      | EmptyString => if is_space c then EmptyString else String c EmptyString
      | r => String c r
      end
  end.

(** [s.strip()] *)
Definition strip (s : string) : string := rstrip (lstrip s).

Fixpoint startswith (p s : string) : bool :=
  match p, s with
  | EmptyString, _ => true
  | String _ _, EmptyString => false
  | String a p', String b s' => Ascii.eqb a b && startswith p' s'
  end.

(** [p in s] on strings: [p] occurs in [s] as a contiguous substring. *)
Fixpoint str_in (p s : string) : bool :=
  startswith p s ||
  match s with
  | EmptyString => false
  | String _ s' => str_in p s'
  end.

(** [x in xs] for a set or list of strings. *)
Definition mem (x : string) (xs : list string) : bool :=
  existsb (String.eqb x) xs.

(** Truthiness of a string: [bool(s)]. *)
Definition truthy (s : string) : bool :=
  match s with EmptyString => false | String _ _ => true end.

(** [sum(...)] over integers. *)
Definition py_sum (l : list Z) : Z := fold_right Z.add 0%Z l.

(** [s[:n]], [n >= 0]. *)
Fixpoint take (n : nat) (s : string) : string :=
  match n, s with
  | S n', String c s' => String c (take n' s')
  | _, _ => EmptyString
  end.

End PyStr.

(* ================================================================== *)
(** ** The fragment of Python's [re] that the program uses *)

Module Re.
Import PyStr.

Inductive regex : Type :=
| Lit (s : string)              (* literal characters *)
| Boundary                      (* \b *)
| WordPlus                      (* \w+ , greedy *)
| Seq (r1 r2 : regex)           (* r1 r2 *)
| Alt (r1 r2 : regex)           (* r1|r2 *)
| Opt (r : regex).              (* (?:r)? , greedy *)

(** A position in the subject: the character just before it, if any, and
    the text from it on. *)
Definition pos : Type := (option ascii * string)%type.

Definition word_before (p : pos) : bool :=
  match fst p with Some c => is_word c | None => false end.

Definition word_after (p : pos) : bool :=
  match snd p with String c _ => is_word c | EmptyString => false end.

Definition at_boundary (p : pos) : bool := xorb (word_before p) (word_after p).

Fixpoint lit (l : string) (prev : option ascii) (s : string) : list pos :=
  match l with
  | EmptyString => [(prev, s)]
  | String a l' =>
      match s with
      | String b s' => if Ascii.eqb a b then lit l' (Some b) s' else []
      | EmptyString => []
      end
  end.

(** One or more word characters; the longest run is tried first. *)
Fixpoint word_plus (s : string) : list pos :=
  match s with
  | String c s' => if is_word c then word_plus s' ++ [(Some c, s')] else []
  | EmptyString => []
  end.

(** All the ways [r] matches from position [p], as the positions where the
    match ends, in the order in which a backtracking matcher tries them. *)
Fixpoint run (r : regex) (p : pos) : list pos :=
  match r with
  | Lit l => lit l (fst p) (snd p)
  | Boundary => if at_boundary p then [p] else []
  | WordPlus => word_plus (snd p)
  | Seq r1 r2 => flat_map (run r2) (run r1 p)
  | Alt r1 r2 => run r1 p ++ run r2 p
  | Opt r1 => run r1 p ++ [p]
  end.

(** [re.match(r, s)] as a truth value: a match that starts at the start. *)
Definition re_match (r : regex) (s : string) : bool :=
  match run r (None, s) with [] => false | _ :: _ => true end.

Fixpoint search_from (r : regex) (prev : option ascii) (s : string) : bool :=
  match run r (prev, s) with
  | _ :: _ => true
  | [] =>
      match s with
      | String c s' => search_from r (Some c) s'
      | EmptyString => false
      end
  end.

(** [re.search(r, s)] as a truth value: a match that starts anywhere. *)
Definition search (r : regex) (s : string) : bool := search_from r None s.

(** [skip] characters of the subject still belong to the previous match. *)
Fixpoint findall_from (r : regex) (prev : option ascii) (s : string)
    (skip : nat) : list string :=
  match s with
  | EmptyString => []
  | String c s' =>
      match skip with
      | S k => findall_from r (Some c) s' k
      | O =>
          match run r (prev, s) with
          | [] => findall_from r (Some c) s' 0
          | e :: _ =>
              let n := (String.length s - String.length (snd e))%nat in
              take n s :: findall_from r (Some c) s' (pred n)
          end
      end
  end.

(** [re.findall(r, s)] for a pattern without groups whose matches are
    never empty: the matched substrings, leftmost first, not overlapping. *)
Definition findall (r : regex) (s : string) : list string :=
  findall_from r None s 0.

End Re.

(* ================================================================== *)
(** ** journal.py *)

Module Journal.
Import PyStr.

Definition POSITIVE_WORDS : list string :=
  [ "happy"; "joy"; "joyful"; "good"; "great"; "love"; "excited";
    "wonderful"; "delighted"; "content"; "fortunate"; "grateful"; "calm" ].

Definition NEGATIVE_WORDS : list string :=
  [ "sad"; "depressed"; "down"; "angry"; "frustrated"; "unhappy";
    "anxious"; "nervous"; "worried"; "bad"; "upset"; "fear"; "lonely";
    "hopeless" ].

(** r"\b\w+\b" *)
Definition word_re : Re.regex :=
  Re.Seq Re.Boundary (Re.Seq Re.WordPlus Re.Boundary).

Definition Qgt_bool (x y : Q) : bool := negb (Qle_bool x y).
Definition Qlt_bool (x y : Q) : bool := negb (Qle_bool y x).

(** [a / b] on integers, [b <> 0]: the quotient as a float. *)
Definition true_div (a b : Z) : Q := Qred (inject_Z a / inject_Z b).

Definition tokens_of (entry_text : string) : list string :=
  Re.findall word_re (lower entry_text).

Definition count_in (words tokens : list string) : Z :=
  py_sum (map (fun _ => 1%Z) (filter (fun token => mem token words) tokens)).

Definition polarity_of (pos_count neg_count : Z) : Q :=
  let total := (pos_count + neg_count)%Z in
  if (total =? 0)%Z then 0%Q
  else true_div (pos_count - neg_count) total.

Definition mood_of (polarity : Q) : string :=
  if Qgt_bool polarity (1 # 10) then "positive"
  else if Qlt_bool polarity (- (1 # 10)) then "negative"
  else "neutral".

Definition analyze_emotion (entry_text : string) : string * Q :=
  let tokens := tokens_of entry_text in
  let pos_count := count_in POSITIVE_WORDS tokens in
  let neg_count := count_in NEGATIVE_WORDS tokens in
  let polarity := polarity_of pos_count neg_count in
  (mood_of polarity, polarity).

End Journal.

(* ================================================================== *)
(** ** chatbot.py *)

Module Chatbot.
Import PyStr.

Definition POS_THRESHOLD : Q := 3 # 10.
Definition NEG_THRESHOLD : Q := - (3 # 10).

(** The dict that [detect_intent_and_emotion] returns. *)
Record context : Type := { emotion : string; intent : string }.

(** [any(p in text for p in phrases)] *)
Definition _contains_any (text : string) (phrases : list string) : bool :=
  existsb (fun p => str_in p text) phrases.

(** w|w1|...|wn *)
Fixpoint one_of (w : string) (ws : list string) : Re.regex :=
  match ws with
  | [] => Re.Lit w
  | w' :: ws' => Re.Alt (Re.Lit w) (one_of w' ws')
  end.

(** r"\b(what|why|how|when|where|who|can|should|could|would|is|are|do|does)\b" *)
Definition question_re : Re.regex :=
  Re.Seq Re.Boundary
    (Re.Seq
       (one_of "what"
          [ "why"; "how"; "when"; "where"; "who"; "can"; "should"; "could";
            "would"; "is"; "are"; "do"; "does" ])
       Re.Boundary).

Definition _question_like (text : string) : bool :=
  if str_in "?" text then true else Re.re_match question_re text.

Definition positive_terms : list string :=
  [ "happy"; "good"; "great"; "excited"; "okay"; "ok"; "fine"; "positive";
    "calm"; "content" ].

Definition negative_terms : list string :=
  [ "sad"; "down"; "depressed"; "anxious"; "angry"; "stressed"; "worried";
    "upset" ].

(** (?:so |that )? *)
Definition so_that : Re.regex := Re.Opt (Re.Alt (Re.Lit "so ") (Re.Lit "that ")).

(** (?:feel(?:ing)? )? *)
Definition feeling : Re.regex :=
  Re.Opt (Re.Seq (Re.Lit "feel") (Re.Seq (Re.Opt (Re.Lit "ing")) (Re.Lit " "))).

(** The five patterns built for the term [t]; [re.escape] leaves the
    letters of a term as they are. *)
Definition patterns (t : string) : list Re.regex :=
  let tail (mid : Re.regex) := Re.Seq mid (Re.Seq (Re.Lit t) Re.Boundary) in
  [ Re.Seq Re.Boundary (Re.Seq (Re.Lit "not ") (tail so_that));
    Re.Seq Re.Boundary (Re.Seq (Re.Lit "not feeling ") (tail so_that));
    Re.Seq Re.Boundary (Re.Seq (Re.Lit "don't feel ") (tail so_that));
    Re.Seq Re.Boundary (Re.Seq (Re.Lit "do not feel ") (tail so_that));
    Re.Seq Re.Boundary (Re.Seq (Re.Lit "no longer ") (tail feeling)) ].

Definition _has_negated (text : string) (terms : list string) : bool :=
  existsb (fun t => existsb (fun p => Re.search p text) (patterns t)) terms.

Definition achievement_phrases : list string :=
  [ "i made"; "i built"; "i created"; "i achieved"; "i accomplished";
    "promotion"; "got hired"; "won"; "passed"; "nailed it";
    "big achievement"; "proud of"; "shipped" ].
Definition gratitude_phrases : list string :=
  [ "thank you"; "thanks"; "appreciate it"; "grateful" ].
Definition apology_phrases : list string :=
  [ "sorry"; "apologies"; "my fault"; "apologize" ].
Definition anger_phrases : list string :=
  [ "angry"; "mad"; "furious"; "pissed"; "rage" ].
Definition tiredness_phrases : list string :=
  [ "tired"; "exhausted"; "drained"; "fatigued"; "sleepy"; "burnt out";
    "burned out" ].
Definition overwhelm_phrases : list string :=
  [ "overwhelmed"; "too much"; "can’t handle"; "cant handle"; "overloaded" ].
Definition confusion_phrases : list string :=
  [ "confused"; "don’t know"; "dont know"; "unsure"; "uncertain" ].
Definition loneliness_phrases : list string := [ "lonely"; "alone"; "isolated" ].
Definition anxiety_phrases : list string :=
  [ "anxious"; "anxiety"; "worried"; "stress"; "stressed" ].
Definition journal_phrases : list string :=
  [ "write"; "diary"; "journaling"; "notes" ].
Definition breathing_phrases : list string :=
  [ "breathe"; "breathing"; "grounding"; "relax"; "calm down" ].
Definition capability_phrases : list string :=
  [ "who are you"; "what are you"; "what can you do"; "help me";
    "how can you help"; "what can i do" ].
Definition greet_phrases : list string :=
  [ "hello"; "hi"; "hey"; "good morning"; "good evening"; "good afternoon" ].

(** The if/elif chain of [detect_intent_and_emotion] over the normalised
    text. *)
Definition intent_of (text : string) : string :=
  if _contains_any text achievement_phrases then "achievement"
  else if _contains_any text gratitude_phrases then "gratitude"
  else if _contains_any text apology_phrases then "apology"
  else if _contains_any text anger_phrases then "anger"
  else if _contains_any text tiredness_phrases then "tiredness"
  else if _contains_any text overwhelm_phrases then "overwhelm"
  else if _contains_any text confusion_phrases then "confusion"
  else if _contains_any text loneliness_phrases then "loneliness"
  else if _contains_any text anxiety_phrases then "anxiety"
  else if str_in "journal" text || _contains_any text journal_phrases
       then "journal"
  else if _contains_any text breathing_phrases then "breathing"
  else if _contains_any text capability_phrases then "capability"
  else if _contains_any text greet_phrases then "greet"
  else "none".

(** The emotion label for a polarity estimate: the three returns of
    [get_emotion]. *)
Definition emotion_of_polarity (polarity : Q) : string :=
  if Journal.Qgt_bool polarity POS_THRESHOLD then "positive"
  else if Journal.Qlt_bool polarity NEG_THRESHOLD then "negative"
  else "neutral".

Section WithSentiment.

(** [TextBlob(text).sentiment.polarity], a value in [-1, 1]. *)
Variable sentiment_polarity : string -> Q.

Definition get_emotion (text : string) : string :=
  emotion_of_polarity (sentiment_polarity text).

Definition detect_intent_and_emotion (user_input : string) : context :=
  let text := strip (lower user_input) in
  let emotion :=
    if _has_negated text positive_terms then "negative"
    else if _has_negated text negative_terms then "neutral"
    else get_emotion text in
  {| emotion := emotion; intent := intent_of text |}.

Definition default_prompt : string :=
  "I'm here to listen. How are you feeling today?".

Definition get_response (user_input : string) : string :=
  if negb (truthy user_input) || negb (truthy (strip user_input)) then
    default_prompt
  else
  let text := lower user_input in
  let ctx := detect_intent_and_emotion text in
  let emotion := ctx.(emotion) in
  if ctx.(intent) =? "achievement" then
    "That’s amazing — congratulations! What part of this achievement makes you most proud?"
  else if ctx.(intent) =? "gratitude" then
    "You’re very welcome. I’m glad to be here for you."
  else if ctx.(intent) =? "apology" then
    "It’s okay to make mistakes. What would help you be kinder to yourself right now?"
  else if ctx.(intent) =? "anger" then
    "Anger can feel intense. Would a short grounding exercise help you release some of that tension?"
  else if ctx.(intent) =? "tiredness" then
    "You sound worn out. A quick rest, water, or a short walk might help. Want to plan a tiny break?"
  else if ctx.(intent) =? "overwhelm" then
    "Feeling overwhelmed is tough. Let’s break things into one small next step—what’s the first doable action?"
  else if ctx.(intent) =? "confusion" then
    "It’s okay to not have all the answers. What options are you considering right now?"
  else if ctx.(intent) =? "loneliness" then
    "You’re not alone. I’m here with you. Would reaching out to someone or journaling help right now?"
  else if ctx.(intent) =? "anxiety" then
    "Deep breathing can help. Want me to guide you through a short exercise?"
  else if _contains_any text ["sad"; "down"; "depressed"; "blue"]
          || (emotion =? "negative") then
    "I'm here for you. Would you like to try a breathing exercise or write a journal entry?"
  else if _contains_any text
            ["happy"; "joy"; "excited"; "great"; "good"; "awesome";
             "fantastic"; "grateful"]
          || (emotion =? "positive") then
    "That's wonderful! Want to share what made your day so good?"
  else if ctx.(intent) =? "journal" then
    "Sure! Head to the Journal tab and write down your thoughts."
  else if ctx.(intent) =? "breathing" then
    "Try this: inhale for 4, hold for 4, exhale for 6 — repeat 4 times. How do you feel after that?"
  else if ctx.(intent) =? "capability" then
    "I’m MindMate—here to listen, reflect, and offer gentle suggestions like journaling or simple breathing exercises. What would help most right now?"
  else if ctx.(intent) =? "greet" then
    "Hello! How are you feeling right now?"
  else if emotion =? "positive" then
    "I love your positive energy. Would you like to capture this in your journal?"
  else if emotion =? "negative" then
    "That sounds tough. I'm here for you. Want to talk more or write about it?"
  else if _question_like text then
    "That’s a thoughtful question. What outcome would feel right for you? Sometimes writing your thoughts helps clarify."
  else
    "I'm listening. Tell me a bit more about what’s on your mind.".

End WithSentiment.

(** *** The optional generative text service *)

(** What [os.getenv] and the import of the OpenAI client give. *)
Record os_env : Type := {
  OPENAI_API_KEY : option string;
  OPENAI_MODEL : option string;
  OLLAMA_BASE_URL : option string;
  OLLAMA_MODEL : option string;
  openai_installed : bool            (* OpenAI is not None *)
}.

(** [os.getenv(name, default)] *)
Definition getenv_or (v : option string) (default : string) : string :=
  match v with Some s => s | None => default end.

(** Truthiness of [os.getenv(name)]. *)
Definition is_set (v : option string) : bool :=
  match v with Some s => truthy s | None => false end.

Definition llm_available (env : os_env) : bool :=
  if is_set env.(OPENAI_API_KEY) && env.(openai_installed) then true
  else truthy (getenv_or env.(OLLAMA_BASE_URL) "http://localhost:11434").

(** One entry of the history: a dict that may lack either key. *)
Record turn : Type := { turn_role : option string; turn_content : option string }.

Record message : Type := { role : string; content : string }.

Record llm_request : Type := {
  use_openai : bool;
  model : string;
  messages : list message
}.

(** What a call made inside the [try] block does: it raises (a timeout, a
    refused connection, an error status at [raise_for_status], a body that
    is not JSON, a payload of another shape, a setting that is not a
    number), or it returns. *)
Inductive outcome (A : Type) : Type :=
| Raised
| Returned (a : A).
Arguments Raised {A}.
Arguments Returned {A} a.

(** The two providers.  OpenAI returns the [message.content] of each
    choice ([None] for null); Ollama returns the fields
    [message.content] and [response] of its JSON object. *)
Record services : Type := {
  openai_create : llm_request -> outcome (list (option string));
  ollama_chat : llm_request -> outcome (option string * option string)
}.

Definition detailed_prompt : string :=
  "You are MindMate, an empathetic mental wellness companion. " ++
  "Be warm, validating, and human-like. Write a fuller response (2-4 short paragraphs). " ++
  "1) Acknowledge and reflect the user's message in your own words. " ++
  "2) Offer 1-2 practical, gentle suggestions (e.g., journaling prompts, breathing, small next steps). " ++
  "3) End with exactly one open-ended question to keep the conversation going. " ++
  "Avoid medical diagnoses or judgments. Keep language simple, hopeful, and grounded. " ++
  "If appropriate, connect to recent parts of the conversation without repeating the same line.".

Definition concise_prompt : string :=
  "You are MindMate, an empathetic mental wellness companion. " ++
  "Be warm, supportive, non-judgmental. Keep replies concise (1-2 short paragraphs). " ++
  "Offer gentle suggestions like journaling or breathing, and ask at most one follow-up question.".

(** [l[-n:]], [n > 0]. *)
Definition last_n {A : Type} (n : nat) (l : list A) : list A :=
  skipn (List.length l - n) l.

(** The messages appended for the history; an absent history ([None]) is
    the empty list, which the code treats alike. *)
Definition history_messages (history : list turn) : list message :=
  flat_map
    (fun m =>
       let c := getenv_or m.(turn_content) "" in
       if truthy c
       then [ {| role := getenv_or m.(turn_role) "user"; content := c |} ]
       else [])
    (last_n 10 history).

Definition build_request (env : os_env) (user_input : string)
    (history : list turn) (style : string) : llm_request :=
  let use_openai := is_set env.(OPENAI_API_KEY) && env.(openai_installed) in
  let model :=
    if use_openai then getenv_or env.(OPENAI_MODEL) "gpt-4o-mini"
    else getenv_or env.(OLLAMA_MODEL) "llama3.2" in
  let system_prompt :=
    if style =? "detailed" then detailed_prompt else concise_prompt in
  {| use_openai := use_openai;
     model := model;
     messages :=
       [ {| role := "system"; content := system_prompt |} ]
       ++ history_messages history
       ++ [ {| role := "user"; content := user_input |} ] |}.

(** [x or y] on optional strings. *)
Definition py_or (x y : option string) : option string :=
  if is_set x then x else y.

Definition get_llm_response (env : os_env) (svc : services)
    (user_input : string) (history : list turn) (style : string)
    : option string :=
  if negb (llm_available env) then None
  else
    let req := build_request env user_input history style in
    if req.(use_openai) then
      match svc.(openai_create) req with
      | Raised => None
      | Returned [] => None
      | Returned (None :: _) => None       (* None.strip() raises *)
      | Returned (Some c :: _) => Some (strip c)
      end
    else
      match svc.(ollama_chat) req with
      | Raised => None
      | Returned (message_content, response) =>
          let content := py_or message_content response in
          match content with
          | Some c => if truthy c then Some (strip c) else None
          | None => None
          end
      end.

Section Reply.

Variable sentiment_polarity : string -> Q.

Definition generate_reply (env : os_env) (svc : services)
    (user_input : string) (history : list turn) (style : string) : string :=
  match get_llm_response env svc user_input history style with
  | Some llm =>
      if truthy llm then llm else get_response sentiment_polarity user_input
  | None => get_response sentiment_polarity user_input
  end.

End Reply.

End Chatbot.

(* ================================================================== *)
(** ** mood_plot.py *)

Module MoodPlot.
Import PyStr.

(** A row of [SELECT date, mood FROM ... ORDER BY date ASC]. *)
Definition row : Type := (string * string)%type.

(** The line chart handed to Matplotlib and the file it is saved to. *)
Record figure : Type := {
  fig_path : string;
  fig_dates : list string;
  fig_values : list Z
}.

(** The branch on [mood.lower()] in the loop over the rows. *)
Definition mood_value (mood : string) : Z :=
  if lower mood =? "positive" then 1%Z
  else if lower mood =? "negative" then (-1)%Z
  else 0%Z.

Definition mood_values (rows : list row) : list Z :=
  map (fun r => mood_value (snd r)) rows.

(** The rows the function works on: those of mood_signals, unless that
    query raises (the table is missing, [None]) or gives nothing, in which
    case those of journal_entries. *)
Definition fetch_rows (signals : option (list row)) (journal : list row)
    : list row :=
  match signals with
  | Some (r :: rows) => r :: rows
  | _ => journal
  end.

(** [plot_mood_trend]: the value returned and the figure saved, if any. *)
Definition plot_mood_trend (signals : option (list row)) (journal : list row)
    : option string * option figure :=
  match fetch_rows signals journal with
  | [] => (None, None)
  | rows =>
      (Some "static/mood_trend.png",
       Some {| fig_path := "static/mood_trend.png";
               fig_dates := map fst rows;
               fig_values := mood_values rows |})
  end.

End MoodPlot.

(* ================================================================== *)
(** ** app.py: the records written to the store *)

Module App.
Import PyStr.

Record journal_entry : Type := {
  je_date : string;
  je_content : string;
  je_mood : string;
  je_polarity : Q
}.

Record mood_signal : Type := {
  ms_date : string;
  ms_source : string;
  ms_content : string;
  ms_mood : string;
  ms_polarity : Q
}.

(** The two append-only tables. *)
Record database : Type := {
  journal_entries : list journal_entry;
  mood_signals : list mood_signal
}.

(** [init_db] on a fresh file. *)
Definition init_db : database :=
  {| journal_entries := []; mood_signals := [] |}.

Section WithSentiment.

Variable sentiment_polarity : string -> Q.

(** The context of a chat turn, after the "not angry" override. *)
Definition chat_context (prompt : string) : Chatbot.context :=
  let ctx := Chatbot.detect_intent_and_emotion sentiment_polarity prompt in
  if str_in "not angry" (lower prompt)
  then {| Chatbot.emotion := "neutral"; Chatbot.intent := "none" |}
  else ctx.

Definition chat_signal (now prompt : string) : mood_signal :=
  let ctx := chat_context prompt in
  {| ms_date := now;
     ms_source := "chat";
     ms_content := prompt;
     ms_mood := ctx.(Chatbot.emotion);
     ms_polarity :=
       if ctx.(Chatbot.emotion) =? "positive" then 1
       else if ctx.(Chatbot.emotion) =? "negative" then - (1)
       else 0 |}.

(** The Chat page on a submitted prompt. *)
Definition chat_turn (now prompt : string) (db : database) : database :=
  if truthy prompt then
    {| journal_entries := db.(journal_entries);
       mood_signals := db.(mood_signals) ++ [chat_signal now prompt] |}
  else db.

(** The Journal page on "Save Entry". *)
Definition journal_submit (now entry : string) (db : database) : database :=
  if truthy (strip entry) then
    let '(mood, polarity) := Journal.analyze_emotion entry in
    {| journal_entries :=
         db.(journal_entries)
         ++ [ {| je_date := now; je_content := entry; je_mood := mood;
                 je_polarity := polarity |} ];
       mood_signals :=
         db.(mood_signals)
         ++ [ {| ms_date := now; ms_source := "journal"; ms_content := entry;
                 ms_mood := mood; ms_polarity := polarity |} ] |}
  else db.

(** The /journal route of the Flask variant of the app: the entry is
    trimmed first and only the journal table is written. *)
Definition flask_journal (now entry : string) (db : database) : database :=
  let entry_text := strip entry in
  if truthy entry_text then
    let '(mood, polarity) := Journal.analyze_emotion entry_text in
    {| journal_entries :=
         db.(journal_entries)
         ++ [ {| je_date := now; je_content := entry_text; je_mood := mood;
                 je_polarity := polarity |} ];
       mood_signals := db.(mood_signals) |}
  else db.

(** What a user can do that writes to the store; [now] is the clock. *)
Inductive action : Type :=
| Chat (now prompt : string)
| SaveEntry (now entry : string)
| FlaskEntry (now entry : string).

Definition step (db : database) (a : action) : database :=
  match a with
  | Chat now prompt => chat_turn now prompt db
  | SaveEntry now entry => journal_submit now entry db
  | FlaskEntry now entry => flask_journal now entry db
  end.

(** The store after a session. *)
Definition session (actions : list action) : database :=
  fold_left step actions init_db.

End WithSentiment.

End App.

(* ================================================================== *)
(** ** The notions of the specification: its scorer and rule list in its
       own words, and the predicates of its properties *)

Module Spec.
Import PyStr.

(** Tokens on word boundaries: the maximal runs of word characters. *)
Fixpoint split_words (s : string) : list string :=
  match s with
  | EmptyString => []
  | String c s' =>
      if is_word c then
        match s' with
        | String c' _ =>
            if is_word c' then
              match split_words s' with
              | w :: ws => String c w :: ws
              | [] => [String c EmptyString]
              end
            else String c EmptyString :: split_words s'
        | EmptyString => [String c EmptyString]
        end
      else split_words s'
  end.

(** The length of the longest prefix of word characters. *)
Fixpoint wlen (s : string) : nat :=
  match s with
  | String c s' => if is_word c then S (wlen s') else O
  | EmptyString => O
  end.


(** Where the run of word characters that starts at [s] ends. *)
Fixpoint run_end (prev : option ascii) (s : string) : Re.pos :=
  match s with
  | String c s' => if is_word c then run_end (Some c) s' else (prev, s)
  | EmptyString => (prev, EmptyString)
  end.

(** The number of tokens present in a word set. *)
Definition count_present (words tokens : list string) : Z :=
  Z.of_nat (List.length (filter (fun t => mem t words) tokens)).

(** polarity = (pos - neg)/(pos + neg) if pos + neg > 0 else 0.0;
    mood: > 0.1 positive, < -0.1 negative, else neutral. *)
Definition polarity_scorer (text : string) : string * Q :=
  let tokens := split_words text in
  let pos := count_present Journal.POSITIVE_WORDS tokens in
  let neg := count_present Journal.NEGATIVE_WORDS tokens in
  let polarity :=
    if (0 <? pos + neg)%Z then Qred ((pos - neg) # Z.to_pos (pos + neg))
    else 0 in
  let mood :=
    if Qle_bool polarity (1 # 10)
    then (if Qle_bool (- (1 # 10)) polarity then "neutral" else "negative")
    else "positive" in
  (mood, polarity).

(** Agreement of a stored label with a stored polarity under the journal
    thresholds. *)
Definition agrees (mood : string) (polarity : Q) : Prop :=
  (mood = "positive" /\ 1 # 10 < polarity) \/
  (mood = "negative" /\ polarity < - (1 # 10)) \/
  (mood = "neutral" /\ - (1 # 10) <= polarity /\ polarity <= 1 # 10).

(** The same under the thresholds of the chat classifier. *)
Definition agrees_chat (mood : string) (polarity : Q) : Prop :=
  (mood = "positive" /\ Chatbot.POS_THRESHOLD < polarity) \/
  (mood = "negative" /\ polarity < Chatbot.NEG_THRESHOLD) \/
  (mood = "neutral" /\ Chatbot.NEG_THRESHOLD <= polarity
                    /\ polarity <= Chatbot.POS_THRESHOLD).

(** The sign of the polarity and the label never contradict each other. *)
Definition sign_compatible (mood : string) (polarity : Q) : Prop :=
  (mood = "positive" /\ 0 < polarity) \/
  (mood = "negative" /\ polarity < 0) \/
  (mood = "neutral").

(** The text begins with a character that is no white space. *)
Definition starts_nonspace (p : string) : bool :=
  match p with
  | EmptyString => false
  | String a _ => negb (is_space a)
  end.

Definition all_space (s : string) : bool :=
  forallb is_space (list_ascii_of_string s).

(** Every canned reply of the rule-based responder. *)
Definition canned_replies : list string :=
  [ Chatbot.default_prompt;
    "That’s amazing — congratulations! What part of this achievement makes you most proud?";
    "You’re very welcome. I’m glad to be here for you.";
    "It’s okay to make mistakes. What would help you be kinder to yourself right now?";
    "Anger can feel intense. Would a short grounding exercise help you release some of that tension?";
    "You sound worn out. A quick rest, water, or a short walk might help. Want to plan a tiny break?";
    "Feeling overwhelmed is tough. Let’s break things into one small next step—what’s the first doable action?";
    "It’s okay to not have all the answers. What options are you considering right now?";
    "You’re not alone. I’m here with you. Would reaching out to someone or journaling help right now?";
    "Deep breathing can help. Want me to guide you through a short exercise?";
    "I'm here for you. Would you like to try a breathing exercise or write a journal entry?";
    "That's wonderful! Want to share what made your day so good?";
    "Sure! Head to the Journal tab and write down your thoughts.";
    "Try this: inhale for 4, hold for 4, exhale for 6 — repeat 4 times. How do you feel after that?";
    "I’m MindMate—here to listen, reflect, and offer gentle suggestions like journaling or simple breathing exercises. What would help most right now?";
    "Hello! How are you feeling right now?";
    "I love your positive energy. Would you like to capture this in your journal?";
    "That sounds tough. I'm here for you. Want to talk more or write about it?";
    "That’s a thoughtful question. What outcome would feel right for you? Sometimes writing your thoughts helps clarify.";
    "I'm listening. Tell me a bit more about what’s on your mind." ].

Definition emotion_labels : list string := [ "positive"; "negative"; "neutral" ].

Definition intent_labels : list string :=
  [ "achievement"; "gratitude"; "apology"; "anger"; "tiredness"; "overwhelm";
    "confusion"; "loneliness"; "anxiety"; "journal"; "breathing";
    "capability"; "greet"; "none" ].

(** A chat record carries one of the three labels, with the polarity
    1.0, -1.0 or 0.0 that goes with it. *)
Definition chat_pair (mood : string) (polarity : Q) : Prop :=
  (mood = "positive" /\ polarity = 1) \/
  (mood = "negative" /\ polarity = - (1)) \/
  (mood = "neutral" /\ polarity = 0).

Definition entry_ok (e : App.journal_entry) : Prop :=
  agrees e.(App.je_mood) e.(App.je_polarity) /\
  sign_compatible e.(App.je_mood) e.(App.je_polarity).

Definition signal_ok (m : App.mood_signal) : Prop :=
  agrees m.(App.ms_mood) m.(App.ms_polarity) /\
  sign_compatible m.(App.ms_mood) m.(App.ms_polarity) /\
  (m.(App.ms_source) = "journal" \/
   (m.(App.ms_source) = "chat" /\
    chat_pair m.(App.ms_mood) m.(App.ms_polarity) /\
    agrees_chat m.(App.ms_mood) m.(App.ms_polarity))).

(** Every row of both tables is consistent. *)
Definition store_ok (db : App.database) : Prop :=
  Forall entry_ok db.(App.journal_entries) /\
  Forall signal_ok db.(App.mood_signals).

(** The three cases of the label-to-number mapping of the aggregator. *)
Definition value_of_label (mood : string) (v : Z) : Prop :=
  (lower mood = "positive" /\ v = 1%Z) \/
  (lower mood = "negative" /\ v = (-1)%Z) \/
  (lower mood <> "positive" /\ lower mood <> "negative" /\ v = 0%Z).

(** An answer without text: absent, empty or white space only. *)
Definition no_text (o : option string) : Prop :=
  match o with
  | Some c => strip c = EmptyString
  | None => True
  end.

(** The text of an Ollama answer: the message content, or the response
    field when that content is absent or empty. *)
Definition ollama_text (message_content response : option string)
    : option string :=
  match message_content with
  | Some (String _ _) => message_content
  | _ => response
  end.

(** The provider that [get_llm_response] would call answers, but without
    text: no choice at all, or a first choice without text (OpenAI); an
    object without text (Ollama). *)
Definition provider_silent (env : Chatbot.os_env) (svc : Chatbot.services)
    (user_input : string) (history : list Chatbot.turn) (style : string)
    : Prop :=
  let req := Chatbot.build_request env user_input history style in
  if req.(Chatbot.use_openai)
  then svc.(Chatbot.openai_create) req = Chatbot.Returned [] \/
       exists c rest,
         svc.(Chatbot.openai_create) req = Chatbot.Returned (c :: rest) /\
         no_text c
  else exists m r,
         svc.(Chatbot.ollama_chat) req = Chatbot.Returned (m, r) /\
         no_text (ollama_text m r).

(** The provider that [get_llm_response] would call raises. *)
Definition provider_raises (env : Chatbot.os_env) (svc : Chatbot.services)
    (user_input : string) (history : list Chatbot.turn) (style : string)
    : Prop :=
  let req := Chatbot.build_request env user_input history style in
  if req.(Chatbot.use_openai)
  then svc.(Chatbot.openai_create) req = Chatbot.Raised
  else svc.(Chatbot.ollama_chat) req = Chatbot.Raised.

End Spec.

(* ================================================================== *)
(** ** Patterns anchored on a word boundary *)

Module Trim.

(** The pattern begins with the assertion [\b]. *)
Fixpoint starts_with_boundary (r : Re.regex) : bool :=
  match r with
  | Re.Boundary => true
  | Re.Seq r1 _ => starts_with_boundary r1
  | _ => false
  end.

End Trim.

(* ================================================================== *)
(** ** suggestions.py *)

Module Suggestions.
Import PyStr.

(** [d.get(key, default)] on a dict written as its items in order. *)
Fixpoint dict_get (d : list (string * string)) (key default : string)
    : string :=
  match d with
  | [] => default
  | (k, v) :: d' => if String.eqb k key then v else dict_get d' key default
  end.

Definition suggestions : list (string * string) :=
  [ ("positive",
     "Keep up the positive energy! Consider writing down three things you're grateful for.");
    ("negative",
     "It might help to take a few deep breaths or go for a short walk. Reflect on what made you feel this way.");
    ("neutral",
     "Perhaps try a short meditation or note one thing that went well today.") ].

Definition fallback_suggestion : string :=
  "Take a moment to reflect on how you're feeling and write about it.".

Definition get_suggestion (mood : string) : string :=
  dict_get suggestions (lower mood) fallback_suggestion.

End Suggestions.

(* ================================================================== *)
(** ** app.py: the Chat page and its session state *)

Module ChatPage.
Import PyStr.

(** [st.session_state]; [_memory_hint_shown] is absent until the first
    prompt. *)
Record session_state : Type := {
  messages : list Chatbot.message;
  last_intent : option string;
  last_emotion : option string;
  last_achievement : option string;
  _memory_hint_shown : option bool
}.

(** The state of a new session. *)
Definition new_session : session_state :=
  {| messages := []; last_intent := None; last_emotion := None;
     last_achievement := None; _memory_hint_shown := None |}.

(** The sidebar widgets read on each run. *)
Record controls : Type := { reply_style : string; memory_enabled : bool }.

Definition hint_intents : list string :=
  [ "achievement"; "overwhelm"; "anger"; "tiredness"; "anxiety" ].

Definition hints : list (string * string) :=
  [ ("achievement", "Earlier you mentioned a win — congrats again.");
    ("overwhelm", "Earlier you mentioned feeling overwhelmed.");
    ("anger", "Earlier you mentioned feeling angry.");
    ("tiredness", "Earlier you mentioned feeling worn out.");
    ("anxiety", "Earlier you mentioned feeling anxious.") ].

(** [d[key]]; [None] stands for the KeyError. *)
Fixpoint dict_item (d : list (string * string)) (key : string)
    : option string :=
  match d with
  | [] => None
  | (k, v) :: d' => if String.eqb k key then Some v else dict_item d' key
  end.

(** [x in xs] when [x] may be None. *)
Definition opt_mem (x : option string) (xs : list string) : bool :=
  match x with Some s => mem s xs | None => false end.

(** [s == x] when [x] may be None. *)
Definition opt_eqb (s : string) (x : option string) : bool :=
  match x with Some s' => String.eqb s s' | None => false end.

(** The text put after the hint of an achievement. *)
Definition about (achievement : string) : string :=
  " (about: ‘" ++ take 80 achievement
  ++ (if (80 <? String.length achievement)%nat then "…" else "")
  ++ "’)".

(** Lines 83-105: the memory line, if any, and the new value of
    [_memory_hint_shown]; [None] when the lookup in [hints] raises. *)
Definition memory_hint (memory_enabled : bool) (ctx_emotion : string)
    (st_last_intent st_last_emotion st_last_achievement : option string)
    (shown : bool) : option (option string * bool) :=
  if memory_enabled && opt_mem st_last_intent hint_intents then
    if negb shown then
      match dict_item hints (Chatbot.getenv_or st_last_intent "") with
      | None => None
      | Some line =>
          let line :=
            if opt_eqb "achievement" st_last_intent
               && Chatbot.is_set st_last_achievement
            then line ++ about (Chatbot.getenv_or st_last_achievement "")
            else line in
          Some (Some line, true)
      end
    else Some (None, shown)
  else if memory_enabled && opt_mem st_last_emotion ["positive"; "negative"]
  then
    if negb shown && opt_eqb ctx_emotion st_last_emotion then
      Some (Some (if opt_eqb "positive" st_last_emotion
                  then "I’m glad to hear your energy is up."
                  else "I’m keeping things gentle since it sounded tough earlier."),
            true)
    else Some (None, shown)
  else Some (None, shown).

(** What one run of the page shows for a prompt. *)
Record view : Type := {
  memory_line : option string;
  base : string;
  reply : string
}.

Definition as_turn (m : Chatbot.message) : Chatbot.turn :=
  {| Chatbot.turn_role := Some m.(Chatbot.role);
     Chatbot.turn_content := Some m.(Chatbot.content) |}.

Section WithServices.

Variable sentiment_polarity : string -> Q.
Variable env : Chatbot.os_env.
Variable svc : Chatbot.services.

(** The history handed to [generate_reply]: the last ten messages, the
    prompt included. *)
Definition history_for (msgs : list Chatbot.message) : list Chatbot.turn :=
  map as_turn (Chatbot.last_n 10 msgs).

(** Lines 46-110 for a prompt that is not empty; [None] when the run
    stops with an exception. *)
Definition on_prompt (c : controls) (now prompt : string)
    (st : session_state) (db : App.database)
    : option (session_state * App.database * view) :=
  let ctx := App.chat_context sentiment_polarity prompt in
  let achievement :=
    if ctx.(Chatbot.intent) =? "achievement" then Some prompt
    else st.(last_achievement) in
  let intent := Some ctx.(Chatbot.intent) in
  let emotion := Some ctx.(Chatbot.emotion) in
  let msgs :=
    (st.(messages)
     ++ [ {| Chatbot.role := "user"; Chatbot.content := prompt |} ])%list in
  let db' := App.chat_turn sentiment_polarity now prompt db in
  let base :=
    Chatbot.generate_reply sentiment_polarity env svc prompt
      (history_for msgs) c.(reply_style) in
  let shown :=
    match st.(_memory_hint_shown) with Some b => b | None => false end in
  match memory_hint c.(memory_enabled) ctx.(Chatbot.emotion)
          intent emotion achievement shown with
  | None => None
  | Some (line, shown') =>
      let reply :=
        match line with
        | Some l => if truthy l then strip (l ++ " " ++ base) else base
        | None => base
        end in
      Some ({| messages :=
                 (msgs ++ [ {| Chatbot.role := "assistant";
                               Chatbot.content := reply |} ])%list;
               last_intent := intent;
               last_emotion := emotion;
               last_achievement := achievement;
               _memory_hint_shown := Some shown' |},
            db',
            {| memory_line := line; base := base; reply := reply |})
  end.

(** One run of the Chat page; the empty string stands for no prompt. *)
Definition chat_page (c : controls) (now prompt : string)
    (st : session_state) (db : App.database)
    : option (session_state * App.database * option view) :=
  if truthy prompt then
    match on_prompt c now prompt st db with
    | Some (st', db', v) => Some (st', db', Some v)
    | None => None
    end
  else Some (st, db, None).

(** A run of the page: the widgets, the clock and the prompt. *)
Definition run_input : Type := (controls * string * string)%type.

(** The runs of a session in order, with what each one showed. *)
Fixpoint chat_runs (inputs : list run_input) (st : session_state)
    (db : App.database)
    : option (session_state * App.database * list (option view)) :=
  match inputs with
  | [] => Some (st, db, [])
  | (c, now, prompt) :: rest =>
      match chat_page c now prompt st db with
      | None => None
      | Some (st', db', v) =>
          match chat_runs rest st' db' with
          | None => None
          | Some (st'', db'', vs) => Some (st'', db'', v :: vs)
          end
      end
  end.

End WithServices.

End ChatPage.

(* ================================================================== *)
(** ** Further predicates on the journal, the store and the chat page *)

Module Facts.
Import PyStr.

(** What a journal entry and the mood signal written with it have in
    common; the two dates come from two readings of the clock. *)
Definition entry_core (e : App.journal_entry) : string * string * Q :=
  (e.(App.je_content), e.(App.je_mood), e.(App.je_polarity)).

Definition signal_core (m : App.mood_signal) : string * string * Q :=
  (m.(App.ms_content), m.(App.ms_mood), m.(App.ms_polarity)).

Definition from_journal (m : App.mood_signal) : bool :=
  m.(App.ms_source) =? "journal".

Definition streamlit_action (a : App.action) : bool :=
  match a with App.FlaskEntry _ _ => false | _ => true end.

(** [l1] is [l2] with rows added at the end. *)
Definition extended_by {A : Type} (l1 l2 : list A) : Prop :=
  exists added, l2 = (l1 ++ added)%list.

(** The chart value of a signal goes with its polarity. *)
Definition charted (m : App.mood_signal) : Prop :=
  (MoodPlot.mood_value m.(App.ms_mood) = 1%Z /\ 1 # 10 < m.(App.ms_polarity)) \/
  (MoodPlot.mood_value m.(App.ms_mood) = (-1)%Z
   /\ m.(App.ms_polarity) < - (1 # 10)) \/
  (MoodPlot.mood_value m.(App.ms_mood) = 0%Z
   /\ - (1 # 10) <= m.(App.ms_polarity) /\ m.(App.ms_polarity) <= 1 # 10).

(** The replies of the nine intents that come before any sentiment. *)
Definition intent_replies : list (string * string) :=
  [ ("achievement",
     "That’s amazing — congratulations! What part of this achievement makes you most proud?");
    ("gratitude", "You’re very welcome. I’m glad to be here for you.");
    ("apology",
     "It’s okay to make mistakes. What would help you be kinder to yourself right now?");
    ("anger",
     "Anger can feel intense. Would a short grounding exercise help you release some of that tension?");
    ("tiredness",
     "You sound worn out. A quick rest, water, or a short walk might help. Want to plan a tiny break?");
    ("overwhelm",
     "Feeling overwhelmed is tough. Let’s break things into one small next step—what’s the first doable action?");
    ("confusion",
     "It’s okay to not have all the answers. What options are you considering right now?");
    ("loneliness",
     "You’re not alone. I’m here with you. Would reaching out to someone or journaling help right now?");
    ("anxiety",
     "Deep breathing can help. Want me to guide you through a short exercise?") ].

Definition supportive_reply : string :=
  "I'm here for you. Would you like to try a breathing exercise or write a journal entry?".

(** Whether the session has shown its memory line. *)
Definition shown_of (st : ChatPage.session_state) : bool :=
  match st.(ChatPage._memory_hint_shown) with Some b => b | None => false end.

Definition has_line (v : option ChatPage.view) : bool :=
  match v with
  | Some w => Chatbot.is_set w.(ChatPage.memory_line)
  | None => false
  end.

(** The number of runs that showed a memory line. *)
Definition hints_shown (views : list (option ChatPage.view)) : nat :=
  List.length (filter has_line views).

(** The prompts of a session that are not empty. *)
Definition prompts (inputs : list ChatPage.run_input) : list string :=
  filter truthy (map snd inputs).

Definition user_message (prompt : string) : Chatbot.message :=
  {| Chatbot.role := "user"; Chatbot.content := prompt |}.

(** User and assistant messages in turn, the user's being the prompts. *)
Fixpoint dialogue (ps : list string) (msgs : list Chatbot.message) : Prop :=
  match ps, msgs with
  | [], [] => True
  | p :: ps', u :: a :: msgs' =>
      u = user_message p /\
      a.(Chatbot.role) = "assistant" /\
      truthy a.(Chatbot.content) = true /\
      dialogue ps' msgs'
  | _, _ => False
  end.

End Facts.

(* ================================================================== *)
(** ** Python strings beyond ASCII

    A Python [str] is a sequence of Unicode code points.  What [str.lower],
    [str.strip] and the classes [\w] and [\b] of [re] do on it is fixed by
    the Unicode database of the interpreter, which is not part of the
    program: the three tables are a parameter of the model below, which
    is the program over every text. *)

Module Uni.

(** A character is its code point. *)
Abbreviation text := (list N) (only parsing).

(** The code points of a UTF-8 encoded literal. *)
Fixpoint decode (need : nat) (acc : N) (bytes : list N) : text :=
  match bytes with
  | [] => []
  | b :: rest =>
      match need with
      | O =>
          if (b <? 128)%N then b :: decode 0 0 rest
          else if (b <? 224)%N then decode 1 (b - 192) rest
          else if (b <? 240)%N then decode 2 (b - 224) rest
          else decode 3 (b - 240) rest
      | S O => (acc * 64 + (b - 128))%N :: decode 0 0 rest
      | S n => decode n (acc * 64 + (b - 128)) rest
      end
  end.

(** The [str] that a literal of the source denotes. *)
Definition str (s : string) : text :=
  decode 0 0 (map N_of_ascii (list_ascii_of_string s)).

(** [a == b] on strings. *)
Fixpoint eqb (a b : text) : bool :=
  match a, b with
  | [], [] => true
  | x :: a', y :: b' => (x =? y)%N && eqb a' b'
  | _, _ => false
  end.

(** The tables of the Unicode database that the program reads. *)
Record unicode : Type := {
  is_word : N -> bool;        (* the class [\w] of [re] on a [str] pattern *)
  is_space : N -> bool;       (* [str.isspace]: what [strip()] removes *)
  lower : text -> text        (* [str.lower] *)
}.

Definition in_range (lo hi c : N) : bool := (lo <=? c)%N && (c <=? hi)%N.

Definition is_ascii (c : N) : bool := (c <? 128)%N.

Definition ascii_upper (c : N) : bool := in_range 65 90 c.

Definition ascii_word (c : N) : bool :=
  in_range 48 57 c || in_range 65 90 c || in_range 97 122 c || (c =? 95)%N.

Definition ascii_space (c : N) : bool := in_range 9 13 c || in_range 28 32 c.

Definition ascii_lower_char (c : N) : N :=
  if ascii_upper c then (c + 32)%N else c.

(** The tables cut down to ASCII: every other character is taken as
    caseless, as no white space and as no word character.  They agree
    with Python's on ASCII text and serve to evaluate the program there. *)
Definition ascii_tables : unicode :=
  {| is_word := ascii_word;
     is_space := ascii_space;
     lower := map ascii_lower_char |}.

(** Tables that know, beyond ASCII, what Python's say of four characters:
    the letters U+00E9 and U+00C9 (e with acute accent, small and
    capital), U+212A KELVIN SIGN (a letter whose lowercase form is the
    ASCII letter k) and U+00A0 NO-BREAK SPACE (white space). *)
Definition sample_lower_char (c : N) : N :=
  if (c =? 201)%N then 233%N
  else if (c =? 8490)%N then 107%N
  else ascii_lower_char c.

Definition sample_tables : unicode :=
  {| is_word := fun c =>
       ascii_word c || (c =? 233)%N || (c =? 201)%N || (c =? 8490)%N;
     is_space := fun c => ascii_space c || (c =? 160)%N;
     lower := map sample_lower_char |}.

Section Tables.

Variable U : unicode.

Fixpoint lstrip (s : text) : text :=
  match s with
  | [] => []
  | c :: s' => if is_space U c then lstrip s' else s
  end.

Fixpoint rstrip (s : text) : text :=
  match s with
  | [] => []
  | c :: s' =>
      match rstrip s' with
      | [] => if is_space U c then [] else [c]
      | r => c :: r
      end
  end.

(** [s.strip()] *)
Definition strip (s : text) : text := rstrip (lstrip s).

End Tables.

Fixpoint startswith (p s : text) : bool :=
  match p, s with
  | [], _ => true
  | _ :: _, [] => false
  | a :: p', b :: s' => (a =? b)%N && startswith p' s'
  end.

(** [p in s] on strings. *)
Fixpoint str_in (p s : text) : bool :=
  startswith p s ||
  match s with
  | [] => false
  | _ :: s' => str_in p s'
  end.

(** [x in xs] for a set or list of strings. *)
Definition mem (x : text) (xs : list text) : bool := existsb (eqb x) xs.

(** Truthiness of a string. *)
Definition truthy (s : text) : bool :=
  match s with [] => false | _ :: _ => true end.

(** *** What is known of the tables

    Facts of the Unicode database and of [str.lower] that hold in every
    Python 3 interpreter; a property that needs one of them names it. *)

(** On ASCII characters [\w] is [A-Za-z0-9_]. *)
Definition word_on_ascii (U : unicode) : Prop :=
  forall c, is_ascii c = true -> is_word U c = ascii_word c.

(** On ASCII characters the white space is TAB..CR, FS..US and the blank. *)
Definition space_on_ascii (U : unicode) : Prop :=
  forall c, is_ascii c = true -> is_space U c = ascii_space c.

(** An ASCII text is lowercased letter by letter, A-Z to a-z. *)
Definition lower_on_ascii (U : unicode) : Prop :=
  forall s, forallb is_ascii s = true -> lower U s = map ascii_lower_char s.

(** No white-space character is a word character. *)
Definition space_not_word (U : unicode) : Prop :=
  forall c, is_space U c = true -> is_word U c = false.

(** An ASCII character that is not an upper-case letter. *)
Definition plain (c : N) : bool := is_ascii c && negb (ascii_upper c).

(** [str.lower] maps the characters one by one and leaves a plain
    character as it is: a run of plain characters of a text is still
    there, in one piece, in the lowercased text. *)
Definition lower_keeps_plain (U : unicode) : Prop :=
  forall p s,
    forallb plain p = true -> str_in p s = true ->
    str_in p (lower U s) = true.

(** Lowercasing what is in lower case already changes nothing. *)
Definition lower_idempotent (U : unicode) : Prop :=
  forall s, lower U (lower U s) = lower U s.

End Uni.

(* ================================================================== *)
(** ** [re] on such strings *)

Module UniRe.
Import Uni.

Inductive regex : Type :=
| Lit (s : text)                (* literal characters *)
| Boundary                      (* \b *)
| WordPlus                      (* \w+ , greedy *)
| Seq (r1 r2 : regex)           (* r1 r2 *)
| Alt (r1 r2 : regex)           (* r1|r2 *)
| Opt (r : regex).              (* (?:r)? , greedy *)

(** A position in the subject: the character just before it, if any, and
    the text from it on. *)
Definition pos : Type := (option N * text)%type.

Fixpoint lit (l : text) (prev : option N) (s : text) : list pos :=
  match l with
  | [] => [(prev, s)]
  | a :: l' =>
      match s with
      | b :: s' => if (a =? b)%N then lit l' (Some b) s' else []
      | [] => []
      end
  end.

Section Tables.

Variable U : unicode.

Definition word_before (p : pos) : bool :=
  match fst p with Some c => is_word U c | None => false end.

Definition word_after (p : pos) : bool :=
  match snd p with c :: _ => is_word U c | [] => false end.

Definition at_boundary (p : pos) : bool := xorb (word_before p) (word_after p).

(** One or more word characters; the longest run is tried first. *)
Fixpoint word_plus (s : text) : list pos :=
  match s with
  | c :: s' => if is_word U c then word_plus s' ++ [(Some c, s')] else []
  | [] => []
  end.

(** All the ways [r] matches from position [p], as the positions where the
    match ends, in the order in which a backtracking matcher tries them. *)
Fixpoint run (r : regex) (p : pos) : list pos :=
  match r with
  | Lit l => lit l (fst p) (snd p)
  | Boundary => if at_boundary p then [p] else []
  | WordPlus => word_plus (snd p)
  | Seq r1 r2 => flat_map (run r2) (run r1 p)
  | Alt r1 r2 => run r1 p ++ run r2 p
  | Opt r1 => run r1 p ++ [p]
  end.

(** [re.match(r, s)] as a truth value. *)
Definition re_match (r : regex) (s : text) : bool :=
  match run r (None, s) with [] => false | _ :: _ => true end.

Fixpoint search_from (r : regex) (prev : option N) (s : text) : bool :=
  match run r (prev, s) with
  | _ :: _ => true
  | [] =>
      match s with
      | c :: s' => search_from r (Some c) s'
      | [] => false
      end
  end.

(** [re.search(r, s)] as a truth value. *)
Definition search (r : regex) (s : text) : bool := search_from r None s.

(** [skip] characters of the subject still belong to the previous match. *)
Fixpoint findall_from (r : regex) (prev : option N) (s : text)
    (skip : nat) : list text :=
  match s with
  | [] => []
  | c :: s' =>
      match skip with
      | S k => findall_from r (Some c) s' k
      | O =>
          match run r (prev, s) with
          | [] => findall_from r (Some c) s' 0
          | e :: _ =>
              let n := (List.length s - List.length (snd e))%nat in
              firstn n s :: findall_from r (Some c) s' (pred n)
          end
      end
  end.

(** [re.findall(r, s)] for a pattern without groups whose matches are
    never empty. *)
Definition findall (r : regex) (s : text) : list text :=
  findall_from r None s 0.

End Tables.

End UniRe.

(* ================================================================== *)
(** ** journal.py over every text *)

Module UniJournal.
Import Uni.

Definition POSITIVE_WORDS : list text := map str Journal.POSITIVE_WORDS.

Definition NEGATIVE_WORDS : list text := map str Journal.NEGATIVE_WORDS.

(** r"\b\w+\b" *)
Definition word_re : UniRe.regex :=
  UniRe.Seq UniRe.Boundary (UniRe.Seq UniRe.WordPlus UniRe.Boundary).

Definition count_in (words tokens : list text) : Z :=
  PyStr.py_sum
    (map (fun _ => 1%Z) (filter (fun token => mem token words) tokens)).

Section Tables.

Variable U : unicode.

Definition tokens_of (entry_text : text) : list text :=
  UniRe.findall U word_re (lower U entry_text).

Definition analyze_emotion (entry_text : text) : string * Q :=
  let tokens := tokens_of entry_text in
  let pos_count := count_in POSITIVE_WORDS tokens in
  let neg_count := count_in NEGATIVE_WORDS tokens in
  let polarity := Journal.polarity_of pos_count neg_count in
  (Journal.mood_of polarity, polarity).

End Tables.

End UniJournal.

(* ================================================================== *)
(** ** chatbot.py over every text *)

Module UniChatbot.
Import Uni.

(** [any(p in text for p in phrases)] *)
Definition _contains_any (text : text) (phrases : list Uni.text) : bool :=
  existsb (fun p => str_in p text) phrases.

(** w|w1|...|wn *)
Fixpoint one_of (w : text) (ws : list text) : UniRe.regex :=
  match ws with
  | [] => UniRe.Lit w
  | w' :: ws' => UniRe.Alt (UniRe.Lit w) (one_of w' ws')
  end.

(** r"\b(what|why|how|when|where|who|can|should|could|would|is|are|do|does)\b" *)
Definition question_re : UniRe.regex :=
  UniRe.Seq UniRe.Boundary
    (UniRe.Seq
       (one_of (str "what")
          (map str
             [ "why"; "how"; "when"; "where"; "who"; "can"; "should";
               "could"; "would"; "is"; "are"; "do"; "does" ]))
       UniRe.Boundary).

Definition positive_terms : list text := map str Chatbot.positive_terms.

Definition negative_terms : list text := map str Chatbot.negative_terms.

(** (?:so |that )? *)
Definition so_that : UniRe.regex :=
  UniRe.Opt (UniRe.Alt (UniRe.Lit (str "so ")) (UniRe.Lit (str "that "))).

(** (?:feel(?:ing)? )? *)
Definition feeling : UniRe.regex :=
  UniRe.Opt
    (UniRe.Seq (UniRe.Lit (str "feel"))
       (UniRe.Seq (UniRe.Opt (UniRe.Lit (str "ing"))) (UniRe.Lit (str " ")))).

(** The five patterns built for the term [t]. *)
Definition patterns (t : text) : list UniRe.regex :=
  let tail (mid : UniRe.regex) :=
    UniRe.Seq mid (UniRe.Seq (UniRe.Lit t) UniRe.Boundary) in
  [ UniRe.Seq UniRe.Boundary (UniRe.Seq (UniRe.Lit (str "not ")) (tail so_that));
    UniRe.Seq UniRe.Boundary
      (UniRe.Seq (UniRe.Lit (str "not feeling ")) (tail so_that));
    UniRe.Seq UniRe.Boundary
      (UniRe.Seq (UniRe.Lit (str "don't feel ")) (tail so_that));
    UniRe.Seq UniRe.Boundary
      (UniRe.Seq (UniRe.Lit (str "do not feel ")) (tail so_that));
    UniRe.Seq UniRe.Boundary
      (UniRe.Seq (UniRe.Lit (str "no longer ")) (tail feeling)) ].

Definition achievement_phrases : list text := map str Chatbot.achievement_phrases.
Definition gratitude_phrases : list text := map str Chatbot.gratitude_phrases.
Definition apology_phrases : list text := map str Chatbot.apology_phrases.
Definition anger_phrases : list text := map str Chatbot.anger_phrases.
Definition tiredness_phrases : list text := map str Chatbot.tiredness_phrases.
Definition overwhelm_phrases : list text := map str Chatbot.overwhelm_phrases.
Definition confusion_phrases : list text := map str Chatbot.confusion_phrases.
Definition loneliness_phrases : list text := map str Chatbot.loneliness_phrases.
Definition anxiety_phrases : list text := map str Chatbot.anxiety_phrases.
Definition journal_phrases : list text := map str Chatbot.journal_phrases.
Definition breathing_phrases : list text := map str Chatbot.breathing_phrases.
Definition capability_phrases : list text := map str Chatbot.capability_phrases.
Definition greet_phrases : list text := map str Chatbot.greet_phrases.

(** The if/elif chain of [detect_intent_and_emotion] over the normalised
    text. *)
Definition intent_of (text : text) : string :=
  if _contains_any text achievement_phrases then "achievement"
  else if _contains_any text gratitude_phrases then "gratitude"
  else if _contains_any text apology_phrases then "apology"
  else if _contains_any text anger_phrases then "anger"
  else if _contains_any text tiredness_phrases then "tiredness"
  else if _contains_any text overwhelm_phrases then "overwhelm"
  else if _contains_any text confusion_phrases then "confusion"
  else if _contains_any text loneliness_phrases then "loneliness"
  else if _contains_any text anxiety_phrases then "anxiety"
  else if str_in (str "journal") text || _contains_any text journal_phrases
       then "journal"
  else if _contains_any text breathing_phrases then "breathing"
  else if _contains_any text capability_phrases then "capability"
  else if _contains_any text greet_phrases then "greet"
  else "none".

Section Tables.

Variable U : unicode.

Definition _question_like (text : text) : bool :=
  if str_in (str "?") text then true else UniRe.re_match U question_re text.

Definition _has_negated (text : text) (terms : list Uni.text) : bool :=
  existsb (fun t => existsb (fun p => UniRe.search U p text) (patterns t)) terms.

(** [TextBlob(text).sentiment.polarity], a value in [-1, 1]. *)
Variable sentiment_polarity : text -> Q.

Definition get_emotion (text : text) : string :=
  Chatbot.emotion_of_polarity (sentiment_polarity text).

Definition detect_intent_and_emotion (user_input : text) : Chatbot.context :=
  let text := strip U (lower U user_input) in
  let emotion :=
    if _has_negated text positive_terms then "negative"
    else if _has_negated text negative_terms then "neutral"
    else get_emotion text in
  {| Chatbot.emotion := emotion; Chatbot.intent := intent_of text |}.

Definition get_response (user_input : text) : string :=
  if negb (truthy user_input) || negb (truthy (strip U user_input)) then
    Chatbot.default_prompt
  else
  let text := lower U user_input in
  let ctx := detect_intent_and_emotion text in
  let emotion := ctx.(Chatbot.emotion) in
  if ctx.(Chatbot.intent) =? "achievement" then
    "That’s amazing — congratulations! What part of this achievement makes you most proud?"
  else if ctx.(Chatbot.intent) =? "gratitude" then
    "You’re very welcome. I’m glad to be here for you."
  else if ctx.(Chatbot.intent) =? "apology" then
    "It’s okay to make mistakes. What would help you be kinder to yourself right now?"
  else if ctx.(Chatbot.intent) =? "anger" then
    "Anger can feel intense. Would a short grounding exercise help you release some of that tension?"
  else if ctx.(Chatbot.intent) =? "tiredness" then
    "You sound worn out. A quick rest, water, or a short walk might help. Want to plan a tiny break?"
  else if ctx.(Chatbot.intent) =? "overwhelm" then
    "Feeling overwhelmed is tough. Let’s break things into one small next step—what’s the first doable action?"
  else if ctx.(Chatbot.intent) =? "confusion" then
    "It’s okay to not have all the answers. What options are you considering right now?"
  else if ctx.(Chatbot.intent) =? "loneliness" then
    "You’re not alone. I’m here with you. Would reaching out to someone or journaling help right now?"
  else if ctx.(Chatbot.intent) =? "anxiety" then
    "Deep breathing can help. Want me to guide you through a short exercise?"
  else if _contains_any text (map str ["sad"; "down"; "depressed"; "blue"])
          || (emotion =? "negative") then
    "I'm here for you. Would you like to try a breathing exercise or write a journal entry?"
  else if _contains_any text
            (map str
               ["happy"; "joy"; "excited"; "great"; "good"; "awesome";
                "fantastic"; "grateful"])
          || (emotion =? "positive") then
    "That's wonderful! Want to share what made your day so good?"
  else if ctx.(Chatbot.intent) =? "journal" then
    "Sure! Head to the Journal tab and write down your thoughts."
  else if ctx.(Chatbot.intent) =? "breathing" then
    "Try this: inhale for 4, hold for 4, exhale for 6 — repeat 4 times. How do you feel after that?"
  else if ctx.(Chatbot.intent) =? "capability" then
    "I’m MindMate—here to listen, reflect, and offer gentle suggestions like journaling or simple breathing exercises. What would help most right now?"
  else if ctx.(Chatbot.intent) =? "greet" then
    "Hello! How are you feeling right now?"
  else if emotion =? "positive" then
    "I love your positive energy. Would you like to capture this in your journal?"
  else if emotion =? "negative" then
    "That sounds tough. I'm here for you. Want to talk more or write about it?"
  else if _question_like text then
    "That’s a thoughtful question. What outcome would feel right for you? Sometimes writing your thoughts helps clarify."
  else
    "I'm listening. Tell me a bit more about what’s on your mind.".

End Tables.

End UniChatbot.

(* ================================================================== *)
(** ** The journal pages over every text *)

Module UniApp.
Import Uni.

Record journal_entry : Type := {
  je_date : string;
  je_content : text;
  je_mood : string;
  je_polarity : Q
}.

Record mood_signal : Type := {
  ms_date : string;
  ms_source : string;
  ms_content : text;
  ms_mood : string;
  ms_polarity : Q
}.

(** The two append-only tables. *)
Record database : Type := {
  journal_entries : list journal_entry;
  mood_signals : list mood_signal
}.

Definition init_db : database :=
  {| journal_entries := []; mood_signals := [] |}.

Section Tables.

Variable U : unicode.
Variable sentiment_polarity : text -> Q.

(** The context of a chat turn, after the "not angry" override. *)
Definition chat_context (prompt : text) : Chatbot.context :=
  let ctx := UniChatbot.detect_intent_and_emotion U sentiment_polarity prompt in
  if str_in (str "not angry") (lower U prompt)
  then {| Chatbot.emotion := "neutral"; Chatbot.intent := "none" |}
  else ctx.

Definition chat_signal (now : string) (prompt : text) : mood_signal :=
  let ctx := chat_context prompt in
  {| ms_date := now;
     ms_source := "chat";
     ms_content := prompt;
     ms_mood := ctx.(Chatbot.emotion);
     ms_polarity :=
       if ctx.(Chatbot.emotion) =? "positive" then 1
       else if ctx.(Chatbot.emotion) =? "negative" then - (1)
       else 0 |}.

(** The Chat page on a submitted prompt. *)
Definition chat_turn (now : string) (prompt : text) (db : database)
    : database :=
  if truthy prompt then
    {| journal_entries := db.(journal_entries);
       mood_signals := db.(mood_signals) ++ [chat_signal now prompt] |}
  else db.

(** The Journal page on "Save Entry". *)
Definition journal_submit (now : string) (entry : text) (db : database)
    : database :=
  if truthy (strip U entry) then
    let '(mood, polarity) := UniJournal.analyze_emotion U entry in
    {| journal_entries :=
         db.(journal_entries)
         ++ [ {| je_date := now; je_content := entry; je_mood := mood;
                 je_polarity := polarity |} ];
       mood_signals :=
         db.(mood_signals)
         ++ [ {| ms_date := now; ms_source := "journal"; ms_content := entry;
                 ms_mood := mood; ms_polarity := polarity |} ] |}
  else db.

(** The /journal route of the Flask variant. *)
Definition flask_journal (now : string) (entry : text) (db : database)
    : database :=
  let entry_text := strip U entry in
  if truthy entry_text then
    let '(mood, polarity) := UniJournal.analyze_emotion U entry_text in
    {| journal_entries :=
         db.(journal_entries)
         ++ [ {| je_date := now; je_content := entry_text; je_mood := mood;
                 je_polarity := polarity |} ];
       mood_signals := db.(mood_signals) |}
  else db.

(** What a user can do that writes to the store; [now] is the clock. *)
Inductive action : Type :=
| Chat (now : string) (prompt : text)
| SaveEntry (now : string) (entry : text)
| FlaskEntry (now : string) (entry : text).

Definition step (db : database) (a : action) : database :=
  match a with
  | Chat now prompt => chat_turn now prompt db
  | SaveEntry now entry => journal_submit now entry db
  | FlaskEntry now entry => flask_journal now entry db
  end.

(** The store after a session. *)
Definition session (actions : list action) : database :=
  fold_left step actions init_db.

End Tables.

End UniApp.

(* ================================================================== *)
(** ** The notions of the specification over every text *)

Module UniSpec.
Import Uni.

Section Tables.

Variable U : unicode.

(** Tokens on word boundaries: the maximal runs of word characters. *)
Fixpoint split_words (s : text) : list text :=
  match s with
  | [] => []
  | c :: s' =>
      if is_word U c then
        match s' with
        | c' :: _ =>
            if is_word U c' then
              match split_words s' with
              | w :: ws => (c :: w) :: ws
              | [] => [[c]]
              end
            else [c] :: split_words s'
        | [] => [[c]]
        end
      else split_words s'
  end.

(** The length of the longest prefix of word characters. *)
Fixpoint wlen (s : text) : nat :=
  match s with
  | c :: s' => if is_word U c then S (wlen s') else O
  | [] => O
  end.

(** Where the run of word characters that starts at [s] ends. *)
Fixpoint run_end (prev : option N) (s : text) : UniRe.pos :=
  match s with
  | c :: s' => if is_word U c then run_end (Some c) s' else (prev, s)
  | [] => (prev, [])
  end.

(** The number of tokens present in a word set. *)
Definition count_present (words tokens : list text) : Z :=
  Z.of_nat (List.length (filter (fun t => mem t words) tokens)).

(** polarity = (pos - neg)/(pos + neg) if pos + neg > 0 else 0.0;
    mood: > 0.1 positive, < -0.1 negative, else neutral. *)
Definition polarity_scorer (text : text) : string * Q :=
  let tokens := split_words text in
  let pos := count_present UniJournal.POSITIVE_WORDS tokens in
  let neg := count_present UniJournal.NEGATIVE_WORDS tokens in
  let polarity :=
    if (0 <? pos + neg)%Z then Qred ((pos - neg) # Z.to_pos (pos + neg))
    else 0 in
  let mood :=
    if Qle_bool polarity (1 # 10)
    then (if Qle_bool (- (1 # 10)) polarity then "neutral" else "negative")
    else "positive" in
  (mood, polarity).

(** White space only (the empty text included). *)
Definition all_space (s : text) : bool := forallb (is_space U) s.


Fixpoint ends_nonspace (p : text) : bool :=
  match p with
  | [] => false
  | [a] => negb (is_space U a)
  | _ :: p' => ends_nonspace p'
  end.

Definition starts_nonspace (p : text) : bool :=
  match p with
  | [] => false
  | a :: _ => negb (is_space U a)
  end.

(** The input contains one of the phrases: as typed, once lowercased, or
    once lowercased and trimmed. *)
Definition mentions (user_input : text) (phrases : list text) : bool :=
  UniChatbot._contains_any user_input phrases
  || UniChatbot._contains_any (lower U user_input) phrases
  || UniChatbot._contains_any (strip U (lower U user_input)) phrases.

End Tables.

(** The ordered rule list of the classifier. *)
Definition intent_rules : list (list text * string) :=
  [ (UniChatbot.achievement_phrases, "achievement");
    (UniChatbot.gratitude_phrases, "gratitude");
    (UniChatbot.apology_phrases, "apology");
    (UniChatbot.anger_phrases, "anger");
    (UniChatbot.tiredness_phrases, "tiredness");
    (UniChatbot.overwhelm_phrases, "overwhelm");
    (UniChatbot.confusion_phrases, "confusion");
    (UniChatbot.loneliness_phrases, "loneliness");
    (UniChatbot.anxiety_phrases, "anxiety");
    (str "journal" :: UniChatbot.journal_phrases, "journal");
    (UniChatbot.breathing_phrases, "breathing");
    (UniChatbot.capability_phrases, "capability");
    (UniChatbot.greet_phrases, "greet") ].

Fixpoint first_match (rules : list (list text * string)) (text : text)
    : string :=
  match rules with
  | [] => "none"
  | (phrases, intent) :: rest =>
      if existsb (fun p => str_in p text) phrases then intent
      else first_match rest text
  end.

(** A phrase of plain characters that neither starts nor ends with white
    space: lowercasing and trimming cannot break it. *)
Definition stable_phrase (p : text) : bool :=
  forallb plain p
  && starts_nonspace ascii_tables p && ends_nonspace ascii_tables p.

(** The action adds a row to journal_entries, to mood_signals: its text
    is not white space only (for a chat prompt, not empty). *)
Definition saves_entry (U : unicode) (a : UniApp.action) : bool :=
  match a with
  | UniApp.Chat _ _ => false
  | UniApp.SaveEntry _ entry | UniApp.FlaskEntry _ entry =>
      negb (all_space U entry)
  end.

Definition saves_signal (U : unicode) (a : UniApp.action) : bool :=
  match a with
  | UniApp.Chat _ prompt => truthy prompt
  | UniApp.SaveEntry _ entry => negb (all_space U entry)
  | UniApp.FlaskEntry _ _ => false
  end.

(** A position in an ASCII text. *)
Definition ascii_pos (p : UniRe.pos) : Prop :=
  match fst p with Some c => is_ascii c = true | None => True end /\
  forallb is_ascii (snd p) = true.

End UniSpec.

(* ================================================================== *)
(** ** Notions for matching in a text with white space around it,
       over every text *)

Module UniTrim.
Import Uni.

Fixpoint starts_with_boundary (r : UniRe.regex) : bool :=
  match r with
  | UniRe.Boundary => true
  | UniRe.Seq r1 _ => starts_with_boundary r1
  | _ => false
  end.

Fixpoint ends_with_boundary (r : UniRe.regex) : bool :=
  match r with
  | UniRe.Boundary => true
  | UniRe.Seq _ r2 => ends_with_boundary r2
  | _ => false
  end.

Definition bounded (r : UniRe.regex) : bool :=
  starts_with_boundary r && ends_with_boundary r.

Section Tables.

Variable U : unicode.

(** A position with no word character before it and only white space
    after it. *)
Definition blank (e : UniRe.pos) : Prop :=
  UniRe.word_before U e = false /\ UniSpec.all_space U (snd e) = true.

(** [b] is the position [a] in the text extended by the white space [w]. *)
Definition extends (w : text) (a b : UniRe.pos) : Prop :=
  UniRe.word_before U a = UniRe.word_before U b /\ snd b = (snd a ++ w)%list.

Inductive sim (w : text) : list UniRe.pos -> list UniRe.pos -> Prop :=
| sim_nil : sim w [] []
| sim_both a b l1 l2 : extends w a b -> sim w l1 l2 -> sim w (a :: l1) (b :: l2)
| sim_blank b l1 l2 : blank b -> sim w l1 l2 -> sim w l1 (b :: l2).

End Tables.

End UniTrim.

(* ================================================================== *)
(** ** Characters, lowercasing and trimming *)

Import PyStr.

Lemma lower_char_idem (c : ascii) : lower_char (lower_char c) = lower_char c.
Proof. destruct c as [[] [] [] [] [] [] [] []]; reflexivity. Qed.



Lemma lower_idem (s : string) : lower (lower s) = lower s.
Proof.
  induction s as [|c s IH]; simpl; [reflexivity|].
  now rewrite lower_char_idem, IH.
Qed.

(* ================================================================== *)
(** ** The tokenizer: [re.findall(r"\b\w+\b", s)] gives the maximal runs
       of word characters *)

Section Tokenizer.
Import Re.










End Tokenizer.

(* ================================================================== *)
(** ** The polarity scorer *)

Section Scorer.

Lemma Qgt_bool_iff (x y : Q) : Journal.Qgt_bool x y = true <-> y < x.
Proof.
  unfold Journal.Qgt_bool. rewrite negb_true_iff. split.
  - intros H. apply Qnot_le_lt. intros Hle.
    apply Qle_bool_iff in Hle. congruence.
  - intros H. destruct (Qle_bool x y) eqn:E; [|reflexivity].
    apply Qle_bool_iff in E. exfalso. exact (Qlt_not_le _ _ H E).
Qed.

Lemma Qlt_bool_iff (x y : Q) : Journal.Qlt_bool x y = true <-> x < y.
Proof. apply (Qgt_bool_iff y x). Qed.

Lemma Qgt_bool_false_iff (x y : Q) : Journal.Qgt_bool x y = false <-> x <= y.
Proof.
  unfold Journal.Qgt_bool. rewrite negb_false_iff. apply Qle_bool_iff.
Qed.

Lemma Qlt_bool_false_iff (x y : Q) : Journal.Qlt_bool x y = false <-> y <= x.
Proof. apply (Qgt_bool_false_iff y x). Qed.

Lemma count_in_present (words tokens : list string) :
  Journal.count_in words tokens = Spec.count_present words tokens.
Proof.
  unfold Journal.count_in, Spec.count_present.
  induction (filter (fun token => mem token words) tokens) as [|t l IH].
  - reflexivity.
  - cbn [map py_sum fold_right List.length]. fold (py_sum (map (fun _ => 1%Z) l)).
    rewrite IH. lia.
Qed.

Lemma count_in_nonneg (words tokens : list string) :
  (0 <= Journal.count_in words tokens)%Z.
Proof. rewrite count_in_present. unfold Spec.count_present. lia. Qed.

Lemma true_div_fraction (a b : Z) :
  (0 < b)%Z -> Journal.true_div a b = Qred (a # Z.to_pos b).
Proof.
  intros Hb. unfold Journal.true_div. apply Qred_complete.
  destruct b as [|p|p]; try lia.
  unfold Qeq, Qdiv, Qmult, Qinv, inject_Z. simpl. lia.
Qed.

Lemma true_div_self (a : Z) : (0 < a)%Z -> Journal.true_div a a = 1.
Proof.
  intros Ha. unfold Journal.true_div.
  change 1 with (Qred 1). apply Qred_complete.
  destruct a as [|p|p]; try lia.
  unfold Qeq, Qdiv, Qmult, Qinv, inject_Z. simpl. lia.
Qed.

Lemma mood_of_agrees (p : Q) : Spec.agrees (Journal.mood_of p) p.
Proof.
  unfold Spec.agrees, Journal.mood_of.
  destruct (Journal.Qgt_bool p (1 # 10)) eqn:Hpos.
  - left. split; [reflexivity|]. now apply Qgt_bool_iff.
  - destruct (Journal.Qlt_bool p (- (1 # 10))) eqn:Hneg.
    + right; left. split; [reflexivity|]. now apply Qlt_bool_iff.
    + right; right. repeat split.
      * now apply Qlt_bool_false_iff.
      * now apply Qgt_bool_false_iff.
Qed.

Lemma mood_of_sign (p : Q) : Spec.sign_compatible (Journal.mood_of p) p.
Proof.
  destruct (mood_of_agrees p) as [[E H]|[[E H]|[E _]]]; unfold Spec.sign_compatible.
  - left. split; [exact E|]. apply Qlt_trans with (1 # 10); [reflexivity|exact H].
  - right; left. split; [exact E|].
    apply Qlt_trans with (- (1 # 10)); [exact H|reflexivity].
  - right; right. exact E.
Qed.

(** Between the thresholds the mood is neutral whatever the sign: eleven
    positive words against ten negative ones give the polarity 1/21. *)
Example small_polarity_is_neutral :
  Journal.analyze_emotion
    ("happy joy joyful good great love excited wonderful delighted content calm "
     ++ "sad depressed down angry frustrated unhappy anxious nervous worried bad")
  = ("neutral", 1 # 21).
Proof. vm_compute. reflexivity. Qed.

Lemma filter_all {A : Type} (f : A -> bool) (l : list A) :
  Forall (fun x => f x = true) l -> filter f l = l.
Proof.
  induction 1 as [|x l Hx _ IH]; simpl; [reflexivity|].
  now rewrite Hx, IH.
Qed.

Lemma filter_none {A : Type} (f : A -> bool) (l : list A) :
  Forall (fun x => f x = false) l -> filter f l = [].
Proof.
  induction 1 as [|x l Hx _ IH]; simpl; [reflexivity|].
  now rewrite Hx.
Qed.



End Scorer.

(* ================================================================== *)
(** ** The classifier and the reply selector *)

Section Classifier.

Variable sentiment_polarity : string -> Q.

Lemma emotion_of_polarity_label (p : Q) :
  mem (Chatbot.emotion_of_polarity p) Spec.emotion_labels = true.
Proof.
  unfold Chatbot.emotion_of_polarity.
  destruct (Journal.Qgt_bool p Chatbot.POS_THRESHOLD); [reflexivity|].
  destruct (Journal.Qlt_bool p Chatbot.NEG_THRESHOLD); reflexivity.
Qed.

Lemma emotion_label (user_input : string) :
  mem (Chatbot.emotion
         (Chatbot.detect_intent_and_emotion sentiment_polarity user_input))
      Spec.emotion_labels = true.
Proof.
  unfold Chatbot.detect_intent_and_emotion. cbn [Chatbot.emotion].
  destruct (Chatbot._has_negated _ Chatbot.positive_terms); [reflexivity|].
  destruct (Chatbot._has_negated _ Chatbot.negative_terms); [reflexivity|].
  apply emotion_of_polarity_label.
Qed.

Lemma emotion_of_polarity_agrees (p : Q) :
  Spec.agrees_chat (Chatbot.emotion_of_polarity p) p.
Proof.
  unfold Spec.agrees_chat, Chatbot.emotion_of_polarity.
  destruct (Journal.Qgt_bool p Chatbot.POS_THRESHOLD) eqn:Hpos.
  - left. split; [reflexivity|]. now apply Qgt_bool_iff.
  - destruct (Journal.Qlt_bool p Chatbot.NEG_THRESHOLD) eqn:Hneg.
    + right; left. split; [reflexivity|]. now apply Qlt_bool_iff.
    + right; right. repeat split.
      * now apply Qlt_bool_false_iff.
      * now apply Qgt_bool_false_iff.
Qed.

Lemma emotion_of_polarity_zero (p : Q) :
  p == 0 -> Chatbot.emotion_of_polarity p = "neutral".
Proof.
  intros Hp. unfold Chatbot.emotion_of_polarity.
  assert (H1 : Journal.Qgt_bool p Chatbot.POS_THRESHOLD = false).
  { apply Qgt_bool_false_iff. rewrite Hp. discriminate. }
  assert (H2 : Journal.Qlt_bool p Chatbot.NEG_THRESHOLD = false).
  { apply Qlt_bool_false_iff. rewrite Hp. discriminate. }
  now rewrite H1, H2.
Qed.

Lemma get_response_canned (user_input : string) :
  mem (Chatbot.get_response sentiment_polarity user_input)
      Spec.canned_replies = true.
Proof.
  unfold Chatbot.get_response. cbv zeta.
  repeat match goal with
         | |- context [if ?b then _ else _] => destruct b; [reflexivity|]
         end.
  reflexivity.
Qed.

Lemma canned_truthy (r : string) :
  mem r Spec.canned_replies = true -> truthy r = true.
Proof.
  intros H. apply existsb_exists in H as (w & Hin & Heq).
  apply String.eqb_eq in Heq. subst w.
  simpl in Hin.
  repeat (destruct Hin as [<-|Hin]; [reflexivity|]). contradiction.
Qed.

Lemma get_response_truthy (user_input : string) :
  truthy (Chatbot.get_response sentiment_polarity user_input) = true.
Proof. apply canned_truthy, get_response_canned. Qed.

Lemma generate_reply_fallback (env : Chatbot.os_env) (svc : Chatbot.services)
    (user_input : string) (history : list Chatbot.turn) (style : string) :
  Chatbot.is_set (Chatbot.get_llm_response env svc user_input history style)
    = false ->
  Chatbot.generate_reply sentiment_polarity env svc user_input history style
  = Chatbot.get_response sentiment_polarity user_input.
Proof.
  unfold Chatbot.generate_reply.
  destruct (Chatbot.get_llm_response env svc user_input history style)
    as [llm|]; [|reflexivity].
  cbn [Chatbot.is_set]. intros H. now rewrite H.
Qed.

(** Whatever the service does, the reply is not empty. *)
Lemma generate_reply_truthy (env : Chatbot.os_env) (svc : Chatbot.services)
    (user_input : string) (history : list Chatbot.turn) (style : string) :
  truthy (Chatbot.generate_reply sentiment_polarity env svc user_input
            history style) = true.
Proof.
  unfold Chatbot.generate_reply.
  destruct (Chatbot.get_llm_response env svc user_input history style)
    as [llm|]; [|apply get_response_truthy].
  destruct (truthy llm) eqn:E; [exact E|apply get_response_truthy].
Qed.

Lemma llm_unavailable (env : Chatbot.os_env) (svc : Chatbot.services)
    (user_input : string) (history : list Chatbot.turn) (style : string) :
  Chatbot.llm_available env = false ->
  Chatbot.is_set (Chatbot.get_llm_response env svc user_input history style)
    = false.
Proof.
  intros H. unfold Chatbot.get_llm_response. now rewrite H.
Qed.

Lemma llm_raises (env : Chatbot.os_env) (svc : Chatbot.services)
    (user_input : string) (history : list Chatbot.turn) (style : string) :
  Spec.provider_raises env svc user_input history style ->
  Chatbot.is_set (Chatbot.get_llm_response env svc user_input history style)
    = false.
Proof.
  unfold Spec.provider_raises, Chatbot.get_llm_response. cbv zeta.
  intros H. destruct (negb (Chatbot.llm_available env)); [reflexivity|].
  destruct (Chatbot.use_openai _); now rewrite H.
Qed.

Lemma py_or_ollama_text (m r : option string) :
  Chatbot.py_or m r = Spec.ollama_text m r.
Proof. destruct m as [[|c m]|]; reflexivity. Qed.

Lemma llm_silent (env : Chatbot.os_env) (svc : Chatbot.services)
    (user_input : string) (history : list Chatbot.turn) (style : string) :
  Spec.provider_silent env svc user_input history style ->
  Chatbot.is_set (Chatbot.get_llm_response env svc user_input history style)
    = false.
Proof.
  unfold Spec.provider_silent, Chatbot.get_llm_response. cbv zeta.
  intros H. destruct (negb (Chatbot.llm_available env)); [reflexivity|].
  destruct (Chatbot.use_openai _).
  - destruct H as [H|(c & rest & H & Hc)]; rewrite H; [reflexivity|].
    destruct c as [c|]; [|reflexivity]. cbn [Spec.no_text] in Hc.
    cbn [Chatbot.is_set]. now rewrite Hc.
  - destruct H as (m & r & H & Ht). rewrite H, py_or_ollama_text.
    destruct (Spec.ollama_text m r) as [c|]; [|reflexivity].
    destruct (truthy c); [|reflexivity].
    cbn [Spec.no_text] in Ht. cbn [Chatbot.is_set]. now rewrite Ht.
Qed.

End Classifier.

(* ================================================================== *)
(** ** The records written to the store *)

Section Store.

Variable sentiment_polarity : string -> Q.

Lemma label_cases (l : string) :
  mem l Spec.emotion_labels = true ->
  l = "positive" \/ l = "negative" \/ l = "neutral".
Proof.
  intros H. apply existsb_exists in H as (w & Hin & Heq).
  apply String.eqb_eq in Heq. subst w. simpl in Hin.
  destruct Hin as [<-|[<-|[<-|[]]]]; auto.
Qed.

Lemma chat_context_label (prompt : string) :
  mem (Chatbot.emotion (App.chat_context sentiment_polarity prompt))
      Spec.emotion_labels = true.
Proof.
  unfold App.chat_context. cbv zeta.
  destruct (str_in "not angry" (lower prompt)); [reflexivity|].
  apply emotion_label.
Qed.

Lemma chat_signal_pair (now prompt : string) :
  Spec.chat_pair
    (App.ms_mood (App.chat_signal sentiment_polarity now prompt))
    (App.ms_polarity (App.chat_signal sentiment_polarity now prompt)).
Proof.
  unfold App.chat_signal, Spec.chat_pair. cbv zeta. cbn [App.ms_mood App.ms_polarity].
  destruct (label_cases _ (chat_context_label prompt)) as [E|[E|E]];
    rewrite E; cbn; auto.
Qed.

Lemma chat_pair_agrees (mood : string) (polarity : Q) :
  Spec.chat_pair mood polarity ->
  Spec.agrees mood polarity /\ Spec.sign_compatible mood polarity /\
  Spec.agrees_chat mood polarity.
Proof.
  unfold Spec.agrees, Spec.sign_compatible, Spec.agrees_chat.
  intros [[-> ->]|[[-> ->]|[-> ->]]].
  - repeat split; left; split; reflexivity.
  - repeat split; right; left; split; reflexivity.
  - repeat split; right; right; repeat split; discriminate.
Qed.

Lemma chat_signal_ok (now prompt : string) :
  Spec.signal_ok (App.chat_signal sentiment_polarity now prompt).
Proof.
  pose proof (chat_signal_pair now prompt) as Hp.
  destruct (chat_pair_agrees _ _ Hp) as (Ha & Hs & Hc).
  unfold Spec.signal_ok. repeat split; try assumption.
  right. repeat split; assumption.
Qed.

Lemma analyze_emotion_agrees (text : string) :
  Spec.agrees (fst (Journal.analyze_emotion text))
              (snd (Journal.analyze_emotion text)) /\
  Spec.sign_compatible (fst (Journal.analyze_emotion text))
                       (snd (Journal.analyze_emotion text)).
Proof.
  unfold Journal.analyze_emotion. cbv zeta. cbn [fst snd].
  split; [apply mood_of_agrees|apply mood_of_sign].
Qed.

Lemma Forall_snoc {A : Type} (P : A -> Prop) (l : list A) (x : A) :
  Forall P l -> P x -> Forall P (l ++ [x]).
Proof. intros Hl Hx. apply Forall_app. split; [exact Hl|now constructor]. Qed.

Lemma step_ok (db : App.database) (a : App.action) :
  Spec.store_ok db -> Spec.store_ok (App.step sentiment_polarity db a).
Proof.
  intros [He Hs]. destruct a as [now prompt|now entry|now entry]; cbn [App.step].
  - unfold App.chat_turn. destruct (truthy prompt); [|now split].
    split; cbn [App.journal_entries App.mood_signals]; [exact He|].
    apply Forall_snoc; [exact Hs|apply chat_signal_ok].
  - unfold App.journal_submit. destruct (truthy (strip entry)); [|now split].
    destruct (analyze_emotion_agrees entry) as [Ha Hsg].
    destruct (Journal.analyze_emotion entry) as [mood polarity].
    cbn [fst snd] in Ha, Hsg.
    split; cbn [App.journal_entries App.mood_signals];
      (apply Forall_snoc; [assumption|]).
    + now split.
    + unfold Spec.signal_ok. cbn. auto.
  - unfold App.flask_journal. cbv zeta.
    destruct (truthy (strip entry)); [|now split].
    destruct (analyze_emotion_agrees (strip entry)) as [Ha Hsg].
    destruct (Journal.analyze_emotion (strip entry)) as [mood polarity].
    cbn [fst snd] in Ha, Hsg.
    split; cbn [App.journal_entries App.mood_signals]; [|exact Hs].
    apply Forall_snoc; [exact He|now split].
Qed.

Lemma steps_ok (actions : list App.action) (db : App.database) :
  Spec.store_ok db ->
  Spec.store_ok (fold_left (App.step sentiment_polarity) actions db).
Proof.
  revert db. induction actions as [|a actions IH]; intros db H; [exact H|].
  cbn [fold_left]. apply IH. now apply step_ok.
Qed.

Lemma session_ok (actions : list App.action) :
  Spec.store_ok (App.session sentiment_polarity actions).
Proof. apply steps_ok. split; constructor. Qed.

End Store.

(* ================================================================== *)
(** ** The mood aggregator *)

Section Aggregator.

Lemma mood_value_cases (mood : string) :
  Spec.value_of_label mood (MoodPlot.mood_value mood).
Proof.
  unfold Spec.value_of_label, MoodPlot.mood_value.
  destruct (String.eqb_spec (lower mood) "positive") as [E|E]; [now left|].
  destruct (String.eqb_spec (lower mood) "negative") as [E'|E'].
  - right; left. now split.
  - right; right. now repeat split.
Qed.

End Aggregator.

(* ================================================================== *)
(** ** White space, word boundaries and lists *)

Section Trimming.
Import Re.

Lemma space_not_word (c : ascii) : is_space c = true -> is_word c = false.
Proof. destruct c as [[] [] [] [] [] [] [] []]; cbv; congruence. Qed.


Lemma Forall_flat_map {A B : Type} (P : A -> Prop) (Q : B -> Prop)
    (f : A -> list B) (l : list A) :
  (forall x, P x -> Forall Q (f x)) -> Forall P l -> Forall Q (flat_map f l).
Proof.
  intros Hf. induction 1 as [|x l Hx _ IH]; simpl; [constructor|].
  apply Forall_app. split; [now apply Hf|exact IH].
Qed.

Lemma run_starts_at_boundary (r : regex) (e : pos) :
  Trim.starts_with_boundary r = true -> at_boundary e = false ->
  run r e = [].
Proof.
  revert e. induction r as [l| | |r1 IH1 r2 IH2|r1 IH1 r2 IH2|r IH];
    intros e Hr He; try discriminate; cbn [run].
  - now rewrite He.
  - now rewrite (IH1 e Hr He).
Qed.



Lemma existsb_ext_in {A : Type} (f g : A -> bool) (l : list A) :
  (forall x, In x l -> f x = g x) -> existsb f l = existsb g l.
Proof.
  induction l as [|x l IH]; intros H; simpl; [reflexivity|].
  rewrite (H x) by now left. rewrite IH; [reflexivity|].
  intros y Hy. apply H. now right.
Qed.

End Trimming.

(* ================================================================== *)
(** ** The properties of the specification *)

Lemma three_way (lo hi : Q) (l : string) (p : Q) :
  lo <= hi ->
  (l = "positive" /\ hi < p) \/ (l = "negative" /\ p < lo) \/
  (l = "neutral" /\ lo <= p /\ p <= hi) ->
  (l = "positive" <-> hi < p) /\
  (l = "negative" <-> p < lo) /\
  (l = "neutral" <-> lo <= p /\ p <= hi).
Proof.
  intros Hlh [[-> H]|[[-> H]|[-> [H1 H2]]]];
    repeat split; intros;
    first [reflexivity | discriminate | lra | exfalso; lra].
Qed.

(** C1.  Every journal entry and every mood signal that the application
    stores carries a label that agrees with its polarity under the fixed
    thresholds: the label is "positive" with a polarity above 0.1,
    "negative" with a polarity below -0.1, and "neutral" with a polarity
    in between; the label never contradicts the sign of the polarity.
    This holds for what [analyze_emotion] returns on every text, for the
    record of every chat turn (whose polarity is 1.0, -1.0 or 0.0 with the
    matching label, so that it agrees under the chat thresholds as well),
    and hence for every row of both tables after any session. *)
Theorem stored_label_agrees_with_polarity
    (sentiment_polarity : string -> Q) (actions : list App.action) :
  (forall text,
     Spec.agrees (fst (Journal.analyze_emotion text))
                 (snd (Journal.analyze_emotion text)) /\
     Spec.sign_compatible (fst (Journal.analyze_emotion text))
                          (snd (Journal.analyze_emotion text))) /\
  (forall now prompt,
     Spec.chat_pair
       (App.ms_mood (App.chat_signal sentiment_polarity now prompt))
       (App.ms_polarity (App.chat_signal sentiment_polarity now prompt)) /\
     Spec.signal_ok (App.chat_signal sentiment_polarity now prompt)) /\
  Spec.store_ok (App.session sentiment_polarity actions).
Proof.
  split; [|split].
  - apply analyze_emotion_agrees.
  - intros now prompt. split; [apply chat_signal_pair|apply chat_signal_ok].
  - apply session_ok.
Qed.

(** C5 (amended).  The aggregator maps the rows it works on, in their
    order, to numbers: a label whose lowercased form is "positive" gives
    1, one whose lowercased form is "negative" gives -1, any other label
    gives 0.  The rows are those of mood_signals when there are any, and
    those of journal_entries otherwise; from rows that are not empty it
    saves one figure with their dates and their values, in their order,
    and returns its path, so that the rows (t1,"positive"),
    (t2,"negative"), (t3,"neutral") give the dates t1, t2, t3 and the
    values 1, -1, 0.  It returns None and saves no figure exactly when
    there is no row in either table. *)
Theorem mood_series_follows_rows
    (signals : option (list MoodPlot.row)) (journal : list MoodPlot.row) :
  let chart rows :=
    (Some "static/mood_trend.png",
     Some {| MoodPlot.fig_path := "static/mood_trend.png";
             MoodPlot.fig_dates := map fst rows;
             MoodPlot.fig_values :=
               map (fun r => MoodPlot.mood_value (snd r)) rows |}) in
  (forall mood, Spec.value_of_label mood (MoodPlot.mood_value mood)) /\
  (forall r rows other,
     MoodPlot.plot_mood_trend (Some (r :: rows)) other = chart (r :: rows)) /\
  (forall r rows,
     MoodPlot.plot_mood_trend None (r :: rows) = chart (r :: rows) /\
     MoodPlot.plot_mood_trend (Some []) (r :: rows) = chart (r :: rows)) /\
  (forall t1 t2 t3 other,
     MoodPlot.plot_mood_trend
       (Some [(t1, "positive"); (t2, "negative"); (t3, "neutral")]) other
     = (Some "static/mood_trend.png",
        Some {| MoodPlot.fig_path := "static/mood_trend.png";
                MoodPlot.fig_dates := [t1; t2; t3];
                MoodPlot.fig_values := [1; -1; 0]%Z |})) /\
  MoodPlot.plot_mood_trend (Some []) [] = (None, None) /\
  MoodPlot.plot_mood_trend None [] = (None, None) /\
  (MoodPlot.plot_mood_trend signals journal = (None, None) <->
   (signals = None \/ signals = Some []) /\ journal = []).
Proof.
  cbv zeta.
  split; [apply mood_value_cases|].
  split; [reflexivity|].
  split; [intros r rows; split; reflexivity|].
  split; [reflexivity|].
  split; [reflexivity|].
  split; [reflexivity|].
  destruct signals as [[|r rows]|]; destruct journal as [|r' rows'];
    cbn; split;
    try discriminate; try (intros [_ H]; discriminate);
    try (intros [[H|H] _]; discriminate); auto.
Qed.

(** C5, as stated, fails on a label that differs from "positive" by case
    only: it is another label, and the code gives it 1. *)
Lemma capitalised_label_counts :
  MoodPlot.mood_values [("2024-05-01 09:00:00", "Positive")] = [1%Z] /\
  String.eqb "Positive" "positive" = false.
Proof. split; reflexivity. Qed.

(** C6.  When the generative service is not configured, or the provider
    raises (timeout, error status, body that is not the expected JSON, any
    other exception inside the try block), or it answers without text
    (nothing, or white space only), [generate_reply] returns the
    rule-based reply for the input; that reply is one of the canned
    strings, hence not empty, and nothing of the failure reaches the
    caller. *)
Theorem generate_reply_swallows_failure
    (sentiment_polarity : string -> Q) (env : Chatbot.os_env)
    (svc : Chatbot.services) (user_input : string)
    (history : list Chatbot.turn) (style : string) :
  Chatbot.llm_available env = false \/
  Spec.provider_raises env svc user_input history style \/
  Spec.provider_silent env svc user_input history style ->
  Chatbot.generate_reply sentiment_polarity env svc user_input history style
    = Chatbot.get_response sentiment_polarity user_input /\
  mem (Chatbot.get_response sentiment_polarity user_input)
      Spec.canned_replies = true /\
  truthy (Chatbot.generate_reply sentiment_polarity env svc user_input
            history style) = true.
Proof.
  intros H. split; [|split].
  - apply generate_reply_fallback.
    destruct H as [H|[H|H]].
    + now apply llm_unavailable.
    + now apply llm_raises.
    + now apply llm_silent.
  - apply get_response_canned.
  - apply generate_reply_truthy.
Qed.

(** The default environment reaches the local Ollama endpoint; when the
    request times out the greeting is answered by the rule-based path. *)
Lemma generate_reply_swallows_failure_witness :
  Chatbot.generate_reply (fun _ => 0)
    {| Chatbot.OPENAI_API_KEY := None; Chatbot.OPENAI_MODEL := None;
       Chatbot.OLLAMA_BASE_URL := None; Chatbot.OLLAMA_MODEL := None;
       Chatbot.openai_installed := false |}
    {| Chatbot.openai_create := fun _ => Chatbot.Raised;
       Chatbot.ollama_chat := fun _ => Chatbot.Raised |}
    "hello" [] "concise"
  = Chatbot.get_response (fun _ => 0) "hello".
Proof.
  apply generate_reply_swallows_failure. right; left. reflexivity.
Defined.

(** C9.  [get_emotion] returns "positive" exactly when the polarity
    estimate exceeds 0.3, "negative" exactly when it is below -0.3, and
    "neutral" otherwise; [analyze_emotion] returns its three moods with
    the thresholds 0.1 and -0.1 in place of 0.3 and -0.3.  The two pairs
    are distinct: the polarity 0.2, which the journal scorer computes for
    three positive words and two negative ones, is "positive" for the
    journal and "neutral" for the chat classifier. *)
Theorem thresholds_per_call_site
    (sentiment_polarity : string -> Q) (text : string) :
  let estimate := sentiment_polarity text in
  let chat := Chatbot.get_emotion sentiment_polarity text in
  let mood := fst (Journal.analyze_emotion text) in
  let polarity := snd (Journal.analyze_emotion text) in
  ((chat = "positive" <-> 3 # 10 < estimate) /\
   (chat = "negative" <-> estimate < - (3 # 10)) /\
   (chat = "neutral" <-> - (3 # 10) <= estimate /\ estimate <= 3 # 10)) /\
  ((mood = "positive" <-> 1 # 10 < polarity) /\
   (mood = "negative" <-> polarity < - (1 # 10)) /\
   (mood = "neutral" <-> - (1 # 10) <= polarity /\ polarity <= 1 # 10)) /\
  Journal.analyze_emotion "happy and calm, good; sad, worried"
    = ("positive", 1 # 5) /\
  Journal.mood_of (1 # 5) = "positive" /\
  Chatbot.emotion_of_polarity (1 # 5) = "neutral".
Proof.
  cbv zeta. split; [|split; [|split; [|split]]]; try reflexivity.
  - apply three_way; [discriminate|].
    apply (emotion_of_polarity_agrees (sentiment_polarity text)).
  - apply three_way; [discriminate|].
    apply analyze_emotion_agrees.
Qed.



(* ================================================================== *)
(** ** Further properties of the polarity scorer *)

Section ScorerFacts.

Lemma polarity_of_bounds (pos neg : Z) :
  (0 <= pos)%Z -> (0 <= neg)%Z ->
  - (1) <= Journal.polarity_of pos neg /\ Journal.polarity_of pos neg <= 1.
Proof.
  intros Hp Hn. unfold Journal.polarity_of. cbv zeta.
  destruct (Z.eqb_spec (pos + neg) 0) as [E|E]; [split; discriminate|].
  rewrite true_div_fraction by lia.
  split; rewrite Qred_correct; unfold Qle; cbn [Qnum Qden Qopp];
    rewrite Z2Pos.id by lia; lia.
Qed.

(** X1.  The polarity that [analyze_emotion] returns lies between -1.0
    and 1.0, whatever the text. *)
Theorem polarity_within_bounds (entry_text : string) :
  - (1) <= snd (Journal.analyze_emotion entry_text) /\
  snd (Journal.analyze_emotion entry_text) <= 1.
Proof.
  unfold Journal.analyze_emotion. cbv zeta. cbn [snd].
  apply polarity_of_bounds; apply count_in_nonneg.
Qed.

Lemma true_div_opp_self (a : Z) : (0 < a)%Z -> Journal.true_div (- a) a = - (1).
Proof.
  intros Ha. unfold Journal.true_div.
  change (- (1)) with (Qred (- (1))). apply Qred_complete.
  destruct a as [|p|p]; try lia.
  unfold Qeq, Qdiv, Qmult, Qinv, inject_Z. simpl. lia.
Qed.

Lemma polarity_of_zero (pos neg : Z) :
  (0 <= pos)%Z -> (0 <= neg)%Z ->
  (Journal.polarity_of pos neg = 0 <-> pos = neg).
Proof.
  intros Hp Hn. unfold Journal.polarity_of. cbv zeta.
  destruct (Z.eqb_spec (pos + neg) 0) as [E|E].
  - split; [lia|reflexivity].
  - rewrite true_div_fraction by lia. split.
    + intros H.
      assert (Hq : (pos - neg) # Z.to_pos (pos + neg) == 0)
        by (rewrite <- Qred_correct, H; reflexivity).
      unfold Qeq in Hq. cbn [Qnum Qden] in Hq. lia.
    + intros ->. rewrite Z.sub_diag. reflexivity.
Qed.









End ScorerFacts.

(* ================================================================== *)
(** ** The suggestion shown with a saved entry *)

Section SuggestionFacts.

Lemma mood_of_label (p : Q) : mem (Journal.mood_of p) Spec.emotion_labels = true.
Proof.
  unfold Journal.mood_of.
  destruct (Journal.Qgt_bool p (1 # 10)); [reflexivity|].
  destruct (Journal.Qlt_bool p (- (1 # 10))); reflexivity.
Qed.

(** X7.  [get_suggestion] does not depend on the letter case of the
    mood; for the mood that [analyze_emotion] gives to any entry it
    returns the suggestion written for that mood; the general fallback is
    returned exactly for a mood whose lowercased form is none of the
    three labels. *)
Theorem suggestion_for_every_mood (mood entry_text : string) :
  Suggestions.get_suggestion (lower mood) = Suggestions.get_suggestion mood /\
  In (fst (Journal.analyze_emotion entry_text),
      Suggestions.get_suggestion (fst (Journal.analyze_emotion entry_text)))
     Suggestions.suggestions /\
  (Suggestions.get_suggestion mood =? Suggestions.fallback_suggestion)
    = negb (mem (lower mood) Spec.emotion_labels).
Proof.
  split; [|split].
  - unfold Suggestions.get_suggestion. now rewrite lower_idem.
  - unfold Journal.analyze_emotion. cbv zeta. cbn [fst].
    destruct (label_cases _ (mood_of_label
                (Journal.polarity_of
                   (Journal.count_in Journal.POSITIVE_WORDS (Journal.tokens_of entry_text))
                   (Journal.count_in Journal.NEGATIVE_WORDS (Journal.tokens_of entry_text)))))
      as [E|[E|E]]; rewrite E.
    + left. reflexivity.
    + right; left. reflexivity.
    + right; right; left. reflexivity.
  - unfold Suggestions.get_suggestion, Suggestions.suggestions,
      Spec.emotion_labels, mem.
    cbn [Suggestions.dict_get existsb].
    rewrite (String.eqb_sym "positive"), (String.eqb_sym "negative"),
      (String.eqb_sym "neutral").
    destruct (lower mood =? "positive"); [reflexivity|].
    destruct (lower mood =? "negative"); [reflexivity|].
    destruct (lower mood =? "neutral"); reflexivity.
Qed.

End SuggestionFacts.

(* ================================================================== *)
(** ** Further properties of the classifier and of the replies *)

Section ClassifierFacts.

Variable sentiment_polarity : string -> Q.





Lemma lstrip_fixed (s : string) :
  Spec.starts_nonspace s = true -> lstrip s = s.
Proof.
  destruct s as [|c s]; [discriminate|]. cbn [Spec.starts_nonspace lstrip].
  intros H. apply negb_true_iff in H. now rewrite H.
Qed.








Lemma mem_false_cons (x y : string) (l : list string) :
  mem x (y :: l) = false -> (x =? y) = false /\ mem x l = false.
Proof. unfold mem. cbn [existsb]. apply orb_false_iff. Qed.

(** X11.  [re.match] anchors at the start and [get_response] passes the
    text untrimmed: a text that begins with a character that is not a
    word character (a blank, say) and contains no question mark is not
    taken for a question, whatever follows. *)
Theorem leading_blank_hides_question (c : ascii) (text : string) :
  is_word c = false ->
  str_in "?" (String c text) = false ->
  Chatbot._question_like (String c text) = false.
Proof.
  intros Hc Hq. unfold Chatbot._question_like, Re.re_match. rewrite Hq.
  rewrite (run_starts_at_boundary Chatbot.question_re); [reflexivity..|].
  unfold Re.at_boundary, Re.word_before, Re.word_after. cbn [fst snd].
  now rewrite Hc.
Qed.

End ClassifierFacts.


Lemma leading_blank_hides_question_witness :
  Chatbot._question_like "why me" = true /\
  Chatbot._question_like " why me" = false.
Proof.
  split; [reflexivity|].
  apply leading_blank_hides_question; reflexivity.
Defined.

(* ================================================================== *)
(** ** The request to the generative service and its answer *)

Section ServiceFacts.

Variable sentiment_polarity : string -> Q.

Lemma last_n_length {A : Type} (n : nat) (l : list A) :
  (List.length (Chatbot.last_n n l) <= n)%nat.
Proof. unfold Chatbot.last_n. rewrite length_skipn. lia. Qed.

Lemma last_n_snoc {A : Type} (n : nat) (l : list A) (x : A) :
  exists l', Chatbot.last_n (S n) (l ++ [x]) = (l' ++ [x])%list.
Proof.
  unfold Chatbot.last_n. rewrite skipn_app, length_app. cbn [List.length].
  assert (E : (List.length l + 1 - S n - List.length l = 0)%nat) by lia.
  rewrite E. cbn [skipn]. eexists. reflexivity.
Qed.

Lemma flat_map_length_le {A B : Type} (f : A -> list B) (l : list A) :
  (forall x, List.length (f x) <= 1)%nat ->
  (List.length (flat_map f l) <= List.length l)%nat.
Proof.
  intros Hf. induction l as [|x l IH]; [reflexivity|].
  cbn [flat_map]. rewrite length_app. cbn [List.length].
  specialize (Hf x). lia.
Qed.

Lemma history_messages_length (history : list Chatbot.turn) :
  (List.length (Chatbot.history_messages history) <= 10)%nat.
Proof.
  unfold Chatbot.history_messages.
  pose proof (last_n_length 10 history) as H.
  etransitivity; [apply flat_map_length_le|exact H].
  intros m. cbv zeta. destruct (truthy _); cbn [List.length]; lia.
Qed.

Lemma history_messages_content (history : list Chatbot.turn) :
  forallb (fun m => truthy m.(Chatbot.content))
          (Chatbot.history_messages history) = true.
Proof.
  unfold Chatbot.history_messages.
  induction (Chatbot.last_n 10 history) as [|m l IH]; [reflexivity|].
  cbn [flat_map]. rewrite forallb_app, IH, andb_true_r. cbv zeta.
  destruct (truthy (Chatbot.getenv_or (Chatbot.turn_content m) "")) eqn:E;
    [|reflexivity].
  cbn. now rewrite E.
Qed.

(** X12.  The request sent to the provider starts with the system
    message of the chosen style, ends with the user's input, and carries
    between them at most ten messages of the history, none with an empty
    content. *)
Theorem request_messages_shape (env : Chatbot.os_env)
    (user_input : string) (history : list Chatbot.turn) (style : string) :
  exists middle,
    (Chatbot.build_request env user_input history style).(Chatbot.messages)
    = ({| Chatbot.role := "system";
          Chatbot.content := if style =? "detailed"
                             then Chatbot.detailed_prompt
                             else Chatbot.concise_prompt |}
       :: middle
       ++ [ {| Chatbot.role := "user"; Chatbot.content := user_input |} ])%list
    /\ (List.length middle <= 10)%nat
    /\ forallb (fun m => truthy m.(Chatbot.content)) middle = true.
Proof.
  exists (Chatbot.history_messages history). split; [reflexivity|split].
  - apply history_messages_length.
  - apply history_messages_content.
Qed.



End ServiceFacts.

(* ================================================================== *)
(** ** Further properties of the store and of the chart *)

Section StoreFacts.

Variable sentiment_polarity : string -> Q.

Lemma extended_refl {A : Type} (l : list A) : Facts.extended_by l l.
Proof. exists []. now rewrite app_nil_r. Qed.

Lemma extended_trans {A : Type} (l1 l2 l3 : list A) :
  Facts.extended_by l1 l2 -> Facts.extended_by l2 l3 -> Facts.extended_by l1 l3.
Proof.
  intros [a ->] [b ->]. exists (a ++ b)%list. now rewrite app_assoc.
Qed.

Lemma step_extends (db : App.database) (a : App.action) :
  Facts.extended_by db.(App.journal_entries)
    (App.journal_entries (App.step sentiment_polarity db a)) /\
  Facts.extended_by db.(App.mood_signals)
    (App.mood_signals (App.step sentiment_polarity db a)).
Proof.
  destruct a as [now prompt|now entry|now entry]; cbn [App.step].
  - unfold App.chat_turn. destruct (truthy prompt);
      cbn [App.journal_entries App.mood_signals];
      split; try apply extended_refl. now eexists.
  - unfold App.journal_submit. destruct (truthy (strip entry));
      [|split; apply extended_refl].
    destruct (Journal.analyze_emotion entry) as [mood polarity].
    cbn [App.journal_entries App.mood_signals]. split; now eexists.
  - unfold App.flask_journal. cbv zeta. destruct (truthy (strip entry));
      [|split; apply extended_refl].
    destruct (Journal.analyze_emotion (strip entry)) as [mood polarity].
    cbn [App.journal_entries App.mood_signals].
    split; [now eexists|apply extended_refl].
Qed.

Lemma steps_extend (actions : list App.action) (db : App.database) :
  Facts.extended_by db.(App.journal_entries)
    (App.journal_entries (fold_left (App.step sentiment_polarity) actions db))
  /\
  Facts.extended_by db.(App.mood_signals)
    (App.mood_signals (fold_left (App.step sentiment_polarity) actions db)).
Proof.
  revert db. induction actions as [|a actions IH]; intros db.
  - split; apply extended_refl.
  - cbn [fold_left].
    destruct (step_extends db a) as [H1 H2].
    destruct (IH (App.step sentiment_polarity db a)) as [H3 H4].
    split; eapply extended_trans; eassumption.
Qed.

(** X14.  The store is append-only: whatever the users do next, the rows
    already in the two tables stay, unchanged and in place, and new rows
    come after them. *)
Theorem store_is_append_only (before after : list App.action) :
  Facts.extended_by
    (App.journal_entries (App.session sentiment_polarity before))
    (App.journal_entries (App.session sentiment_polarity (before ++ after)))
  /\
  Facts.extended_by
    (App.mood_signals (App.session sentiment_polarity before))
    (App.mood_signals (App.session sentiment_polarity (before ++ after))).
Proof.
  unfold App.session. rewrite fold_left_app. apply steps_extend.
Qed.

Lemma filter_snoc {A : Type} (f : A -> bool) (l : list A) (x : A) :
  filter f (l ++ [x]) = (filter f l ++ (if f x then [x] else []))%list.
Proof. rewrite filter_app. reflexivity. Qed.

Lemma step_mirrors (db : App.database) (a : App.action) :
  Facts.streamlit_action a = true ->
  map Facts.entry_core db.(App.journal_entries)
    = map Facts.signal_core (filter Facts.from_journal db.(App.mood_signals)) ->
  map Facts.entry_core
      (App.journal_entries (App.step sentiment_polarity db a))
    = map Facts.signal_core
        (filter Facts.from_journal
           (App.mood_signals (App.step sentiment_polarity db a))).
Proof.
  intros Ha Hdb. destruct a as [now prompt|now entry|now entry];
    [| |discriminate]; cbn [App.step].
  - unfold App.chat_turn. destruct (truthy prompt); [|exact Hdb].
    cbn [App.journal_entries App.mood_signals].
    rewrite filter_snoc. cbn. now rewrite app_nil_r.
  - unfold App.journal_submit. destruct (truthy (strip entry)); [|exact Hdb].
    destruct (Journal.analyze_emotion entry) as [mood polarity].
    cbn [App.journal_entries App.mood_signals].
    rewrite filter_snoc, !map_app, Hdb. reflexivity.
Qed.

Lemma steps_mirror (actions : list App.action) (db : App.database) :
  forallb Facts.streamlit_action actions = true ->
  map Facts.entry_core db.(App.journal_entries)
    = map Facts.signal_core (filter Facts.from_journal db.(App.mood_signals)) ->
  map Facts.entry_core
      (App.journal_entries (fold_left (App.step sentiment_polarity) actions db))
    = map Facts.signal_core
        (filter Facts.from_journal
           (App.mood_signals
              (fold_left (App.step sentiment_polarity) actions db))).
Proof.
  revert db. induction actions as [|a actions IH]; intros db Ha Hdb;
    [exact Hdb|].
  cbn [forallb] in Ha. apply andb_true_iff in Ha as [Ha Has].
  cbn [fold_left]. apply IH; [exact Has|]. now apply step_mirrors.
Qed.

(** X15.  In a session of the Streamlit application the journal signals
    of mood_signals mirror journal_entries: the same entries in the same
    order, each with the same content, mood and polarity; chat turns do
    not disturb this. *)
Theorem journal_signals_mirror_entries (actions : list App.action) :
  forallb Facts.streamlit_action actions = true ->
  map Facts.entry_core
      (App.journal_entries (App.session sentiment_polarity actions))
  = map Facts.signal_core
      (filter Facts.from_journal
         (App.mood_signals (App.session sentiment_polarity actions))).
Proof. intros H. now apply steps_mirror. Qed.

Lemma agrees_charted (m : App.mood_signal) :
  Spec.agrees m.(App.ms_mood) m.(App.ms_polarity) -> Facts.charted m.
Proof.
  unfold Spec.agrees, Facts.charted.
  intros [[E H]|[[E H]|[E H]]]; rewrite E.
  - left. now split.
  - right; left. now split.
  - right; right. now split.
Qed.

(** X16.  For every mood signal that a session stores, the value the
    aggregator plots goes with the stored polarity: 1 with a polarity
    above 0.1, -1 with one below -0.1, and 0 with one in between. *)
Theorem chart_value_follows_polarity (actions : list App.action) :
  Forall Facts.charted
         (App.mood_signals (App.session sentiment_polarity actions)).
Proof.
  destruct (session_ok sentiment_polarity actions) as [_ Hs].
  eapply Forall_impl; [|exact Hs].
  intros m (Ha & _). now apply agrees_charted.
Qed.

End StoreFacts.

Lemma journal_signals_mirror_entries_witness :
  map Facts.entry_core
      (App.journal_entries
         (App.session (fun _ => 0)
            [ App.Chat "2024-05-01 09:00:00" "hello";
              App.SaveEntry "2024-05-01 09:05:00" "A good, calm day";
              App.Chat "2024-05-01 09:06:00" "I am sad" ]))
  = [ ("A good, calm day", "positive", 1) ].
Proof.
  rewrite journal_signals_mirror_entries by reflexivity.
  vm_compute. reflexivity.
Defined.

(* ================================================================== *)
(** ** The figure of the mood trend *)

Section FigureFacts.

Lemma mood_value_range (mood : string) :
  In (MoodPlot.mood_value mood) [1; -1; 0]%Z.
Proof.
  unfold MoodPlot.mood_value.
  destruct (lower mood =? "positive"); [now left|].
  destruct (lower mood =? "negative"); [right; now left|].
  right; right; now left.
Qed.

(** X17.  [plot_mood_trend] returns a path exactly when it saves a
    figure, and that figure is saved under the returned path with as many
    values as dates, one per row, each value being 1, -1 or 0.  Rows of
    journal_entries are charted only when mood_signals is missing or
    empty. *)
Theorem figure_is_well_formed (signals : option (list MoodPlot.row))
    (journal : list MoodPlot.row) :
  match MoodPlot.plot_mood_trend signals journal with
  | (Some path, Some fig) =>
      fig.(MoodPlot.fig_path) = path /\
      List.length fig.(MoodPlot.fig_dates)
        = List.length (MoodPlot.fetch_rows signals journal) /\
      List.length fig.(MoodPlot.fig_values)
        = List.length fig.(MoodPlot.fig_dates) /\
      Forall (fun v => In v [1; -1; 0]%Z) fig.(MoodPlot.fig_values)
  | (None, None) => MoodPlot.fetch_rows signals journal = []
  | _ => False
  end /\
  (forall r rows,
     MoodPlot.plot_mood_trend (Some (r :: rows)) journal
     = MoodPlot.plot_mood_trend (Some (r :: rows)) []) /\
  MoodPlot.plot_mood_trend (Some []) journal
    = MoodPlot.plot_mood_trend None journal.
Proof.
  split; [|split; reflexivity].
  unfold MoodPlot.plot_mood_trend.
  destruct (MoodPlot.fetch_rows signals journal) as [|r rows]; [reflexivity|].
  cbn [MoodPlot.fig_path MoodPlot.fig_dates MoodPlot.fig_values].
  unfold MoodPlot.mood_values. rewrite !length_map.
  repeat split. apply Forall_map, Forall_forall.
  intros x _. apply mood_value_range.
Qed.

End FigureFacts.

(* ================================================================== *)
(** ** The Chat page *)

Section ChatPageFacts.

Variable sentiment_polarity : string -> Q.
Variable env : Chatbot.os_env.
Variable svc : Chatbot.services.

Lemma hints_cover (k : string) :
  mem k ChatPage.hint_intents = true ->
  exists line, ChatPage.dict_item ChatPage.hints k = Some line /\
               Spec.starts_nonspace line = true.
Proof.
  intros H. apply existsb_exists in H as (w & Hin & Heq).
  apply String.eqb_eq in Heq. subst w. simpl in Hin.
  repeat (destruct Hin as [<-|Hin]; [eexists; split; reflexivity|]).
  contradiction.
Qed.

Lemma starts_nonspace_app (l x : string) :
  Spec.starts_nonspace l = true -> Spec.starts_nonspace (l ++ x) = true.
Proof. destruct l; [discriminate|auto]. Qed.

(** The memory line: never a KeyError; a line only when none was shown
    before, and then the flag is set. *)
Lemma memory_hint_cases (memory_enabled : bool) (ctx_emotion : string)
    (i e a : option string) (shown : bool) :
  ChatPage.memory_hint memory_enabled ctx_emotion i e a shown
    = Some (None, shown) \/
  (shown = false /\
   exists line,
     ChatPage.memory_hint memory_enabled ctx_emotion i e a shown
       = Some (Some line, true) /\
     Spec.starts_nonspace line = true).
Proof.
  unfold ChatPage.memory_hint.
  destruct (memory_enabled && ChatPage.opt_mem i ChatPage.hint_intents) eqn:G.
  - destruct shown; [now left|]. right. split; [reflexivity|].
    apply andb_true_iff in G as [_ G].
    destruct i as [k|]; [|discriminate]. cbn [ChatPage.opt_mem] in G.
    destruct (hints_cover k G) as (line & Hl & Hs).
    cbn [negb Chatbot.getenv_or]. rewrite Hl. cbv zeta.
    eexists. split; [reflexivity|].
    destruct (_ && _); [now apply starts_nonspace_app|exact Hs].
  - destruct (memory_enabled && ChatPage.opt_mem e ["positive"; "negative"]);
      [|now left].
    destruct shown; [now left|]. cbn [negb andb].
    destruct (ChatPage.opt_eqb ctx_emotion e); [|now left].
    right. split; [reflexivity|]. eexists. split; [reflexivity|].
    destruct (ChatPage.opt_eqb "positive" e); reflexivity.
Qed.

Lemma rstrip_keeps_start (s : string) :
  Spec.starts_nonspace s = true -> Spec.starts_nonspace (rstrip s) = true.
Proof.
  destruct s as [|c s]; [discriminate|]. cbn [Spec.starts_nonspace].
  intros H. apply negb_true_iff in H.
  cbn [rstrip]. destruct (rstrip s); rewrite ?H; cbn [Spec.starts_nonspace];
    now rewrite H.
Qed.

Lemma strip_truthy (s : string) :
  Spec.starts_nonspace s = true -> truthy (strip s) = true.
Proof.
  intros H. unfold strip. rewrite (lstrip_fixed s H).
  pose proof (rstrip_keeps_start s H) as H'.
  destruct (rstrip s); [discriminate|reflexivity].
Qed.

Lemma starts_nonspace_truthy (s : string) :
  Spec.starts_nonspace s = true -> truthy s = true.
Proof. destruct s; [discriminate|reflexivity]. Qed.

(** One prompt: the run ends, adds the prompt and a reply that is not
    empty to the history, and shows a memory line only if none was shown
    before. *)
Lemma on_prompt_cases (c : ChatPage.controls) (now prompt : string)
    (st : ChatPage.session_state) (db : App.database) :
  exists st' v,
    ChatPage.on_prompt sentiment_polarity env svc c now prompt st db
      = Some (st', App.chat_turn sentiment_polarity now prompt db, v) /\
    (exists a,
       st'.(ChatPage.messages)
         = (st.(ChatPage.messages) ++ [Facts.user_message prompt; a])%list /\
       a.(Chatbot.role) = "assistant" /\
       truthy a.(Chatbot.content) = true) /\
    ((Facts.has_line (Some v) = false /\ Facts.shown_of st' = Facts.shown_of st)
     \/ (Facts.has_line (Some v) = true /\ Facts.shown_of st = false
         /\ Facts.shown_of st' = true)).
Proof.
  unfold ChatPage.on_prompt. cbv zeta. fold (Facts.shown_of st).
  set (ctx := App.chat_context sentiment_polarity prompt).
  set (base := Chatbot.generate_reply _ _ _ _ _ _).
  assert (Hbase : truthy base = true) by apply generate_reply_truthy.
  destruct (memory_hint_cases c.(ChatPage.memory_enabled)
              ctx.(Chatbot.emotion) (Some ctx.(Chatbot.intent))
              (Some ctx.(Chatbot.emotion))
              (if ctx.(Chatbot.intent) =? "achievement" then Some prompt
               else st.(ChatPage.last_achievement))
              (Facts.shown_of st))
    as [E|(Hs & line & E & Hl)]; rewrite E.
  - eexists. eexists. split; [reflexivity|split].
    + cbn [ChatPage.messages]. eexists. split.
      * rewrite <- app_assoc. reflexivity.
      * split; [reflexivity|exact Hbase].
    + left. split; reflexivity.
  - eexists. eexists. split; [reflexivity|split].
    + cbn [ChatPage.messages]. eexists. split.
      * rewrite <- app_assoc. reflexivity.
      * split; [reflexivity|]. cbn [Chatbot.content].
        rewrite (starts_nonspace_truthy line Hl).
        apply strip_truthy. now apply starts_nonspace_app.
    + right. cbn [Facts.has_line ChatPage.memory_line Chatbot.is_set].
      rewrite (starts_nonspace_truthy line Hl). now repeat split.
Qed.

Lemma chat_runs_cases (inputs : list ChatPage.run_input) :
  forall (st : ChatPage.session_state) (db : App.database),
  exists st' db' views,
    ChatPage.chat_runs sentiment_polarity env svc inputs st db
      = Some (st', db', views) /\
    List.length views = List.length inputs /\
    (exists added,
       st'.(ChatPage.messages) = (st.(ChatPage.messages) ++ added)%list /\
       Facts.dialogue (Facts.prompts inputs) added) /\
    (Facts.hints_shown views + (if Facts.shown_of st then 1 else 0) <= 1)%nat /\
    (Facts.shown_of st = true -> Facts.shown_of st' = true).
Proof.
  induction inputs as [|[[c now] prompt] rest IH]; intros st db.
  - exists st, db, []. split; [reflexivity|split; [reflexivity|split]].
    + exists []. split; [now rewrite app_nil_r|exact I].
    + split; [|auto]. cbn. destruct (Facts.shown_of st); lia.
  - cbn [ChatPage.chat_runs]. unfold ChatPage.chat_page.
    unfold Facts.prompts. cbn [map snd filter]. fold (Facts.prompts rest).
    destruct (truthy prompt) eqn:Hp.
    + destruct (on_prompt_cases c now prompt st db)
        as (st1 & v & E & (a & Hm & Hr & Ht) & Hh).
      rewrite E.
      destruct (IH st1 (App.chat_turn sentiment_polarity now prompt db))
        as (st' & db' & views & E' & Hlen & (added & Hm' & Hd) & Hn & Hk).
      rewrite E'. exists st', db', (Some v :: views).
      split; [reflexivity|split; [cbn; lia|split; [|split]]].
      * exists (Facts.user_message prompt :: a :: added). split.
        -- rewrite Hm', Hm, <- app_assoc. reflexivity.
        -- cbn [Facts.dialogue]. now repeat split.
      * unfold Facts.hints_shown in *. cbn [filter].
        destruct Hh as [(Hv & Hs)|(Hv & Hs & Hs')]; rewrite Hv.
        -- now rewrite <- Hs.
        -- rewrite Hs. rewrite Hs' in Hn. cbn [List.length]. lia.
      * intros Hs. apply Hk.
        destruct Hh as [(_ & Hs1)|(_ & Hs0 & _)]; congruence.
    + destruct (IH st db)
        as (st' & db' & views & E' & Hlen & (added & Hm' & Hd) & Hn & Hk).
      rewrite E'. exists st', db', (None :: views).
      split; [reflexivity|split; [cbn; lia|split; [|split]]].
      * exists added. now split.
      * exact Hn.
      * exact Hk.
Qed.

(** X18.  A session of the Chat page never stops with an exception (the
    lookup in [hints] always finds its key), shows one view per run, and
    shows a memory line at most once: once it has been shown, no later
    run of the session shows one. *)
Theorem memory_line_at_most_once (inputs : list ChatPage.run_input)
    (st : ChatPage.session_state) (db : App.database) :
  exists st' db' views,
    ChatPage.chat_runs sentiment_polarity env svc inputs st db
      = Some (st', db', views) /\
    List.length views = List.length inputs /\
    (Facts.hints_shown views <= 1)%nat /\
    (if Facts.shown_of st then Facts.hints_shown views = 0%nat
     else Facts.hints_shown views = 0%nat \/ Facts.shown_of st' = true).
Proof.
  destruct (chat_runs_cases inputs st db)
    as (st' & db' & views & E & Hlen & _ & Hn & Hk).
  exists st', db', views. split; [exact E|split; [exact Hlen|split]].
  - lia.
  - destruct (Facts.shown_of st) eqn:Hs; [lia|].
    clear Hk Hn. revert st db st' db' views E Hlen Hs.
    induction inputs as [|[[c now] prompt] rest IH];
      intros st db st' db' views E Hlen Hs.
    + cbn in E. injection E as <- <- <-. now left.
    + cbn [ChatPage.chat_runs] in E. unfold ChatPage.chat_page in E.
      destruct (truthy prompt).
      * destruct (on_prompt_cases c now prompt st db)
          as (st1 & v & E1 & _ & Hh).
        rewrite E1 in E.
        destruct (chat_runs_cases rest st1
                    (App.chat_turn sentiment_polarity now prompt db))
          as (st2 & db2 & vs & E2 & Hl2 & _ & Hn2 & Hk2).
        rewrite E2 in E. injection E as <- <- <-.
        destruct Hh as [(Hv & Hs1)|(Hv & _ & Hs1)].
        -- rewrite Hs in Hs1.
           destruct (IH st1 _ st2 db2 vs E2 Hl2 Hs1) as [H0|H1].
           ++ left. unfold Facts.hints_shown in *. cbn [filter].
              now rewrite Hv.
           ++ now right.
        -- right. now apply Hk2.
      * destruct (chat_runs_cases rest st db)
          as (st2 & db2 & vs & E2 & Hl2 & _ & Hn2 & Hk2).
        rewrite E2 in E. injection E as <- <- <-.
        destruct (IH st db st2 db2 vs E2 Hl2 Hs) as [H0|H1];
          [left; exact H0|now right].
Qed.

(** X19.  After a session of the Chat page the history holds, in order,
    each prompt that was not empty as a user message, followed by one
    assistant message that is not empty. *)
Theorem history_is_a_dialogue (inputs : list ChatPage.run_input)
    (db : App.database) :
  exists st' db' views,
    ChatPage.chat_runs sentiment_polarity env svc inputs
      ChatPage.new_session db = Some (st', db', views) /\
    Facts.dialogue (Facts.prompts inputs) st'.(ChatPage.messages) /\
    List.length st'.(ChatPage.messages)
      = (2 * List.length (Facts.prompts inputs))%nat.
Proof.
  destruct (chat_runs_cases inputs ChatPage.new_session db)
    as (st' & db' & views & E & _ & (added & Hm & Hd) & _).
  exists st', db', views. split; [exact E|].
  cbn [ChatPage.new_session ChatPage.messages app] in Hm. rewrite Hm.
  split; [exact Hd|].
  clear Hm E. revert added Hd.
  induction (Facts.prompts inputs) as [|p ps IH]; intros added Hd.
  - destruct added; [reflexivity|contradiction].
  - destruct added as [|u [|a added]]; try contradiction.
    cbn [Facts.dialogue] in Hd. destruct Hd as (_ & _ & _ & Hd).
    cbn [List.length]. rewrite (IH _ Hd). lia.
Qed.

(** X20.  The request that the Chat page sends for a prompt ends with
    that prompt twice: once as the last message of the history, to which
    the page has already added it, and once more as the user's input. *)
Theorem prompt_is_sent_twice (msgs : list Chatbot.message)
    (prompt style : string) :
  truthy prompt = true ->
  exists before,
    (Chatbot.build_request env prompt
       (ChatPage.history_for (msgs ++ [Facts.user_message prompt])) style)
      .(Chatbot.messages)
    = (before ++ [Facts.user_message prompt; Facts.user_message prompt])%list.
Proof.
  intros Hp. unfold Chatbot.build_request. cbv zeta. cbn [Chatbot.messages].
  unfold ChatPage.history_for, Chatbot.history_messages.
  destruct (last_n_snoc 9 msgs (Facts.user_message prompt)) as (l1 & ->).
  rewrite map_app. cbn [map].
  destruct (last_n_snoc 9 (map ChatPage.as_turn l1)
              (ChatPage.as_turn (Facts.user_message prompt))) as (l2 & ->).
  rewrite flat_map_app. cbn [flat_map ChatPage.as_turn Facts.user_message
    Chatbot.turn_content Chatbot.turn_role Chatbot.role Chatbot.content
    Chatbot.getenv_or].
  rewrite Hp. cbn [app].
  eexists (_ :: _). cbn [app]. f_equal. rewrite <- app_assoc. reflexivity.
Qed.

End ChatPageFacts.

Lemma prompt_is_sent_twice_witness :
  exists before,
    (Chatbot.build_request
       {| Chatbot.OPENAI_API_KEY := None; Chatbot.OPENAI_MODEL := None;
          Chatbot.OLLAMA_BASE_URL := None; Chatbot.OLLAMA_MODEL := None;
          Chatbot.openai_installed := false |}
       "hello"
       (ChatPage.history_for ([] ++ [Facts.user_message "hello"])) "concise")
      .(Chatbot.messages)
    = (before ++ [Facts.user_message "hello"; Facts.user_message "hello"])%list.
Proof. apply prompt_is_sent_twice. reflexivity. Defined.

(* ================================================================== *)
(** ** When the service is used *)

Section AvailabilityFacts.

(** X22.  The generative service counts as available unless
    OLLAMA_BASE_URL is set to the empty string and no OpenAI client with a
    key is at hand: without any setting the local Ollama address is used,
    and [get_llm_response] calls a provider exactly when the service is
    available. *)
Theorem service_is_on_by_default (env : Chatbot.os_env)
    (svc : Chatbot.services) (user_input : string)
    (history : list Chatbot.turn) (style : string) :
  (Chatbot.llm_available env = false <->
   env.(Chatbot.OLLAMA_BASE_URL) = Some EmptyString /\
   Chatbot.is_set env.(Chatbot.OPENAI_API_KEY)
     && env.(Chatbot.openai_installed) = false) /\
  Chatbot.llm_available
    {| Chatbot.OPENAI_API_KEY := None; Chatbot.OPENAI_MODEL := None;
       Chatbot.OLLAMA_BASE_URL := None; Chatbot.OLLAMA_MODEL := None;
       Chatbot.openai_installed := env.(Chatbot.openai_installed) |} = true /\
  (Chatbot.build_request env user_input history style).(Chatbot.use_openai)
    = Chatbot.is_set env.(Chatbot.OPENAI_API_KEY)
      && env.(Chatbot.openai_installed).
Proof.
  split; [|split; reflexivity].
  unfold Chatbot.llm_available.
  destruct (Chatbot.is_set _ && _); [split; [discriminate|intros [_ H]; discriminate]|].
  destruct (Chatbot.OLLAMA_BASE_URL env) as [[|c u]|]; cbn.
  - split; auto.
  - split; [discriminate|intros [H _]; discriminate].
  - split; [discriminate|intros [H _]; discriminate].
Qed.

Lemma last_n_idem {A : Type} (n : nat) (l : list A) :
  Chatbot.last_n n (Chatbot.last_n n l) = Chatbot.last_n n l.
Proof.
  unfold Chatbot.last_n at 1.
  assert (E : (List.length (Chatbot.last_n n l) - n = 0)%nat).
  { unfold Chatbot.last_n. rewrite length_skipn. lia. }
  rewrite E. reflexivity.
Qed.

(** X23.  Only the last ten turns of the history reach the provider: the
    request built from a history is the one built from its last ten
    turns. *)
Theorem request_uses_last_ten_turns (env : Chatbot.os_env)
    (user_input : string) (history : list Chatbot.turn) (style : string) :
  Chatbot.build_request env user_input history style
  = Chatbot.build_request env user_input (Chatbot.last_n 10 history) style /\
  (forall older,
     (10 <= List.length history)%nat ->
     Chatbot.build_request env user_input (older ++ history) style
     = Chatbot.build_request env user_input history style).
Proof.
  split.
  - unfold Chatbot.build_request, Chatbot.history_messages.
    now rewrite last_n_idem.
  - intros older H.
    unfold Chatbot.build_request, Chatbot.history_messages.
    assert (E : Chatbot.last_n 10 (older ++ history)
                = Chatbot.last_n 10 history).
    { unfold Chatbot.last_n. rewrite skipn_app, length_app.
      rewrite (skipn_all2 older) by lia. cbn [app]. f_equal. lia. }
    now rewrite E.
Qed.

End AvailabilityFacts.

Lemma request_uses_last_ten_turns_witness :
  Chatbot.build_request
    {| Chatbot.OPENAI_API_KEY := None; Chatbot.OPENAI_MODEL := None;
       Chatbot.OLLAMA_BASE_URL := None; Chatbot.OLLAMA_MODEL := None;
       Chatbot.openai_installed := false |}
    "and now?"
    ([ {| Chatbot.turn_role := Some "user";
          Chatbot.turn_content := Some "the oldest turn" |} ]
     ++ repeat {| Chatbot.turn_role := Some "assistant";
                  Chatbot.turn_content := Some "ok" |} 10)
    "concise"
  = Chatbot.build_request
      {| Chatbot.OPENAI_API_KEY := None; Chatbot.OPENAI_MODEL := None;
         Chatbot.OLLAMA_BASE_URL := None; Chatbot.OLLAMA_MODEL := None;
         Chatbot.openai_installed := false |}
      "and now?"
      (repeat {| Chatbot.turn_role := Some "assistant";
                 Chatbot.turn_content := Some "ok" |} 10)
      "concise".
Proof.
  apply (proj2 (request_uses_last_ten_turns _ _ _ _)). cbn. lia.
Defined.

(* ================================================================== *)
(** ** Texts over every character: equality, trimming, tokens *)

Section UniTokenizer.

Variable U : Uni.unicode.

Lemma uni_eqb_eq (a b : Uni.text) : Uni.eqb a b = true <-> a = b.
Proof.
  revert b. induction a as [|x a IH]; intros [|y b]; simpl;
    try (split; [discriminate|discriminate]); [tauto|].
  rewrite andb_true_iff, N.eqb_eq, IH. split.
  - intros [-> ->]. reflexivity.
  - intros E. injection E as -> ->. now split.
Qed.

Lemma uni_lstrip_all_space (s : Uni.text) :
  UniSpec.all_space U s = true -> Uni.lstrip U s = [].
Proof.
  unfold UniSpec.all_space.
  induction s as [|c s IH]; simpl; [reflexivity|].
  intros H. apply andb_true_iff in H as [Hc Hs].
  rewrite Hc. now apply IH.
Qed.

Lemma uni_strip_all_space (s : Uni.text) :
  UniSpec.all_space U s = true -> Uni.strip U s = [].
Proof. intros H. unfold Uni.strip. now rewrite uni_lstrip_all_space. Qed.

Lemma uni_boundary_after_plus (s : Uni.text) (c : N) :
  Uni.is_word U c = true ->
  flat_map (UniRe.run U UniRe.Boundary) (UniRe.word_plus U (c :: s))
  = [UniSpec.run_end U (Some c) s].
Proof.
  revert c. induction s as [|c' s IH]; intros c Hc.
  - simpl. rewrite Hc. simpl.
    unfold UniRe.at_boundary, UniRe.word_before, UniRe.word_after.
    simpl. now rewrite Hc.
  - change (UniRe.word_plus U (c :: c' :: s))
      with (if Uni.is_word U c
            then (UniRe.word_plus U (c' :: s) ++ [(Some c, c' :: s)])%list
            else []).
    rewrite Hc, flat_map_app. destruct (Uni.is_word U c') eqn:Hc'.
    + rewrite (IH c' Hc'). simpl.
      unfold UniRe.at_boundary, UniRe.word_before, UniRe.word_after.
      simpl. now rewrite Hc, Hc'.
    + simpl. rewrite Hc'. simpl.
      unfold UniRe.at_boundary, UniRe.word_before, UniRe.word_after.
      simpl. now rewrite Hc, Hc'.
Qed.

Lemma uni_word_plus_nonword (c : N) (s : Uni.text) :
  Uni.is_word U c = false -> UniRe.word_plus U (c :: s) = [].
Proof. intros H. simpl. now rewrite H. Qed.

Lemma uni_run_word_re (prev : option N) (s : Uni.text) :
  UniRe.run U UniJournal.word_re (prev, s) =
  if UniRe.word_before U (prev, s) then []
  else match s with
       | c :: s' =>
           if Uni.is_word U c then [UniSpec.run_end U (Some c) s'] else []
       | [] => []
       end.
Proof.
  unfold UniJournal.word_re.
  change (UniRe.run U
            (UniRe.Seq UniRe.Boundary (UniRe.Seq UniRe.WordPlus UniRe.Boundary))
            (prev, s))
    with (flat_map
            (fun p => flat_map (UniRe.run U UniRe.Boundary)
                        (UniRe.word_plus U (snd p)))
            (if UniRe.at_boundary U (prev, s) then [(prev, s)] else [])).
  unfold UniRe.at_boundary.
  destruct (UniRe.word_before U (prev, s)); destruct s as [|c s];
    unfold UniRe.word_after; cbn [snd xorb negb]; try reflexivity.
  - destruct (Uni.is_word U c) eqn:Hc; cbn [xorb negb flat_map]; [reflexivity|].
    cbn [snd]. rewrite (uni_word_plus_nonword c s Hc). reflexivity.
  - destruct (Uni.is_word U c) eqn:Hc; cbn [xorb negb flat_map]; [|reflexivity].
    cbn [snd]. rewrite (uni_boundary_after_plus s c Hc). reflexivity.
Qed.

Lemma uni_run_end_length (prev : option N) (s : Uni.text) :
  (List.length (snd (UniSpec.run_end U prev s)) + UniSpec.wlen U s
   = List.length s)%nat.
Proof.
  revert prev. induction s as [|c s IH]; intros prev; simpl; [reflexivity|].
  destruct (Uni.is_word U c); simpl; [|lia]. specialize (IH (Some c)). lia.
Qed.

Lemma uni_split_words_cons (c : N) (s : Uni.text) :
  UniSpec.split_words U (c :: s) =
  if Uni.is_word U c then
    match s with
    | c' :: _ =>
        if Uni.is_word U c' then
          match UniSpec.split_words U s with
          | w :: ws => (c :: w) :: ws
          | [] => [[c]]
          end
        else [c] :: UniSpec.split_words U s
    | [] => [[c]]
    end
  else UniSpec.split_words U s.
Proof. reflexivity. Qed.

Lemma uni_split_words_word (s : Uni.text) (c : N) :
  Uni.is_word U c = true ->
  UniSpec.split_words U (c :: s) =
  (c :: firstn (UniSpec.wlen U s) s)
    :: UniSpec.split_words U (skipn (UniSpec.wlen U s) s).
Proof.
  revert c. induction s as [|c' s IH]; intros c Hc.
  - simpl. now rewrite Hc.
  - rewrite uni_split_words_cons, Hc. destruct (Uni.is_word U c') eqn:Hc'.
    + rewrite (IH c' Hc'). simpl UniSpec.wlen. rewrite Hc'. reflexivity.
    + simpl UniSpec.wlen. rewrite Hc'. reflexivity.
Qed.

Lemma uni_split_words_nonword (s : Uni.text) (c : N) :
  Uni.is_word U c = false ->
  UniSpec.split_words U (c :: s) = UniSpec.split_words U s.
Proof. intros H. simpl. now rewrite H. Qed.

Lemma uni_findall_word_re_from (s : Uni.text) :
  forall prev,
    (UniRe.word_before U (prev, s) = false ->
     UniRe.findall_from U UniJournal.word_re prev s 0
     = UniSpec.split_words U s) /\
    UniRe.findall_from U UniJournal.word_re prev s (UniSpec.wlen U s) =
      UniSpec.split_words U (skipn (UniSpec.wlen U s) s).
Proof.
  induction s as [|c s IH]; intros prev; [split; reflexivity|].
  assert (Hnon : Uni.is_word U c = false ->
                 UniRe.findall_from U UniJournal.word_re prev (c :: s) 0 =
                 UniSpec.split_words U (c :: s)).
  { intros Hc. rewrite (uni_split_words_nonword s c Hc).
    cbn [UniRe.findall_from]. rewrite uni_run_word_re, Hc.
    destruct (UniRe.word_before U _);
      apply (proj1 (IH (Some c))); exact Hc. }
  split.
  - intros Hb. destruct (Uni.is_word U c) eqn:Hc; [|now apply Hnon].
    cbn [UniRe.findall_from]. rewrite uni_run_word_re, Hb, Hc.
    pose proof (uni_run_end_length (Some c) s) as Hl.
    assert (E : (List.length (c :: s)
                 - List.length (snd (UniSpec.run_end U (Some c) s)))%nat
                = S (UniSpec.wlen U s))
      by (cbn [List.length]; lia).
    rewrite E. cbn [firstn pred]. rewrite (proj2 (IH (Some c))).
    now rewrite (uni_split_words_word s c Hc).
  - destruct (Uni.is_word U c) eqn:Hc.
    + simpl UniSpec.wlen. rewrite Hc. cbn [UniRe.findall_from skipn].
      apply (proj2 (IH (Some c))).
    + simpl UniSpec.wlen. rewrite Hc. cbn [skipn]. now apply Hnon.
Qed.

Lemma uni_findall_word_re (s : Uni.text) :
  UniRe.findall U UniJournal.word_re s = UniSpec.split_words U s.
Proof. apply (proj1 (uni_findall_word_re_from s None)). reflexivity. Qed.

Lemma uni_tokens_of_split (s : Uni.text) :
  UniJournal.tokens_of U s = UniSpec.split_words U (Uni.lower U s).
Proof. apply uni_findall_word_re. Qed.

Lemma uni_count_in_present (words tokens : list Uni.text) :
  UniJournal.count_in words tokens = UniSpec.count_present words tokens.
Proof.
  unfold UniJournal.count_in, UniSpec.count_present.
  induction (filter (fun token => Uni.mem token words) tokens) as [|t l IH].
  - reflexivity.
  - cbn [map py_sum fold_right List.length]. fold (py_sum (map (fun _ => 1%Z) l)).
    rewrite IH. lia.
Qed.

Lemma uni_count_in_nonneg (words tokens : list Uni.text) :
  (0 <= UniJournal.count_in words tokens)%Z.
Proof. rewrite uni_count_in_present. unfold UniSpec.count_present. lia. Qed.

Lemma uni_analyze_emotion_scorer (text : Uni.text) :
  UniJournal.analyze_emotion U text
  = UniSpec.polarity_scorer U (Uni.lower U text).
Proof.
  unfold UniJournal.analyze_emotion, UniSpec.polarity_scorer.
  rewrite uni_tokens_of_split.
  set (tokens := UniSpec.split_words U (Uni.lower U text)).
  rewrite !uni_count_in_present.
  set (pos := UniSpec.count_present UniJournal.POSITIVE_WORDS tokens).
  set (neg := UniSpec.count_present UniJournal.NEGATIVE_WORDS tokens).
  assert (Hpos : (0 <= pos)%Z) by (unfold pos, UniSpec.count_present; lia).
  assert (Hneg : (0 <= neg)%Z) by (unfold neg, UniSpec.count_present; lia).
  assert (Hpol : Journal.polarity_of pos neg =
                 if (0 <? pos + neg)%Z
                 then Qred ((pos - neg) # Z.to_pos (pos + neg)) else 0).
  { unfold Journal.polarity_of.
    destruct (Z.eqb_spec (pos + neg) 0) as [E|E];
      destruct (Z.ltb_spec 0 (pos + neg)) as [L|L]; try lia; try reflexivity.
    now apply true_div_fraction. }
  rewrite Hpol. f_equal.
  unfold Journal.mood_of, Journal.Qgt_bool, Journal.Qlt_bool.
  destruct (Qle_bool _ (1 # 10)); destruct (Qle_bool (- (1 # 10)) _); reflexivity.
Qed.


End UniTokenizer.

Lemma uni_positive_not_negative (t : Uni.text) :
  Uni.mem t UniJournal.POSITIVE_WORDS = true ->
  Uni.mem t UniJournal.NEGATIVE_WORDS = false.
Proof.
  intros H. apply existsb_exists in H as [w [Hin Heq]].
  apply uni_eqb_eq in Heq. subst w.
  cbv in Hin.
  repeat (destruct Hin as [<-|Hin]; [reflexivity|]). contradiction.
Qed.

Lemma uni_negative_not_positive (t : Uni.text) :
  Uni.mem t UniJournal.NEGATIVE_WORDS = true ->
  Uni.mem t UniJournal.POSITIVE_WORDS = false.
Proof.
  intros H. apply existsb_exists in H as [w [Hin Heq]].
  apply uni_eqb_eq in Heq. subst w.
  cbv in Hin.
  repeat (destruct Hin as [<-|Hin]; [reflexivity|]). contradiction.
Qed.

(* ================================================================== *)
(** ** Matching is not affected by trimming, over every text *)

Section UniTrimming.

Variable U : Uni.unicode.
Hypothesis space_not_word : Uni.space_not_word U.

Lemma uni_all_space_cons (c : N) (s : Uni.text) :
  UniSpec.all_space U (c :: s) = true <->
  Uni.is_space U c = true /\ UniSpec.all_space U s = true.
Proof. unfold UniSpec.all_space. simpl. apply andb_true_iff. Qed.

Lemma uni_word_after_blank (p : option N) (w : Uni.text) :
  UniSpec.all_space U w = true -> UniRe.word_after U (p, w) = false.
Proof.
  destruct w as [|c w]; [reflexivity|].
  intros H. apply uni_all_space_cons in H as [Hc _].
  unfold UniRe.word_after. simpl. now apply space_not_word.
Qed.

Lemma uni_blank_not_boundary (e : UniRe.pos) :
  UniTrim.blank U e -> UniRe.at_boundary U e = false.
Proof.
  intros [Hb Hs]. unfold UniRe.at_boundary. rewrite Hb.
  destruct e as [p w]. now rewrite (uni_word_after_blank p w Hs).
Qed.

Lemma uni_sim_app (w : Uni.text) (l1 l2 l1' l2' : list UniRe.pos) :
  UniTrim.sim U w l1 l2 -> UniTrim.sim U w l1' l2' ->
  UniTrim.sim U w (l1 ++ l1')%list (l2 ++ l2')%list.
Proof.
  induction 1; intros H'; simpl; [exact H'| |].
  - apply UniTrim.sim_both; auto.
  - apply UniTrim.sim_blank; auto.
Qed.

Lemma uni_sim_blanks (w : Uni.text) (l : list UniRe.pos) :
  Forall (UniTrim.blank U) l -> UniTrim.sim U w [] l.
Proof.
  induction 1; [constructor|]. now apply UniTrim.sim_blank.
Qed.

Lemma uni_sim_nil_iff (w : Uni.text) (l1 l2 : list UniRe.pos) :
  UniTrim.sim U w l1 l2 ->
  Forall (fun e => UniRe.at_boundary U e = true) l2 ->
  (l1 = [] <-> l2 = []).
Proof.
  induction 1 as [|a b l1 l2 _ _ _|b l1 l2 Hb _ _]; intros Hall.
  - tauto.
  - split; discriminate.
  - inversion Hall as [|? ? Hbd _]. subst.
    rewrite (uni_blank_not_boundary b Hb) in Hbd. discriminate.
Qed.

Lemma uni_lit_blank (l : Uni.text) (p : option N) (s : Uni.text) :
  UniTrim.blank U (p, s) -> Forall (UniTrim.blank U) (UniRe.lit l p s).
Proof.
  revert p s. induction l as [|a l IH]; intros p s Hb; simpl.
  - constructor; [exact Hb|constructor].
  - destruct s as [|b s]; [constructor|].
    destruct (a =? b)%N; [|constructor].
    apply IH. destruct Hb as [_ Hs]. cbn [snd] in Hs.
    apply uni_all_space_cons in Hs as [Hb Hs].
    split; [|exact Hs]. unfold UniRe.word_before. simpl.
    now apply space_not_word.
Qed.

Lemma uni_lit_into_blank (a : N) (l : Uni.text) (p : option N) (w : Uni.text) :
  UniSpec.all_space U w = true ->
  Forall (UniTrim.blank U) (UniRe.lit (a :: l) p w).
Proof.
  intros Hw. simpl. destruct w as [|b w]; [constructor|].
  destruct (a =? b)%N; [|constructor].
  apply uni_all_space_cons in Hw as [Hb Hw].
  apply uni_lit_blank. split; [|exact Hw].
  unfold UniRe.word_before. simpl. now apply space_not_word.
Qed.

Lemma uni_word_plus_blank (w : Uni.text) :
  UniSpec.all_space U w = true -> UniRe.word_plus U w = [].
Proof.
  destruct w as [|c w]; [reflexivity|].
  intros H. apply uni_all_space_cons in H as [Hc _].
  simpl. now rewrite (space_not_word c Hc).
Qed.

Lemma uni_run_blank (r : UniRe.regex) (e : UniRe.pos) :
  UniTrim.blank U e -> Forall (UniTrim.blank U) (UniRe.run U r e).
Proof.
  revert e. induction r as [l| | |r1 IH1 r2 IH2|r1 IH1 r2 IH2|r IH];
    intros e Hb; cbn [UniRe.run].
  - destruct e as [p s]. now apply uni_lit_blank.
  - rewrite (uni_blank_not_boundary e Hb). constructor.
  - destruct Hb as [_ Hs]. rewrite (uni_word_plus_blank _ Hs). constructor.
  - apply (Forall_flat_map (UniTrim.blank U)); auto.
  - apply Forall_app. auto.
  - apply Forall_app. split; [auto|]. constructor; [exact Hb|constructor].
Qed.

Section Extension.

Variable w : Uni.text.
Hypothesis w_blank : UniSpec.all_space U w = true.

Lemma uni_lit_sim (l : Uni.text) (p1 p2 : option N) (s : Uni.text) :
  UniRe.word_before U (p1, s) = UniRe.word_before U (p2, s) ->
  UniTrim.sim U w (UniRe.lit l p1 s) (UniRe.lit l p2 (s ++ w)%list).
Proof.
  revert p1 p2 s. induction l as [|a l IH]; intros p1 p2 s Hp.
  - simpl. apply UniTrim.sim_both; [|constructor]. now split.
  - destruct s as [|b s].
    + change (UniRe.lit (a :: l) p1 []) with (@nil UniRe.pos).
      apply uni_sim_blanks. now apply uni_lit_into_blank.
    + simpl. destruct (a =? b)%N; [|constructor].
      now apply IH.
Qed.

Lemma uni_word_after_ext (p1 p2 : option N) (s : Uni.text) :
  UniRe.word_after U (p2, (s ++ w)%list) = UniRe.word_after U (p1, s).
Proof.
  destruct s as [|c s]; [|reflexivity].
  exact (uni_word_after_blank p2 w w_blank).
Qed.

Lemma uni_at_boundary_ext (a b : UniRe.pos) :
  UniTrim.extends U w a b -> UniRe.at_boundary U b = UniRe.at_boundary U a.
Proof.
  destruct a as [p1 s], b as [p2 s']. intros [Hp Hs]. cbn [snd] in Hs.
  subst s'. unfold UniRe.at_boundary. rewrite <- Hp. f_equal.
  apply uni_word_after_ext.
Qed.

Lemma uni_word_plus_sim (s : Uni.text) :
  UniTrim.sim U w (UniRe.word_plus U s) (UniRe.word_plus U (s ++ w)%list).
Proof.
  induction s as [|c s IH].
  - simpl app. rewrite (uni_word_plus_blank w w_blank). constructor.
  - simpl. destruct (Uni.is_word U c); [|constructor].
    apply uni_sim_app; [exact IH|].
    apply UniTrim.sim_both; [|constructor]. now split.
Qed.

Lemma uni_flat_map_sim (f : UniRe.pos -> list UniRe.pos)
    (l1 l2 : list UniRe.pos) :
  (forall a b, UniTrim.extends U w a b -> UniTrim.sim U w (f a) (f b)) ->
  (forall b, UniTrim.blank U b -> Forall (UniTrim.blank U) (f b)) ->
  UniTrim.sim U w l1 l2 -> UniTrim.sim U w (flat_map f l1) (flat_map f l2).
Proof.
  intros Hext Hbl. induction 1 as [|a b l1 l2 Hab _ IH|b l1 l2 Hb _ IH];
    simpl.
  - constructor.
  - apply uni_sim_app; auto.
  - apply (uni_sim_app w [] _ _ _); [|exact IH].
    apply uni_sim_blanks. auto.
Qed.

Lemma uni_run_sim (r : UniRe.regex) (a b : UniRe.pos) :
  UniTrim.extends U w a b -> UniTrim.sim U w (UniRe.run U r a) (UniRe.run U r b).
Proof.
  revert a b. induction r as [l| | |r1 IH1 r2 IH2|r1 IH1 r2 IH2|r IH];
    intros a b Hab; cbn [UniRe.run].
  - destruct a as [p1 s], b as [p2 s']. destruct Hab as [Hp Hs].
    cbn [snd fst] in *. subst s'. now apply uni_lit_sim.
  - rewrite (uni_at_boundary_ext a b Hab).
    destruct (UniRe.at_boundary U a); [|constructor].
    apply UniTrim.sim_both; [exact Hab|constructor].
  - destruct Hab as [_ Hs]. rewrite Hs. apply uni_word_plus_sim.
  - apply uni_flat_map_sim; [exact IH2|apply uni_run_blank|now apply IH1].
  - apply uni_sim_app; auto.
  - apply uni_sim_app; [auto|]. apply UniTrim.sim_both; [exact Hab|constructor].
Qed.

End Extension.

Lemma uni_run_ends_at_boundary (r : UniRe.regex) (e : UniRe.pos) :
  UniTrim.ends_with_boundary r = true ->
  Forall (fun x => UniRe.at_boundary U x = true) (UniRe.run U r e).
Proof.
  revert e. induction r as [l| | |r1 IH1 r2 IH2|r1 IH1 r2 IH2|r IH];
    intros e Hr; try discriminate; cbn [UniRe.run].
  - destruct (UniRe.at_boundary U e) eqn:E; [|constructor].
    constructor; [exact E|constructor].
  - apply (Forall_flat_map (fun _ => True)); [|now apply Forall_forall].
    intros x _. now apply IH2.
Qed.

Lemma uni_run_starts_at_boundary (r : UniRe.regex) (e : UniRe.pos) :
  UniTrim.starts_with_boundary r = true -> UniRe.at_boundary U e = false ->
  UniRe.run U r e = [].
Proof.
  revert e. induction r as [l| | |r1 IH1 r2 IH2|r1 IH1 r2 IH2|r IH];
    intros e Hr He; try discriminate; cbn [UniRe.run].
  - now rewrite He.
  - now rewrite (IH1 e Hr He).
Qed.

Lemma uni_run_nil_ext (r : UniRe.regex) (w : Uni.text) (a b : UniRe.pos) :
  UniTrim.ends_with_boundary r = true -> UniSpec.all_space U w = true ->
  UniTrim.extends U w a b -> (UniRe.run U r a = [] <-> UniRe.run U r b = []).
Proof.
  intros Hr Hw Hab. apply (uni_sim_nil_iff w).
  - now apply uni_run_sim.
  - now apply uni_run_ends_at_boundary.
Qed.

Lemma uni_run_blank_nil (r : UniRe.regex) (e : UniRe.pos) :
  UniTrim.ends_with_boundary r = true -> UniTrim.blank U e ->
  UniRe.run U r e = [].
Proof.
  intros Hr Hb.
  pose proof (uni_run_blank r e Hb) as H1.
  pose proof (uni_run_ends_at_boundary r e Hr) as H2.
  destruct (UniRe.run U r e) as [|x l]; [reflexivity|].
  inversion H1 as [|? ? Hx _]; inversion H2 as [|? ? Hx' _]; subst.
  rewrite (uni_blank_not_boundary x Hx) in Hx'. discriminate.
Qed.

Lemma uni_search_blank (r : UniRe.regex) (s : Uni.text) (p : option N) :
  UniTrim.ends_with_boundary r = true -> UniTrim.blank U (p, s) ->
  UniRe.search_from U r p s = false.
Proof.
  intros Hr. revert p. induction s as [|c s IH]; intros p Hb.
  - simpl. now rewrite (uni_run_blank_nil r _ Hr Hb).
  - cbn [UniRe.search_from]. rewrite (uni_run_blank_nil r _ Hr Hb).
    apply IH. destruct Hb as [_ Hs]. cbn [snd] in Hs.
    apply uni_all_space_cons in Hs as [Hc Hs]. split; [|exact Hs].
    unfold UniRe.word_before. simpl. now apply space_not_word.
Qed.

Lemma uni_search_from_ext (r : UniRe.regex) (w : Uni.text) (s : Uni.text)
    (p1 p2 : option N) :
  UniTrim.ends_with_boundary r = true -> UniSpec.all_space U w = true ->
  UniRe.word_before U (p1, s) = UniRe.word_before U (p2, s) ->
  UniRe.search_from U r p2 (s ++ w)%list = UniRe.search_from U r p1 s.
Proof.
  intros Hr Hw. revert p1 p2. induction s as [|c s IH]; intros p1 p2 Hp.
  - assert (Hext : UniTrim.extends U w (p1, []) (p2, w)) by now split.
    pose proof (uni_run_nil_ext r w _ _ Hr Hw Hext) as Hnil.
    simpl app. destruct w as [|c w'].
    + simpl.
      destruct (UniRe.run U r (p1, [])) as [|x l] eqn:E1;
        destruct (UniRe.run U r (p2, [])) as [|y l'] eqn:E2;
        try reflexivity; exfalso.
      * assert (E : y :: l' = []) by (apply Hnil; reflexivity).
        discriminate.
      * assert (E : x :: l = []) by (apply Hnil; reflexivity).
        discriminate.
    + cbn [UniRe.search_from].
      destruct (UniRe.run U r (p1, [])) as [|x l] eqn:E1;
        destruct (UniRe.run U r (p2, c :: w')) as [|y l'] eqn:E2;
        try reflexivity.
      * apply uni_search_blank; [exact Hr|].
        apply uni_all_space_cons in Hw as [Hc Hw]. split; [|exact Hw].
        unfold UniRe.word_before. simpl. now apply space_not_word.
      * exfalso. assert (E : y :: l' = []) by (apply Hnil; reflexivity).
        discriminate.
      * exfalso. assert (E : x :: l = []) by (apply Hnil; reflexivity).
        discriminate.
  - assert (Hext : UniTrim.extends U w (p1, c :: s) (p2, c :: (s ++ w)%list))
      by now split.
    pose proof (uni_run_nil_ext r w _ _ Hr Hw Hext) as Hnil.
    cbn [app UniRe.search_from].
    destruct (UniRe.run U r (p1, c :: s)) as [|x l] eqn:E1;
      destruct (UniRe.run U r (p2, c :: (s ++ w)%list)) as [|y l'] eqn:E2;
      try reflexivity.
    + now apply IH.
    + exfalso. assert (E : y :: l' = []) by (apply Hnil; reflexivity).
      discriminate.
    + exfalso. assert (E : x :: l = []) by (apply Hnil; reflexivity).
      discriminate.
Qed.

Lemma uni_rstrip_split (s : Uni.text) :
  exists w, UniSpec.all_space U w = true /\ s = (Uni.rstrip U s ++ w)%list.
Proof.
  induction s as [|c s (w & Hw & Hs)].
  - now exists [].
  - cbn [Uni.rstrip]. destruct (Uni.rstrip U s) as [|c' r] eqn:E.
    + simpl in Hs. subst w. destruct (Uni.is_space U c) eqn:Hc.
      * exists (c :: s). split; [|reflexivity].
        apply uni_all_space_cons. now split.
      * exists s. now split.
    + exists w. split; [exact Hw|]. simpl. simpl in Hs. now rewrite <- Hs.
Qed.

Lemma uni_search_rstrip (r : UniRe.regex) (s : Uni.text) :
  UniTrim.ends_with_boundary r = true ->
  UniRe.search U r (Uni.rstrip U s) = UniRe.search U r s.
Proof.
  intros Hr. destruct (uni_rstrip_split s) as (w & Hw & Hs).
  unfold UniRe.search. rewrite Hs at 2. symmetry.
  now apply uni_search_from_ext.
Qed.

Lemma uni_search_lstrip (r : UniRe.regex) (s : Uni.text) :
  UniTrim.bounded r = true ->
  UniRe.search U r (Uni.lstrip U s) = UniRe.search U r s.
Proof.
  unfold UniTrim.bounded. intros Hr. apply andb_true_iff in Hr as [Hs He].
  unfold UniRe.search. induction s as [|c s IH]; [reflexivity|].
  cbn [Uni.lstrip]. destruct (Uni.is_space U c) eqn:Hc; [|reflexivity].
  cbn [UniRe.search_from]. rewrite (uni_run_starts_at_boundary r _ Hs).
  - rewrite IH. rewrite <- (app_nil_r s) at 2.
    symmetry. apply uni_search_from_ext; [exact He|reflexivity|].
    unfold UniRe.word_before. simpl. symmetry. now apply space_not_word.
  - unfold UniRe.at_boundary, UniRe.word_before, UniRe.word_after. simpl.
    now rewrite (space_not_word c Hc).
Qed.

Lemma uni_search_strip (r : UniRe.regex) (s : Uni.text) :
  UniTrim.bounded r = true ->
  UniRe.search U r (Uni.strip U s) = UniRe.search U r s.
Proof.
  intros Hr. unfold Uni.strip.
  rewrite uni_search_rstrip, uni_search_lstrip; try reflexivity; try exact Hr.
  unfold UniTrim.bounded in Hr. now apply andb_true_iff in Hr as [_ He].
Qed.

Lemma uni_patterns_bounded (t : Uni.text) :
  forallb UniTrim.bounded (UniChatbot.patterns t) = true.
Proof. reflexivity. Qed.

(** The negation patterns match in the trimmed text exactly when they
    match in the text. *)
Lemma uni_has_negated_strip (text : Uni.text) (terms : list Uni.text) :
  UniChatbot._has_negated U (Uni.strip U text) terms
  = UniChatbot._has_negated U text terms.
Proof.
  unfold UniChatbot._has_negated.
  apply existsb_ext_in. intros t _.
  apply existsb_ext_in. intros p Hp.
  apply uni_search_strip.
  pose proof (uni_patterns_bounded t) as H.
  rewrite forallb_forall in H. now apply H.
Qed.

End UniTrimming.

(* ================================================================== *)
(** ** Substring tests under lowercasing and trimming, over every text *)

Section UniSubstrings.

Variable U : Uni.unicode.

Lemma uni_str_in_lstrip (p s : Uni.text) :
  UniSpec.starts_nonspace U p = true -> Uni.str_in p s = true ->
  Uni.str_in p (Uni.lstrip U s) = true.
Proof.
  destruct p as [|a p]; [discriminate|]. cbn [UniSpec.starts_nonspace].
  intros Ha. apply negb_true_iff in Ha.
  induction s as [|c s IH]; [easy|].
  intros H. cbn [Uni.lstrip]. destruct (Uni.is_space U c) eqn:Hc; [|exact H].
  apply IH. cbn [Uni.str_in] in H. apply orb_true_iff in H as [H|H]; [|exact H].
  cbn [Uni.startswith] in H. apply andb_true_iff in H as [Hac _].
  apply N.eqb_eq in Hac. congruence.
Qed.

Lemma uni_startswith_nonempty (p s : Uni.text) :
  UniSpec.ends_nonspace U p = true -> Uni.startswith p s = true ->
  exists c s', s = c :: s'.
Proof.
  intros Hp H. destruct p as [|a p']; [discriminate|].
  destruct s as [|c s']; [discriminate|]. now exists c, s'.
Qed.

Lemma uni_startswith_rstrip (p s : Uni.text) :
  UniSpec.ends_nonspace U p = true -> Uni.startswith p s = true ->
  Uni.startswith p (Uni.rstrip U s) = true.
Proof.
  revert p. induction s as [|c s IH]; intros p Hp H.
  - destruct (uni_startswith_nonempty p [] Hp H) as (? & ? & ?).
    discriminate.
  - destruct p as [|a p]; [discriminate|].
    cbn [Uni.startswith] in H. apply andb_true_iff in H as [Hac Hps].
    apply N.eqb_eq in Hac. subst c.
    destruct p as [|a' p].
    + cbn [UniSpec.ends_nonspace] in Hp. apply negb_true_iff in Hp.
      cbn [Uni.rstrip]. rewrite Hp.
      destruct (Uni.rstrip U s); cbn [Uni.startswith]; now rewrite N.eqb_refl.
    + assert (Hp' : UniSpec.ends_nonspace U (a' :: p) = true) by exact Hp.
      specialize (IH (a' :: p) Hp' Hps).
      destruct (uni_startswith_nonempty _ _ Hp' IH) as (c' & r & Hr).
      cbn [Uni.rstrip]. rewrite Hr in *.
      cbn [Uni.startswith] in *. now rewrite N.eqb_refl.
Qed.

Lemma uni_str_in_nonempty (p s : Uni.text) :
  UniSpec.ends_nonspace U p = true -> Uni.str_in p s = true ->
  exists c s', s = c :: s'.
Proof.
  intros Hp H. destruct s as [|c s']; [|now exists c, s'].
  cbn [Uni.str_in] in H. rewrite orb_false_r in H.
  exact (uni_startswith_nonempty p [] Hp H).
Qed.

Lemma uni_str_in_rstrip (p s : Uni.text) :
  UniSpec.ends_nonspace U p = true -> Uni.str_in p s = true ->
  Uni.str_in p (Uni.rstrip U s) = true.
Proof.
  intros Hp. induction s as [|c s IH]; intros H.
  - exact H.
  - cbn [Uni.str_in] in H. apply orb_true_iff in H as [H|H].
    + pose proof (uni_startswith_rstrip p (c :: s) Hp H) as Hs.
      destruct (Uni.rstrip U (c :: s)); cbn [Uni.str_in]; now rewrite Hs.
    + specialize (IH H).
      destruct (uni_str_in_nonempty _ _ Hp IH) as (c' & r & Hr).
      cbn [Uni.rstrip]. rewrite Hr in *.
      change (Uni.str_in p (c :: c' :: r))
        with (Uni.startswith p (c :: c' :: r) || Uni.str_in p (c' :: r)).
      rewrite IH. apply orb_true_r.
Qed.

Lemma uni_str_in_strip (p s : Uni.text) :
  UniSpec.starts_nonspace U p = true -> UniSpec.ends_nonspace U p = true ->
  Uni.str_in p s = true -> Uni.str_in p (Uni.strip U s) = true.
Proof.
  intros Hs He H. unfold Uni.strip.
  apply uni_str_in_rstrip; [exact He|]. now apply uni_str_in_lstrip.
Qed.

Lemma plain_is_ascii (p : Uni.text) :
  forallb Uni.plain p = true -> forallb Uni.is_ascii p = true.
Proof.
  induction p as [|c p IH]; [reflexivity|]. cbn [forallb].
  intros H. apply andb_true_iff in H as [Hc Hp].
  unfold Uni.plain in Hc. apply andb_true_iff in Hc as [Hc _].
  now rewrite Hc, IH.
Qed.

Hypothesis space_on_ascii : Uni.space_on_ascii U.

Lemma uni_starts_nonspace_ascii (p : Uni.text) :
  forallb Uni.is_ascii p = true ->
  UniSpec.starts_nonspace U p = UniSpec.starts_nonspace Uni.ascii_tables p.
Proof.
  destruct p as [|c p]; [reflexivity|]. cbn [forallb]. intros H.
  apply andb_true_iff in H as [Hc _].
  cbn [UniSpec.starts_nonspace]. now rewrite (space_on_ascii c Hc).
Qed.

Lemma uni_ends_nonspace_ascii (p : Uni.text) :
  forallb Uni.is_ascii p = true ->
  UniSpec.ends_nonspace U p = UniSpec.ends_nonspace Uni.ascii_tables p.
Proof.
  induction p as [|c p IH]; [reflexivity|]. cbn [forallb]. intros H.
  apply andb_true_iff in H as [Hc Hp].
  destruct p as [|c' p].
  - cbn [UniSpec.ends_nonspace]. now rewrite (space_on_ascii c Hc).
  - exact (IH Hp).
Qed.

(** A stable phrase that occurs in the lowercased input still occurs in
    the normalised text [user_input.lower().strip()]. *)
Lemma uni_str_in_trimmed (p s : Uni.text) :
  UniSpec.stable_phrase p = true -> Uni.str_in p s = true ->
  Uni.str_in p (Uni.strip U s) = true.
Proof.
  unfold UniSpec.stable_phrase. intros Hp H.
  apply andb_true_iff in Hp as [Hp He].
  apply andb_true_iff in Hp as [Hl Hs].
  pose proof (plain_is_ascii p Hl) as Ha.
  apply uni_str_in_strip; [| |exact H].
  - now rewrite uni_starts_nonspace_ascii.
  - now rewrite uni_ends_nonspace_ascii.
Qed.

Hypothesis lower_keeps_plain : Uni.lower_keeps_plain U.

Lemma uni_str_in_normalised (p s : Uni.text) :
  UniSpec.stable_phrase p = true -> Uni.str_in p s = true ->
  Uni.str_in p (Uni.strip U (Uni.lower U s)) = true.
Proof.
  intros Hp H. apply uni_str_in_trimmed; [exact Hp|].
  apply lower_keeps_plain; [|exact H].
  unfold UniSpec.stable_phrase in Hp.
  apply andb_true_iff in Hp as [Hp _]. now apply andb_true_iff in Hp as [Hp _].
Qed.

Lemma uni_mentions_normalised (phrases : list Uni.text) (s : Uni.text) :
  forallb UniSpec.stable_phrase phrases = true ->
  UniSpec.mentions U s phrases = true ->
  UniChatbot._contains_any (Uni.strip U (Uni.lower U s)) phrases = true.
Proof.
  unfold UniSpec.mentions, UniChatbot._contains_any. intros Hall H.
  rewrite forallb_forall in Hall.
  apply orb_true_iff in H as [H|H]; [|exact H].
  apply orb_true_iff in H as [H|H];
    apply existsb_exists in H as (p & Hin & Hp);
    apply existsb_exists; exists p; (split; [exact Hin|]).
  - apply uni_str_in_normalised; [now apply Hall|exact Hp].
  - apply uni_str_in_trimmed; [now apply Hall|exact Hp].
Qed.

End UniSubstrings.

(* ================================================================== *)
(** ** The classifier and the reply selector, over every text *)

Section UniClassifier.

Variable U : Uni.unicode.
Variable sentiment_polarity : Uni.text -> Q.

Lemma uni_intent_of_label (text : Uni.text) :
  mem (UniChatbot.intent_of text) Spec.intent_labels = true.
Proof.
  unfold UniChatbot.intent_of.
  repeat match goal with
         | |- context [if ?b then _ else _] => destruct b; [reflexivity|]
         end.
  reflexivity.
Qed.

Lemma uni_emotion_label (user_input : Uni.text) :
  mem (Chatbot.emotion
         (UniChatbot.detect_intent_and_emotion U sentiment_polarity user_input))
      Spec.emotion_labels = true.
Proof.
  unfold UniChatbot.detect_intent_and_emotion. cbn [Chatbot.emotion].
  destruct (UniChatbot._has_negated U _ UniChatbot.positive_terms);
    [reflexivity|].
  destruct (UniChatbot._has_negated U _ UniChatbot.negative_terms);
    [reflexivity|].
  apply emotion_of_polarity_label.
Qed.

Lemma uni_get_response_blank (user_input : Uni.text) :
  UniSpec.all_space U user_input = true ->
  UniChatbot.get_response U sentiment_polarity user_input
  = Chatbot.default_prompt.
Proof.
  intros H. unfold UniChatbot.get_response.
  rewrite (uni_strip_all_space U _ H). cbn [Uni.truthy negb].
  now rewrite orb_true_r.
Qed.

Lemma uni_get_response_canned (user_input : Uni.text) :
  mem (UniChatbot.get_response U sentiment_polarity user_input)
      Spec.canned_replies = true.
Proof.
  unfold UniChatbot.get_response. cbv zeta.
  repeat match goal with
         | |- context [if ?b then _ else _] => destruct b; [reflexivity|]
         end.
  reflexivity.
Qed.

Lemma uni_has_negated_nil (terms : list Uni.text) :
  UniChatbot._has_negated U [] terms = false.
Proof.
  unfold UniChatbot._has_negated.
  induction terms as [|t terms IH]; [reflexivity|].
  cbn [existsb]. rewrite IH, orb_false_r. reflexivity.
Qed.

Lemma uni_truthy_strip (s : Uni.text) :
  Uni.truthy (Uni.strip U s) = true -> Uni.truthy s = true.
Proof. destruct s; [discriminate|reflexivity]. Qed.

Lemma uni_get_response_guard (user_input : Uni.text) :
  Uni.truthy (Uni.strip U user_input) = true ->
  negb (Uni.truthy user_input) || negb (Uni.truthy (Uni.strip U user_input))
  = false.
Proof. intros H. now rewrite H, (uni_truthy_strip _ H). Qed.

Lemma uni_rstrip_keeps_start (s : Uni.text) :
  UniSpec.starts_nonspace U s = true -> Uni.rstrip U s <> [].
Proof.
  destruct s as [|c s]; [discriminate|]. cbn [UniSpec.starts_nonspace].
  intros H. apply negb_true_iff in H. cbn [Uni.rstrip].
  destruct (Uni.rstrip U s); rewrite ?H; discriminate.
Qed.

Lemma uni_lstrip_nonblank (s : Uni.text) :
  UniSpec.all_space U s = false ->
  UniSpec.starts_nonspace U (Uni.lstrip U s) = true.
Proof.
  unfold UniSpec.all_space. induction s as [|c s IH]; [discriminate|].
  cbn [forallb Uni.lstrip].
  destruct (Uni.is_space U c) eqn:Hc; [exact IH|].
  intros _. cbn. now rewrite Hc.
Qed.

Lemma uni_strip_truthy_iff (s : Uni.text) :
  Uni.truthy (Uni.strip U s) = negb (UniSpec.all_space U s).
Proof.
  destruct (UniSpec.all_space U s) eqn:H.
  - now rewrite (uni_strip_all_space U s H).
  - pose proof (uni_rstrip_keeps_start _ (uni_lstrip_nonblank s H)) as H'.
    unfold Uni.strip. destruct (Uni.rstrip U (Uni.lstrip U s));
      [congruence|reflexivity].
Qed.

End UniClassifier.

(* ================================================================== *)
(** ** On ASCII text the tables are those of ASCII *)

Section UniAscii.

Variable U : Uni.unicode.
Hypothesis word_on_ascii : Uni.word_on_ascii U.

Lemma ascii_pos_lit (l : Uni.text) (p : option N) (s : Uni.text) :
  UniSpec.ascii_pos (p, s) -> Forall UniSpec.ascii_pos (UniRe.lit l p s).
Proof.
  revert p s. induction l as [|a l IH]; intros p s Hp; simpl.
  - constructor; [exact Hp|constructor].
  - destruct s as [|b s]; [constructor|].
    destruct (a =? b)%N; [|constructor].
    apply IH. destruct Hp as [_ Hs]. cbn [snd forallb] in Hs.
    apply andb_true_iff in Hs as [Hb Hs]. now split.
Qed.

Lemma word_plus_ascii (s : Uni.text) :
  forallb Uni.is_ascii s = true ->
  UniRe.word_plus U s = UniRe.word_plus Uni.ascii_tables s /\
  Forall UniSpec.ascii_pos (UniRe.word_plus U s).
Proof.
  induction s as [|c s IH]; [split; [reflexivity|constructor]|].
  cbn [forallb]. intros H. apply andb_true_iff in H as [Hc Hs].
  destruct (IH Hs) as [E F]. cbn [UniRe.word_plus].
  rewrite (word_on_ascii c Hc), E. cbn [Uni.is_word Uni.ascii_tables].
  split; [reflexivity|].
  destruct (Uni.ascii_word c); [|constructor].
  rewrite <- E. apply Forall_app. split; [exact F|].
  constructor; [now split|constructor].
Qed.

Lemma at_boundary_ascii (p : UniRe.pos) :
  UniSpec.ascii_pos p ->
  UniRe.at_boundary U p = UniRe.at_boundary Uni.ascii_tables p.
Proof.
  destruct p as [[c|] s]; intros [Hc Hs]; cbn [fst snd] in *;
    unfold UniRe.at_boundary, UniRe.word_before, UniRe.word_after;
    cbn [fst snd]; rewrite ?(word_on_ascii c Hc);
    (destruct s as [|d s]; [reflexivity|]);
    cbn [forallb] in Hs; apply andb_true_iff in Hs as [Hd _];
    now rewrite (word_on_ascii d Hd).
Qed.

Lemma run_ascii (r : UniRe.regex) (p : UniRe.pos) :
  UniSpec.ascii_pos p ->
  UniRe.run U r p = UniRe.run Uni.ascii_tables r p /\
  Forall UniSpec.ascii_pos (UniRe.run U r p).
Proof.
  revert p. induction r as [l| | |r1 IH1 r2 IH2|r1 IH1 r2 IH2|r IH];
    intros p Hp; cbn [UniRe.run].
  - split; [reflexivity|]. destruct p as [q s]. now apply ascii_pos_lit.
  - rewrite (at_boundary_ascii p Hp). split; [reflexivity|].
    destruct (UniRe.at_boundary Uni.ascii_tables p); [|constructor].
    constructor; [exact Hp|constructor].
  - destruct Hp as [_ Hs]. now apply word_plus_ascii.
  - destruct (IH1 p Hp) as [E F]. rewrite <- E. split.
    + clear E. induction F as [|x l Hx _ IHl]; [reflexivity|].
      cbn [flat_map]. now rewrite (proj1 (IH2 x Hx)), IHl.
    + apply (Forall_flat_map UniSpec.ascii_pos); [|exact F].
      intros x Hx. apply (IH2 x Hx).
  - destruct (IH1 p Hp) as [E1 F1], (IH2 p Hp) as [E2 F2].
    rewrite <- E1, <- E2. split; [reflexivity|]. apply Forall_app. now split.
  - destruct (IH p Hp) as [E F]. rewrite <- E. split; [reflexivity|].
    apply Forall_app. split; [exact F|]. constructor; [exact Hp|constructor].
Qed.

Lemma search_from_ascii (r : UniRe.regex) (s : Uni.text) (p : option N) :
  UniSpec.ascii_pos (p, s) ->
  UniRe.search_from U r p s = UniRe.search_from Uni.ascii_tables r p s.
Proof.
  revert p. induction s as [|c s IH]; intros p Hp; cbn [UniRe.search_from];
    rewrite (proj1 (run_ascii r _ Hp)); [reflexivity|].
  destruct (UniRe.run Uni.ascii_tables r (p, c :: s)); [|reflexivity].
  apply IH. destruct Hp as [_ Hs]. cbn [snd forallb] in Hs.
  apply andb_true_iff in Hs as [Hc Hs]. now split.
Qed.

Lemma search_ascii (r : UniRe.regex) (s : Uni.text) :
  forallb Uni.is_ascii s = true ->
  UniRe.search U r s = UniRe.search Uni.ascii_tables r s.
Proof. intros H. apply search_from_ascii. now split. Qed.

Lemma has_negated_ascii (text : Uni.text) (terms : list Uni.text) :
  forallb Uni.is_ascii text = true ->
  UniChatbot._has_negated U text terms
  = UniChatbot._has_negated Uni.ascii_tables text terms.
Proof.
  intros H. unfold UniChatbot._has_negated.
  apply existsb_ext_in. intros t _.
  apply existsb_ext_in. intros p _. now apply search_ascii.
Qed.

Hypothesis space_on_ascii : Uni.space_on_ascii U.

Lemma lstrip_ascii (s : Uni.text) :
  forallb Uni.is_ascii s = true ->
  Uni.lstrip U s = Uni.lstrip Uni.ascii_tables s.
Proof.
  induction s as [|c s IH]; [reflexivity|]. cbn [forallb].
  intros H. apply andb_true_iff in H as [Hc Hs].
  cbn [Uni.lstrip]. rewrite (space_on_ascii c Hc), (IH Hs). reflexivity.
Qed.

Lemma rstrip_ascii (s : Uni.text) :
  forallb Uni.is_ascii s = true ->
  Uni.rstrip U s = Uni.rstrip Uni.ascii_tables s.
Proof.
  induction s as [|c s IH]; [reflexivity|]. cbn [forallb].
  intros H. apply andb_true_iff in H as [Hc Hs].
  cbn [Uni.rstrip]. rewrite (space_on_ascii c Hc), (IH Hs). reflexivity.
Qed.

Lemma lstrip_is_ascii (T : Uni.unicode) (s : Uni.text) :
  forallb Uni.is_ascii s = true ->
  forallb Uni.is_ascii (Uni.lstrip T s) = true.
Proof.
  induction s as [|c s IH]; [reflexivity|]. intros H.
  cbn [Uni.lstrip]. destruct (Uni.is_space T c); [|exact H].
  cbn [forallb] in H. apply andb_true_iff in H as [_ Hs]. now apply IH.
Qed.

Lemma rstrip_is_ascii (T : Uni.unicode) (s : Uni.text) :
  forallb Uni.is_ascii s = true ->
  forallb Uni.is_ascii (Uni.rstrip T s) = true.
Proof.
  induction s as [|c s IH]; [reflexivity|]. cbn [forallb]. intros H.
  apply andb_true_iff in H as [Hc Hs]. specialize (IH Hs).
  cbn [Uni.rstrip]. destruct (Uni.rstrip T s) as [|d r].
  - destruct (Uni.is_space T c); [reflexivity|]. cbn. now rewrite Hc.
  - cbn [forallb] in *. now rewrite Hc.
Qed.

Lemma strip_ascii (s : Uni.text) :
  forallb Uni.is_ascii s = true ->
  Uni.strip U s = Uni.strip Uni.ascii_tables s /\
  forallb Uni.is_ascii (Uni.strip U s) = true.
Proof.
  intros H. unfold Uni.strip. split.
  - rewrite (lstrip_ascii s H).
    apply rstrip_ascii. now apply lstrip_is_ascii.
  - now apply rstrip_is_ascii, lstrip_is_ascii.
Qed.

Hypothesis lower_on_ascii : Uni.lower_on_ascii U.

Lemma lower_ascii (s : Uni.text) :
  forallb Uni.is_ascii s = true ->
  Uni.lower U s = Uni.lower Uni.ascii_tables s /\
  forallb Uni.is_ascii (Uni.lower U s) = true.
Proof.
  intros H. rewrite (lower_on_ascii s H). split; [reflexivity|].
  clear lower_on_ascii. induction s as [|c s IH]; [reflexivity|].
  cbn [forallb map] in *. apply andb_true_iff in H as [Hc Hs].
  rewrite (IH Hs), andb_true_r.
  unfold Uni.ascii_lower_char, Uni.ascii_upper, Uni.in_range, Uni.is_ascii in *.
  destruct ((65 <=? c)%N && (c <=? 90)%N) eqn:E; [|exact Hc].
  apply andb_true_iff in E as [_ E].
  apply N.leb_le in E. apply N.ltb_lt. lia.
Qed.

Variable sentiment_polarity : Uni.text -> Q.

(** On an ASCII input the classifier is the one of the ASCII tables. *)
Lemma detect_ascii (user_input : Uni.text) :
  forallb Uni.is_ascii user_input = true ->
  UniChatbot.detect_intent_and_emotion U sentiment_polarity user_input
  = UniChatbot.detect_intent_and_emotion Uni.ascii_tables sentiment_polarity
      user_input.
Proof.
  intros H. unfold UniChatbot.detect_intent_and_emotion. cbv zeta.
  destruct (lower_ascii user_input H) as [El Hl].
  destruct (strip_ascii _ Hl) as [Es Hs].
  rewrite !(has_negated_ascii _ _ Hs), Es, El. reflexivity.
Qed.

End UniAscii.

(** The tables of ASCII have the properties asked of Python's. *)
Lemma ascii_tables_laws :
  Uni.word_on_ascii Uni.ascii_tables /\
  Uni.space_on_ascii Uni.ascii_tables /\
  Uni.lower_on_ascii Uni.ascii_tables /\
  Uni.space_not_word Uni.ascii_tables.
Proof.
  split; [|split; [|split]]; try (intros ? ?; reflexivity).
  intros c. cbn [Uni.is_space Uni.is_word Uni.ascii_tables].
  unfold Uni.ascii_space, Uni.ascii_word, Uni.in_range.
  intros H.
  repeat match goal with
         | |- context [(?a <=? ?b)%N] => destruct (N.leb_spec a b)
         | H : context [(?a <=? ?b)%N] |- _ => destruct (N.leb_spec a b)
         | |- context [(?a =? ?b)%N] => destruct (N.eqb_spec a b)
         end; cbn in *; try reflexivity; try discriminate; lia.
Qed.

Lemma ascii_lower_char_idem (c : N) :
  Uni.ascii_lower_char (Uni.ascii_lower_char c) = Uni.ascii_lower_char c.
Proof.
  unfold Uni.ascii_lower_char, Uni.ascii_upper, Uni.in_range.
  destruct ((65 <=? c)%N && (c <=? 90)%N) eqn:E; [|now rewrite E].
  apply andb_true_iff in E as [E1 E2]. apply N.leb_le in E1, E2.
  destruct (N.leb_spec (c + 32) 90) as [L|L]; [lia|].
  now rewrite andb_false_r.
Qed.

Lemma ascii_lower_char_plain (c : N) :
  Uni.plain c = true -> Uni.ascii_lower_char c = c.
Proof.
  unfold Uni.plain, Uni.ascii_lower_char. intros H.
  apply andb_true_iff in H as [_ H]. apply negb_true_iff in H. now rewrite H.
Qed.

Section CharByChar.

(** A lowercasing that maps the characters one by one and leaves the
    plain ones as they are. *)
Variable f : N -> N.
Hypothesis f_plain : forall c, Uni.plain c = true -> f c = c.

Lemma startswith_map_plain (p s : Uni.text) :
  forallb Uni.plain p = true -> Uni.startswith p s = true ->
  Uni.startswith p (map f s) = true.
Proof.
  revert s. induction p as [|a p IH]; intros [|b s]; simpl; try easy.
  intros Hp H. apply andb_true_iff in Hp as [Ha Hp].
  apply andb_true_iff in H as [Hab Hps]. apply N.eqb_eq in Hab. subst b.
  now rewrite (f_plain a Ha), N.eqb_refl, IH.
Qed.

Lemma str_in_map_plain (p s : Uni.text) :
  forallb Uni.plain p = true -> Uni.str_in p s = true ->
  Uni.str_in p (map f s) = true.
Proof.
  intros Hp. induction s as [|c s IH]; cbn [Uni.str_in map]; intros H.
  - rewrite orb_false_r in *. now apply (startswith_map_plain p []).
  - apply orb_true_iff in H as [H|H]; apply orb_true_iff.
    + left. now apply (startswith_map_plain p (c :: s)).
    + right. now apply IH.
Qed.

End CharByChar.

(** The tables of ASCII lowercase letter by letter. *)
Lemma ascii_tables_lower :
  Uni.lower_idempotent Uni.ascii_tables /\
  Uni.lower_keeps_plain Uni.ascii_tables.
Proof.
  split.
  - intros s. cbn [Uni.lower Uni.ascii_tables]. rewrite map_map.
    apply map_ext. apply ascii_lower_char_idem.
  - intros p s. apply str_in_map_plain. apply ascii_lower_char_plain.
Qed.

Lemma sample_lower_char_ascii (c : N) :
  Uni.is_ascii c = true -> Uni.sample_lower_char c = Uni.ascii_lower_char c.
Proof.
  unfold Uni.is_ascii, Uni.sample_lower_char. intros H. apply N.ltb_lt in H.
  destruct (N.eqb_spec c 201) as [E|_]; [lia|].
  destruct (N.eqb_spec c 8490) as [E|_]; [lia|]. reflexivity.
Qed.

(** The sample tables have every property asked of Python's. *)
Lemma sample_tables_laws :
  Uni.word_on_ascii Uni.sample_tables /\
  Uni.space_on_ascii Uni.sample_tables /\
  Uni.lower_on_ascii Uni.sample_tables /\
  Uni.space_not_word Uni.sample_tables /\
  Uni.lower_idempotent Uni.sample_tables /\
  Uni.lower_keeps_plain Uni.sample_tables.
Proof.
  split; [|split; [|split; [|split; [|split]]]].
  - intros c H. cbn [Uni.is_word Uni.sample_tables].
    unfold Uni.is_ascii in H. apply N.ltb_lt in H.
    destruct (N.eqb_spec c 233) as [E|_]; [lia|].
    destruct (N.eqb_spec c 201) as [E|_]; [lia|].
    destruct (N.eqb_spec c 8490) as [E|_]; [lia|].
    now rewrite !orb_false_r.
  - intros c H. cbn [Uni.is_space Uni.sample_tables].
    unfold Uni.is_ascii in H. apply N.ltb_lt in H.
    destruct (N.eqb_spec c 160) as [E|_]; [lia|]. apply orb_false_r.
  - intros s H. cbn [Uni.lower Uni.sample_tables].
    apply map_ext_in. intros c Hc. apply sample_lower_char_ascii.
    rewrite forallb_forall in H. now apply H.
  - intros c. cbn [Uni.is_space Uni.is_word Uni.sample_tables]. intros H.
    apply orb_true_iff in H as [H|H].
    + pose proof (proj2 (proj2 (proj2 ascii_tables_laws)) c H) as Hw.
      cbn [Uni.is_word Uni.ascii_tables] in Hw. rewrite Hw.
      destruct (N.eqb_spec c 233) as [E|_];
        [subst c; vm_compute in H; discriminate|].
      destruct (N.eqb_spec c 201) as [E|_];
        [subst c; vm_compute in H; discriminate|].
      destruct (N.eqb_spec c 8490) as [E|_];
        [subst c; vm_compute in H; discriminate|reflexivity].
    + apply N.eqb_eq in H. subst c. reflexivity.
  - intros s. cbn [Uni.lower Uni.sample_tables]. rewrite map_map.
    apply map_ext. intros c. unfold Uni.sample_lower_char.
    destruct (N.eqb_spec c 201) as [E|N1]; [reflexivity|].
    destruct (N.eqb_spec c 8490) as [E|N2]; [reflexivity|].
    rewrite ascii_lower_char_idem.
    assert (H : forall k, (128 <= k)%N ->
                Uni.ascii_lower_char c = k -> c = k).
    { intros k Hk. unfold Uni.ascii_lower_char, Uni.ascii_upper, Uni.in_range.
      destruct ((65 <=? c)%N && (c <=? 90)%N) eqn:E; [|easy].
      apply andb_true_iff in E as [_ E]. apply N.leb_le in E. lia. }
    destruct (N.eqb_spec (Uni.ascii_lower_char c) 201) as [E|_];
      [apply H in E; [contradiction|lia]|].
    destruct (N.eqb_spec (Uni.ascii_lower_char c) 8490) as [E|_];
      [apply H in E; [contradiction|lia]|].
    reflexivity.
  - intros p s. apply str_in_map_plain. intros c Hc.
    rewrite sample_lower_char_ascii; [now apply ascii_lower_char_plain|].
    unfold Uni.plain in Hc. now apply andb_true_iff in Hc as [Hc _].
Qed.

Lemma uni_split_words_nonempty (U : Uni.unicode) (c : N) (s : Uni.text) :
  Uni.is_word U c = true ->
  exists w ws, UniSpec.split_words U (c :: s) = w :: ws.
Proof. intros H. rewrite (uni_split_words_word U s c H). eauto. Qed.

Lemma uni_split_words_app (U : Uni.unicode) (s1 s2 : Uni.text) (c : N) :
  Uni.is_word U c = false ->
  UniSpec.split_words U (s1 ++ c :: s2)%list
  = (UniSpec.split_words U s1 ++ UniSpec.split_words U s2)%list.
Proof.
  intros Hc. induction s1 as [|a s1 IH].
  - simpl app. now rewrite uni_split_words_nonword.
  - cbn [app]. rewrite !uni_split_words_cons.
    destruct (Uni.is_word U a) eqn:Ha; [|exact IH].
    destruct s1 as [|b s1].
    + cbn [app]. rewrite Hc. now rewrite (uni_split_words_nonword U s2 c Hc).
    + cbn [app] in *. destruct (Uni.is_word U b) eqn:Hb.
      * rewrite IH.
        destruct (uni_split_words_nonempty U b s1 Hb) as (w & ws & E).
        now rewrite E.
      * now rewrite IH.
Qed.

Lemma uni_count_in_app (words l1 l2 : list Uni.text) :
  UniJournal.count_in words (l1 ++ l2)
  = (UniJournal.count_in words l1 + UniJournal.count_in words l2)%Z.
Proof.
  rewrite !uni_count_in_present. unfold UniSpec.count_present.
  rewrite filter_app, length_app. lia.
Qed.

Lemma uni_detect_lower (U : Uni.unicode) (tb : Uni.text -> Q) (s : Uni.text) :
  Uni.lower_idempotent U ->
  UniChatbot.detect_intent_and_emotion U tb (Uni.lower U s)
  = UniChatbot.detect_intent_and_emotion U tb s.
Proof.
  intros H. unfold UniChatbot.detect_intent_and_emotion. now rewrite H.
Qed.

Section UniStore.

Variable U : Uni.unicode.
Variable sentiment_polarity : Uni.text -> Q.

Lemma uni_step_counts (db : UniApp.database) (a : UniApp.action) :
  List.length (UniApp.journal_entries (UniApp.step U sentiment_polarity db a))
    = (List.length db.(UniApp.journal_entries)
       + (if UniSpec.saves_entry U a then 1 else 0))%nat /\
  List.length (UniApp.mood_signals (UniApp.step U sentiment_polarity db a))
    = (List.length db.(UniApp.mood_signals)
       + (if UniSpec.saves_signal U a then 1 else 0))%nat.
Proof.
  destruct a as [now prompt|now entry|now entry];
    cbn [UniApp.step UniSpec.saves_entry UniSpec.saves_signal].
  - unfold UniApp.chat_turn. destruct (Uni.truthy prompt);
      cbn [UniApp.journal_entries UniApp.mood_signals];
      rewrite ?length_app; cbn [List.length]; lia.
  - unfold UniApp.journal_submit. rewrite uni_strip_truthy_iff.
    destruct (negb (UniSpec.all_space U entry)); [|lia].
    destruct (UniJournal.analyze_emotion U entry) as [mood polarity].
    cbn [UniApp.journal_entries UniApp.mood_signals].
    rewrite !length_app. cbn [List.length]. lia.
  - unfold UniApp.flask_journal. cbv zeta. rewrite uni_strip_truthy_iff.
    destruct (negb (UniSpec.all_space U entry)); [|lia].
    destruct (UniJournal.analyze_emotion U (Uni.strip U entry))
      as [mood polarity].
    cbn [UniApp.journal_entries UniApp.mood_signals].
    rewrite !length_app. cbn [List.length]. lia.
Qed.

Lemma uni_steps_count (actions : list UniApp.action) (db : UniApp.database) :
  List.length
    (UniApp.journal_entries
       (fold_left (UniApp.step U sentiment_polarity) actions db))
    = (List.length db.(UniApp.journal_entries)
       + List.length (filter (UniSpec.saves_entry U) actions))%nat /\
  List.length
    (UniApp.mood_signals
       (fold_left (UniApp.step U sentiment_polarity) actions db))
    = (List.length db.(UniApp.mood_signals)
       + List.length (filter (UniSpec.saves_signal U) actions))%nat.
Proof.
  revert db. induction actions as [|a actions IH]; intros db.
  - cbn. lia.
  - cbn [fold_left filter].
    destruct (IH (UniApp.step U sentiment_polarity db a)) as [H1 H2].
    destruct (uni_step_counts db a) as [H3 H4].
    rewrite H1, H2, H3, H4.
    destruct (UniSpec.saves_entry U a), (UniSpec.saves_signal U a);
      cbn [List.length]; lia.
Qed.

End UniStore.

(* ================================================================== *)
(** ** The properties of the specification that read the text itself

    They are stated for every text and for every interpreter: the
    Unicode tables are universally quantified, and a property that needs
    a fact about them has it as a hypothesis. *)

Lemma has_negated_examples (U : Uni.unicode) (terms : list Uni.text)
    (examples : list string) :
  Uni.word_on_ascii U ->
  forallb (fun s => forallb Uni.is_ascii (Uni.str s)) examples = true ->
  map (fun s => UniChatbot._has_negated U (Uni.str s) terms) examples
  = map (fun s => UniChatbot._has_negated Uni.ascii_tables (Uni.str s) terms)
        examples.
Proof.
  intros Hw H. apply map_ext_in. intros s Hs.
  rewrite forallb_forall in H. now apply has_negated_ascii, H.
Qed.

(** C2 (amended).  [analyze_emotion] lowercases its input and then does
    what the specification describes: it takes the maximal runs of word
    characters as tokens, counts those in the positive and in the negative
    word set, returns the polarity (pos - neg)/(pos + neg) when
    pos + neg > 0 and 0.0 otherwise, and the mood "positive" above 0.1,
    "negative" below -0.1 and "neutral" otherwise.  This holds for every
    text, whatever the interpreter takes for a word character and for the
    lowercased form of a text.  Being a function of the text alone, it is
    deterministic and has no effect. *)
Theorem analyze_emotion_refines_scorer (U : Uni.unicode)
    (entry_text : Uni.text) :
  UniJournal.tokens_of U entry_text
    = UniSpec.split_words U (Uni.lower U entry_text) /\
  UniJournal.analyze_emotion U entry_text
    = UniSpec.polarity_scorer U (Uni.lower U entry_text).
Proof. split; [apply uni_tokens_of_split|apply uni_analyze_emotion_scorer]. Qed.

(** C2, as stated, fails on a capitalised word: the scorer of the
    specification applied to the text as typed finds no listed token in
    "Happy", while the code answers positive with polarity 1.0; the
    characters are ASCII, and the two models of the text agree. *)
Lemma scorer_without_lowercasing_differs :
  Journal.analyze_emotion "Happy" = ("positive", 1) /\
  Spec.polarity_scorer "Happy" = ("neutral", 0) /\
  UniJournal.analyze_emotion Uni.sample_tables (Uni.str "Happy")
    = ("positive", 1) /\
  UniSpec.polarity_scorer Uni.sample_tables (Uni.str "Happy")
    = ("neutral", 0).
Proof. split; [|split; [|split]]; vm_compute; reflexivity. Qed.

(** Beyond ASCII the result depends on the tables, as it does in Python:
    with the sample tables "calmé" and "éhappy" are one token each and
    none of the listed words, "not happyé" is no negation of "happy",
    "than" followed by the KELVIN SIGN and " you" is a gratitude phrase,
    and a NO-BREAK SPACE is white space for [strip]. *)
Example beyond_ascii :
  UniJournal.analyze_emotion Uni.sample_tables (Uni.str "je suis calmé")
    = ("neutral", 0) /\
  UniJournal.analyze_emotion Uni.sample_tables (Uni.str "éhappy")
    = ("neutral", 0) /\
  UniJournal.analyze_emotion Uni.sample_tables (Uni.str "CALM, calmé")
    = ("positive", 1) /\
  UniChatbot._has_negated Uni.sample_tables (Uni.str "not happyé")
    UniChatbot.positive_terms = false /\
  (UniChatbot.detect_intent_and_emotion Uni.sample_tables (fun _ => 0)
     (Uni.str "Than" ++ 8490%N :: Uni.str " you")%list).(Chatbot.intent)
    = "gratitude" /\
  UniChatbot.get_response Uni.sample_tables (fun _ => 0) [160%N]
    = Chatbot.default_prompt /\
  UniApp.journal_submit Uni.sample_tables "2024-05-01 09:00:00" [160%N]
    UniApp.init_db = UniApp.init_db.
Proof.
  split; [|split; [|split; [|split; [|split; [|split]]]]];
    vm_compute; reflexivity.
Qed.

(** C3.  When the lowercased text matches a negated-positive pattern the
    emotion is "negative" whatever the sentiment estimate is; when it
    matches a negated-negative pattern and no negated-positive one the
    emotion is "neutral".  (The code matches against the lowercased and
    trimmed text, where the patterns match exactly when they match in the
    lowercased text: no white-space character is a word character.)  The
    phrases "not happy", "don't feel good" and "no longer calm" are
    negated-positive matches, as are the other forms of the five
    patterns; a positive word alone, or one that only begins with or
    follows the letters of a pattern, is not.  "I am not happy today"
    gives "negative" and "I am not sad anymore" gives "neutral". *)
Theorem negation_overrides (U : Uni.unicode)
    (sentiment_polarity : Uni.text -> Q) (user_input : Uni.text) :
  Uni.space_not_word U -> Uni.word_on_ascii U ->
  Uni.space_on_ascii U -> Uni.lower_on_ascii U ->
  let lowered := Uni.lower U user_input in
  let ctx :=
    UniChatbot.detect_intent_and_emotion U sentiment_polarity user_input in
  let negated s :=
    UniChatbot._has_negated U (Uni.str s) UniChatbot.positive_terms in
  let emotion_of s :=
    (UniChatbot.detect_intent_and_emotion U sentiment_polarity (Uni.str s))
      .(Chatbot.emotion) in
  (UniChatbot._has_negated U lowered UniChatbot.positive_terms = true ->
   ctx.(Chatbot.emotion) = "negative") /\
  (UniChatbot._has_negated U lowered UniChatbot.positive_terms = false ->
   UniChatbot._has_negated U lowered UniChatbot.negative_terms = true ->
   ctx.(Chatbot.emotion) = "neutral") /\
  (UniChatbot._has_negated U lowered UniChatbot.positive_terms = false ->
   UniChatbot._has_negated U lowered UniChatbot.negative_terms = false ->
   ctx.(Chatbot.emotion)
   = UniChatbot.get_emotion sentiment_polarity (Uni.strip U lowered)) /\
  (forall terms,
     UniChatbot._has_negated U (Uni.strip U lowered) terms
     = UniChatbot._has_negated U lowered terms) /\
  map negated
    [ "not happy"; "don't feel good"; "no longer calm"; "not so good";
      "not that great"; "not feeling okay"; "not feeling so fine";
      "don't feel that happy"; "do not feel fine"; "do not feel so calm";
      "no longer feel content"; "no longer feeling excited" ]
  = [ true; true; true; true; true; true; true; true; true; true; true;
      true ] /\
  map negated
    [ "happy"; "i am happy"; "not happyish"; "knot happy"; "not very happy";
      "not sad"; "no longer so calm"; "not"; "" ]
  = [ false; false; false; false; false; false; false; false; false ] /\
  emotion_of "I am not happy today" = "negative" /\
  emotion_of "I am not sad anymore" = "neutral".
Proof.
  intros Hsw Hw Hs Hl. cbv zeta.
  unfold UniChatbot.detect_intent_and_emotion at 1 2 3.
  cbn [Chatbot.emotion].
  rewrite !(uni_has_negated_strip U Hsw).
  split; [|split; [|split; [|split; [|split; [|split; [|split]]]]]].
  - intros H. now rewrite H.
  - intros H1 H2. now rewrite H1, H2.
  - intros H1 H2. now rewrite H1, H2.
  - intros terms. apply (uni_has_negated_strip U Hsw).
  - rewrite (has_negated_examples U _ _ Hw) by (vm_compute; reflexivity).
    vm_compute. reflexivity.
  - rewrite (has_negated_examples U _ _ Hw) by (vm_compute; reflexivity).
    vm_compute. reflexivity.
  - rewrite (detect_ascii U Hw Hs Hl) by (vm_compute; reflexivity).
    vm_compute. reflexivity.
  - rewrite (detect_ascii U Hw Hs Hl) by (vm_compute; reflexivity).
    vm_compute. reflexivity.
Qed.

(** The override wins over a sentiment estimate that is as positive as it
    can be. *)
Lemma negation_overrides_witness :
  UniChatbot.get_emotion (fun _ => 1) (Uni.str "i do not feel that great")
    = "positive" /\
  (UniChatbot.detect_intent_and_emotion Uni.sample_tables (fun _ => 1)
     (Uni.str "  I do NOT feel that great" ++ [160%N; 32%N])%list)
    .(Chatbot.emotion) = "negative".
Proof.
  split; [reflexivity|].
  destruct sample_tables_laws as (Hw & Hs & Hl & Hsw & _).
  apply (proj1 (negation_overrides Uni.sample_tables (fun _ => 1)
                  (Uni.str "  I do NOT feel that great" ++ [160%N; 32%N])%list
                  Hsw Hw Hs Hl)).
  vm_compute. reflexivity.
Defined.

(** C4.  The intent is the result of the first matching rule of the
    ordered list achievement, gratitude, apology, anger, tiredness,
    overwhelm, confusion, loneliness, anxiety, journal, breathing,
    capability, greet, and "none" when no rule matches; the rules are
    tested on the lowercased and trimmed input.  A text that contains an
    achievement phrase and a gratitude phrase (as typed, lowercased, or
    lowercased and trimmed) has the intent "achievement". *)
Theorem intent_first_match_wins (U : Uni.unicode)
    (sentiment_polarity : Uni.text -> Q) (user_input : Uni.text) :
  Uni.space_on_ascii U -> Uni.lower_keeps_plain U ->
  let text := Uni.strip U (Uni.lower U user_input) in
  let ctx :=
    UniChatbot.detect_intent_and_emotion U sentiment_polarity user_input in
  ctx.(Chatbot.intent) = UniSpec.first_match UniSpec.intent_rules text /\
  map snd UniSpec.intent_rules =
    [ "achievement"; "gratitude"; "apology"; "anger"; "tiredness";
      "overwhelm"; "confusion"; "loneliness"; "anxiety"; "journal";
      "breathing"; "capability"; "greet" ] /\
  (UniSpec.mentions U user_input UniChatbot.achievement_phrases = true ->
   UniSpec.mentions U user_input UniChatbot.gratitude_phrases = true ->
   ctx.(Chatbot.intent) = "achievement").
Proof.
  intros Hs Hk. cbv zeta. unfold UniChatbot.detect_intent_and_emotion.
  cbn [Chatbot.intent].
  split; [reflexivity|split; [reflexivity|]].
  intros H _. unfold UniChatbot.intent_of.
  assert (Hst : forallb UniSpec.stable_phrase UniChatbot.achievement_phrases
                = true) by (vm_compute; reflexivity).
  now rewrite (uni_mentions_normalised U Hs Hk _ _ Hst H).
Qed.

(** A gratitude phrase written with the KELVIN SIGN for its k, and an
    achievement phrase in capitals. *)
Lemma intent_first_match_wins_witness :
  (UniChatbot.detect_intent_and_emotion Uni.sample_tables (fun _ => 0)
     (Uni.str "Than" ++ 8490%N :: Uni.str " you, I PASSED the exam")%list)
    .(Chatbot.intent)
  = "achievement".
Proof.
  destruct sample_tables_laws as (_ & Hs & _ & _ & _ & Hk).
  apply (proj2 (proj2
           (intent_first_match_wins Uni.sample_tables (fun _ => 0)
              (Uni.str "Than" ++ 8490%N :: Uni.str " you, I PASSED the exam")%list
              Hs Hk)));
    vm_compute; reflexivity.
Defined.

(** C7.  The classifier returns a context for every input, with an
    emotion among the three labels and an intent among the fourteen; on
    the empty string, whose lowercased form is empty and where the
    sentiment estimate is 0.0, the context is intent "none" and emotion
    "neutral".  [get_response] answers an empty input, and every input of
    white space only, with the default prompt, and every input with one
    of the canned replies. *)
Theorem classifier_never_fails (U : Uni.unicode)
    (sentiment_polarity : Uni.text -> Q) :
  Uni.lower U [] = [] ->
  sentiment_polarity [] == 0 ->
  (forall user_input,
     let ctx :=
       UniChatbot.detect_intent_and_emotion U sentiment_polarity user_input in
     mem ctx.(Chatbot.emotion) Spec.emotion_labels = true /\
     mem ctx.(Chatbot.intent) Spec.intent_labels = true) /\
  UniChatbot.detect_intent_and_emotion U sentiment_polarity []
    = {| Chatbot.emotion := "neutral"; Chatbot.intent := "none" |} /\
  UniChatbot.get_response U sentiment_polarity [] = Chatbot.default_prompt /\
  (forall user_input,
     UniSpec.all_space U user_input = true ->
     UniChatbot.get_response U sentiment_polarity user_input
       = Chatbot.default_prompt) /\
  (forall user_input,
     mem (UniChatbot.get_response U sentiment_polarity user_input)
         Spec.canned_replies = true).
Proof.
  intros Hnil Hzero. split; [|split; [|split; [|split]]].
  - intros user_input. split; [apply uni_emotion_label|apply uni_intent_of_label].
  - unfold UniChatbot.detect_intent_and_emotion. cbv zeta.
    rewrite Hnil. change (Uni.strip U []) with (@nil N).
    rewrite !uni_has_negated_nil. unfold UniChatbot.get_emotion.
    now rewrite (emotion_of_polarity_zero _ Hzero).
  - now apply uni_get_response_blank.
  - intros. now apply uni_get_response_blank.
  - apply uni_get_response_canned.
Qed.

(** A blank, a NO-BREAK SPACE and a line break are white space only. *)
Lemma classifier_never_fails_witness :
  UniChatbot.detect_intent_and_emotion Uni.sample_tables (fun _ => 0) []
    = {| Chatbot.emotion := "neutral"; Chatbot.intent := "none" |} /\
  UniChatbot.get_response Uni.sample_tables (fun _ => 0) [32%N; 160%N; 10%N]
    = Chatbot.default_prompt.
Proof.
  pose proof (classifier_never_fails Uni.sample_tables (fun _ => 0)
                eq_refl (Qeq_refl 0)) as H.
  split; [apply H|]. apply H. reflexivity.
Defined.

(** C8 (amended).  For every text that has at least one word-boundary
    token and all of whose tokens, taken from the lowercased text as
    [analyze_emotion] takes them, belong to the positive word set,
    [analyze_emotion] returns the mood "positive" and the polarity
    exactly 1.0. *)
Theorem positive_tokens_give_polarity_one (U : Uni.unicode)
    (text : Uni.text) :
  UniJournal.tokens_of U text <> [] ->
  Forall (fun t => Uni.mem t UniJournal.POSITIVE_WORDS = true)
         (UniJournal.tokens_of U text) ->
  UniJournal.analyze_emotion U text = ("positive", 1).
Proof.
  intros Hne Hall. unfold UniJournal.analyze_emotion.
  set (tokens := UniJournal.tokens_of U text) in *.
  rewrite !uni_count_in_present. unfold UniSpec.count_present.
  rewrite (filter_all _ _ Hall).
  rewrite filter_none
    by (eapply Forall_impl; [|exact Hall]; apply uni_positive_not_negative).
  assert (Hlen : (0 < Z.of_nat (List.length tokens))%Z).
  { destruct tokens; [congruence|]. simpl List.length. lia. }
  unfold Journal.polarity_of. cbn [List.length Z.of_nat].
  rewrite Z.add_0_r, Z.sub_0_r.
  destruct (Z.eqb_spec (Z.of_nat (List.length tokens)) 0) as [E|_]; [lia|].
  rewrite (true_div_self _ Hlen). reflexivity.
Qed.

Lemma positive_tokens_give_polarity_one_witness :
  UniJournal.analyze_emotion Uni.sample_tables (Uni.str "Happy, calm... LOVE!")
  = ("positive", 1).
Proof.
  assert (E : UniJournal.tokens_of Uni.sample_tables
                (Uni.str "Happy, calm... LOVE!")
              = map Uni.str ["happy"; "calm"; "love"])
    by (vm_compute; reflexivity).
  apply positive_tokens_give_polarity_one; rewrite E.
  - discriminate.
  - repeat (constructor; [reflexivity|]). constructor.
Defined.

(** C8, as stated, fails on a text without tokens: every token of the
    empty text is in the positive set, and the result is neutral with
    polarity 0.0; likewise for a text of punctuation only. *)
Lemma text_without_tokens_is_neutral :
  Forall (fun t => mem t Journal.POSITIVE_WORDS = true)
         (Re.findall Journal.word_re "") /\
  Journal.analyze_emotion "" = ("neutral", 0) /\
  Forall (fun t => Uni.mem t UniJournal.POSITIVE_WORDS = true)
         (UniJournal.tokens_of Uni.sample_tables (Uni.str "...")) /\
  UniJournal.analyze_emotion Uni.sample_tables (Uni.str "...")
    = ("neutral", 0).
Proof.
  assert (E : UniJournal.tokens_of Uni.sample_tables (Uni.str "...") = [])
    by (vm_compute; reflexivity).
  split; [constructor|split; [reflexivity|split]].
  - rewrite E. constructor.
  - vm_compute. reflexivity.
Qed.

(* ================================================================== *)
(** ** Further properties over every text *)

(** X2.  A text whose tokens are all in the negative word set, and which
    has at least one token, is scored "negative" with polarity exactly
    -1.0; the tokens are those of the lowercased text. *)
Theorem negative_tokens_give_polarity_minus_one (U : Uni.unicode)
    (text : Uni.text) :
  UniJournal.tokens_of U text <> [] ->
  Forall (fun t => Uni.mem t UniJournal.NEGATIVE_WORDS = true)
         (UniJournal.tokens_of U text) ->
  UniJournal.analyze_emotion U text = ("negative", - (1)).
Proof.
  intros Hne Hall. unfold UniJournal.analyze_emotion.
  set (tokens := UniJournal.tokens_of U text) in *.
  rewrite !uni_count_in_present. unfold UniSpec.count_present.
  rewrite (filter_all _ _ Hall).
  rewrite filter_none
    by (eapply Forall_impl; [|exact Hall]; apply uni_negative_not_positive).
  assert (Hlen : (0 < Z.of_nat (List.length tokens))%Z).
  { destruct tokens; [congruence|]. simpl List.length. lia. }
  unfold Journal.polarity_of. cbn [List.length Z.of_nat].
  rewrite Z.add_0_l, Z.sub_0_l.
  destruct (Z.eqb_spec (Z.of_nat (List.length tokens)) 0) as [E|_]; [lia|].
  rewrite (true_div_opp_self _ Hlen). reflexivity.
Qed.

Lemma negative_tokens_give_polarity_minus_one_witness :
  UniJournal.analyze_emotion Uni.ascii_tables
    (Uni.str "Sad, WORRIED; hopeless!")
  = ("negative", - (1)).
Proof.
  assert (E : UniJournal.tokens_of Uni.ascii_tables
                (Uni.str "Sad, WORRIED; hopeless!")
              = map Uni.str ["sad"; "worried"; "hopeless"])
    by (vm_compute; reflexivity).
  apply negative_tokens_give_polarity_minus_one; rewrite E.
  - discriminate.
  - repeat (constructor; [reflexivity|]). constructor.
Defined.

(** X3.  [analyze_emotion] returns "neutral" with polarity exactly 0.0
    exactly when the text has as many positive tokens as negative ones,
    none of either included. *)
Theorem zero_polarity_iff_balanced (U : Uni.unicode) (entry_text : Uni.text) :
  UniJournal.analyze_emotion U entry_text = ("neutral", 0) <->
  UniJournal.count_in UniJournal.POSITIVE_WORDS
    (UniJournal.tokens_of U entry_text)
  = UniJournal.count_in UniJournal.NEGATIVE_WORDS
      (UniJournal.tokens_of U entry_text).
Proof.
  unfold UniJournal.analyze_emotion. cbv zeta.
  set (pos := UniJournal.count_in UniJournal.POSITIVE_WORDS _).
  set (neg := UniJournal.count_in UniJournal.NEGATIVE_WORDS _).
  assert (Hz : Journal.polarity_of pos neg = 0 <-> pos = neg)
    by (apply polarity_of_zero; apply uni_count_in_nonneg).
  split.
  - intros H. apply Hz. now inversion H.
  - intros H. apply Hz in H. rewrite H. reflexivity.
Qed.


(** X5.  Across a character that is not a word character (a blank, a line
    break, punctuation) and where the lowercased form of the joined text
    is the join of the lowercased forms, the tokens of two texts are put
    one after the other and the counts add up; so a text joined to one
    that has no listed word is scored as it is alone. *)
Theorem scoring_of_joined_texts (U : Uni.unicode) (s1 s2 : Uni.text) (c : N) :
  Uni.is_word U c = false ->
  Uni.lower U (s1 ++ c :: s2) = (Uni.lower U s1 ++ c :: Uni.lower U s2)%list ->
  UniJournal.tokens_of U (s1 ++ c :: s2)
    = (UniJournal.tokens_of U s1 ++ UniJournal.tokens_of U s2)%list /\
  (forall words,
     UniJournal.count_in words (UniJournal.tokens_of U (s1 ++ c :: s2))
     = (UniJournal.count_in words (UniJournal.tokens_of U s1)
        + UniJournal.count_in words (UniJournal.tokens_of U s2))%Z) /\
  (UniJournal.count_in UniJournal.POSITIVE_WORDS (UniJournal.tokens_of U s2)
   = 0%Z ->
   UniJournal.count_in UniJournal.NEGATIVE_WORDS (UniJournal.tokens_of U s2)
   = 0%Z ->
   UniJournal.analyze_emotion U (s1 ++ c :: s2)
   = UniJournal.analyze_emotion U s1).
Proof.
  intros Hc Hl.
  assert (Ht : UniJournal.tokens_of U (s1 ++ c :: s2)
               = (UniJournal.tokens_of U s1 ++ UniJournal.tokens_of U s2)%list).
  { rewrite !uni_tokens_of_split, Hl. now apply uni_split_words_app. }
  split; [exact Ht|split].
  - intros words. now rewrite Ht, uni_count_in_app.
  - intros Hp Hn. unfold UniJournal.analyze_emotion. cbv zeta.
    now rewrite Ht, !uni_count_in_app, Hp, Hn, !Z.add_0_r.
Qed.

Lemma scoring_of_joined_texts_witness :
  UniJournal.analyze_emotion Uni.ascii_tables
    (Uni.str "I feel great today, but the weather is what it is")
  = UniJournal.analyze_emotion Uni.ascii_tables (Uni.str "I feel great today").
Proof.
  assert (El : Uni.lower Uni.ascii_tables
                 (Uni.str "I feel great today"
                  ++ 44%N :: Uni.str " but the weather is what it is")%list
               = (Uni.lower Uni.ascii_tables (Uni.str "I feel great today")
                  ++ 44%N :: Uni.lower Uni.ascii_tables
                               (Uni.str " but the weather is what it is"))%list)
    by (vm_compute; reflexivity).
  assert (Ej : Uni.str "I feel great today, but the weather is what it is"
               = (Uni.str "I feel great today"
                  ++ 44%N :: Uni.str " but the weather is what it is")%list)
    by (vm_compute; reflexivity).
  rewrite Ej.
  apply (proj2 (proj2 (scoring_of_joined_texts Uni.ascii_tables _ _ 44%N
                         eq_refl El)));
    vm_compute; reflexivity.
Defined.

Section UniReplies.

Variable U : Uni.unicode.
Variable sentiment_polarity : Uni.text -> Q.

(** X9.  For an input that is not blank and whose intent is one of the
    nine specific ones (achievement to anxiety), [get_response] returns
    the reply written for that intent, whatever the sentiment estimate
    and whatever sentiment words the input contains. *)
Theorem specific_intent_decides_reply (user_input : Uni.text)
    (reply : string) :
  Uni.lower_idempotent U ->
  Uni.truthy (Uni.strip U user_input) = true ->
  In ((UniChatbot.detect_intent_and_emotion U sentiment_polarity user_input)
        .(Chatbot.intent), reply) Facts.intent_replies ->
  UniChatbot.get_response U sentiment_polarity user_input = reply.
Proof.
  intros Hi Hs Hin. unfold UniChatbot.get_response.
  rewrite (uni_get_response_guard U _ Hs), (uni_detect_lower U _ _ Hi).
  cbv zeta.
  set (ctx := UniChatbot.detect_intent_and_emotion U sentiment_polarity
                user_input) in *.
  remember (Chatbot.intent ctx) as i eqn:Ei. clear Ei.
  unfold Facts.intent_replies in Hin. cbn [In] in Hin.
  repeat (destruct Hin as [E|Hin];
          [injection E as Ei Er; rewrite <- Ei, <- Er; reflexivity|]).
  contradiction.
Qed.

(** X10.  For an input that is not blank, whose lowercased form matches a
    negated-positive pattern ("not happy", "don't feel good") and whose
    intent is none of the nine specific ones, [get_response] returns the
    supportive reply offered for a negative emotion, although the input
    contains a word of the positive list. *)
Theorem negated_positive_gets_support (user_input : Uni.text) :
  Uni.lower_idempotent U -> Uni.space_not_word U ->
  Uni.truthy (Uni.strip U user_input) = true ->
  UniChatbot._has_negated U (Uni.lower U user_input) UniChatbot.positive_terms
    = true ->
  mem (UniChatbot.detect_intent_and_emotion U sentiment_polarity user_input)
        .(Chatbot.intent) (map fst Facts.intent_replies) = false ->
  UniChatbot.get_response U sentiment_polarity user_input
  = Facts.supportive_reply.
Proof.
  intros Hi Hsw Hs Hneg Hint. unfold UniChatbot.get_response.
  rewrite (uni_get_response_guard U _ Hs), (uni_detect_lower U _ _ Hi).
  cbv zeta.
  assert (He : (UniChatbot.detect_intent_and_emotion U sentiment_polarity
                  user_input).(Chatbot.emotion) = "negative").
  { unfold UniChatbot.detect_intent_and_emotion. cbn [Chatbot.emotion].
    now rewrite (uni_has_negated_strip U Hsw), Hneg. }
  set (ctx := UniChatbot.detect_intent_and_emotion U sentiment_polarity
                user_input) in *.
  remember (Chatbot.intent ctx) as i eqn:Ei. clear Ei.
  cbn [map fst Facts.intent_replies] in Hint.
  repeat (apply mem_false_cons in Hint as [E Hint]; rewrite E; clear E).
  rewrite He. cbn [String.eqb]. now rewrite orb_true_r.
Qed.

(** X21.  A session stores one journal entry for each saved entry that is
    not white space only and one mood signal for each chat prompt that is
    not empty and each such entry saved on the Streamlit page; an entry
    of white space only or an empty prompt stores nothing. *)
Theorem one_row_per_accepted_text (actions : list UniApp.action) :
  List.length
    (UniApp.journal_entries (UniApp.session U sentiment_polarity actions))
    = List.length (filter (UniSpec.saves_entry U) actions) /\
  List.length
    (UniApp.mood_signals (UniApp.session U sentiment_polarity actions))
    = List.length (filter (UniSpec.saves_signal U) actions) /\
  (forall db a,
     UniSpec.saves_entry U a = false -> UniSpec.saves_signal U a = false ->
     UniApp.step U sentiment_polarity db a = db).
Proof.
  destruct (uni_steps_count U sentiment_polarity actions UniApp.init_db)
    as [H1 H2].
  split; [exact H1|split; [exact H2|]].
  intros [es ss] a He Hs.
  destruct a as [now prompt|now entry|now entry];
    cbn [UniApp.step UniSpec.saves_entry UniSpec.saves_signal] in *.
  - unfold UniApp.chat_turn. now rewrite Hs.
  - unfold UniApp.journal_submit. now rewrite uni_strip_truthy_iff, He.
  - unfold UniApp.flask_journal. cbv zeta.
    now rewrite uni_strip_truthy_iff, He.
Qed.

End UniReplies.

Lemma specific_intent_decides_reply_witness :
  UniChatbot.get_response Uni.sample_tables (fun _ => 1)
    (Uni.str "Thanks, that made me so happy!")
  = "You’re very welcome. I’m glad to be here for you.".
Proof.
  apply specific_intent_decides_reply;
    [apply sample_tables_laws|vm_compute; reflexivity|].
  vm_compute. right. left. reflexivity.
Defined.

Lemma negated_positive_gets_support_witness :
  UniChatbot.get_response Uni.sample_tables (fun _ => 1)
    (Uni.str "I am not happy today")
  = Facts.supportive_reply.
Proof.
  apply negated_positive_gets_support;
    [apply sample_tables_laws|apply sample_tables_laws| | |];
    vm_compute; reflexivity.
Defined.

(** An entry that is a NO-BREAK SPACE and a blank is not stored. *)
Lemma one_row_per_accepted_text_witness :
  UniApp.step Uni.sample_tables (fun _ => 0) UniApp.init_db
    (UniApp.SaveEntry "2024-05-01 09:00:00" [160%N; 32%N])
  = UniApp.init_db.
Proof.
  apply (proj2 (proj2 (one_row_per_accepted_text Uni.sample_tables
                         (fun _ => 0) [])));
    vm_compute; reflexivity.
Defined.
